(** * Hardware monitor: sensor acquisition and fallback selection

    A shallow embedding of [monitor.py]: the temperature probes, the
    discovery pass run by the constructor, the sticky per-reading
    accessors and [read_sensors].

    Modelling conventions.
    - A Python [float] is a rational number ([Q]).  Comparisons are exact;
      [round(x, 1)] is rounding to the nearest tenth, ties to even.  The
      non-finite floats (nan, inf) are outside the model, and so is the
      representation error of binary floats: where a decimal value sits
      exactly on a tie, the float may round the other way.  No statement
      below depends on the direction of a tie.
    - An exception is a value of [exn]; a computation that may raise has
      type [Res A].  Every exception of the model is a subclass of Python's
      [Exception].
    - The backends (pythonnet, WMI, PowerShell, psutil) are the outside
      world.  What they answer at one moment is an [Env]; the world is a
      sequence of such answers, indexed by a clock that advances with every
      probe call, so a backend may come and go between two calls.
    - The monitor object is a record; methods are state-passing functions
      in the monad [M].  The trace of probe calls is kept beside the
      object, so that statements can count the calls. *)

From Stdlib Require Import ZArith QArith Qround Bool List String Ascii Lia.
Import ListNotations.
Local Open Scope string_scope.
Local Open Scope Z_scope.

Set Implicit Arguments.

(** ** Exceptions and results *)

Inductive exn : Type :=
| ValueError
| TypeError
| OverflowError
| ImportError
| AttributeError
| OSError
| TimeoutExpired
| ComError.

Inductive Res (A : Type) : Type :=
| Ok (a : A)
| Raise (e : exn).

Arguments Ok {A} a.
Arguments Raise {A} e.

Definition res_bind {A B} (r : Res A) (k : A -> Res B) : Res B :=
  match r with
  | Ok a => k a
  | Raise e => Raise e
  end.

(** [try: body  except <classes>: pass] followed by [return None]: the
    exceptions of the listed classes are swallowed, the others leave. *)
Definition try_except {A} (catches : exn -> bool) (body : Res (option A))
  : Res (option A) :=
  match body with
  | Ok r => Ok r
  | Raise e => if catches e then Ok None else Raise e
  end.

(** [except Exception] *)
Definition Exception (e : exn) : bool := true.

(** [except (ValueError, TypeError)] *)
Definition ValueError_TypeError (e : exn) : bool :=
  match e with
  | ValueError | TypeError => true
  | _ => false
  end.

(** ** Numbers *)

(** [round(x, 1)]: the nearest multiple of one tenth, ties to the even
    one.  The result always has the shape [n # 10]. *)
Definition round1 (x : Q) : Q :=
  let num := 10 * Qnum x in
  let den := Zpos (Qden x) in
  let f := num / den in
  let r2 := 2 * (num mod den) in
  let n := match r2 ?= den with
           | Lt => f
           | Gt => f + 1
           | Eq => if Z.even f then f else f + 1
           end in
  n # 10.

(** [0 < val < 150] *)
Definition plausible (val : Q) : bool :=
  match 0 ?= val, val ?= 150 with
  | Lt, Lt => true
  | _, _ => false
  end%Q.

(** The largest magnitude an [int] may have and still convert to a
    [float]: from [2^1024 - 2^970] on, the conversion rounds to infinity
    and Python raises [OverflowError]. *)
Definition float_overflow_bound : Z := 2 ^ 1024 - 2 ^ 970.

(** [float(n)] for an [int] [n] *)
Definition float_of_int (n : Z) : Res Q :=
  if Z.abs n <? float_overflow_bound then Ok (inject_Z n) else Raise OverflowError.

(** [(raw / 10.0) - 273.15]: tenths of a kelvin to degrees Celsius *)
Definition decikelvin_to_celsius (raw : Z) : Res Q :=
  res_bind (float_of_int raw) (fun x => Ok (x / 10 - (27315 # 100))%Q).

(** ** Strings *)

(** [sub in s] *)
Fixpoint str_in (sub s : string) : bool :=
  if String.prefix sub s then true
  else match s with
       | EmptyString => false
       | String _ s' => str_in sub s'
       end.

(** [any(k in s for k in keys)] *)
Definition any_in (keys : list string) (s : string) : bool :=
  existsb (fun k => str_in k s) keys.

(** The string builtins whose full behaviour depends on Unicode tables
    that are not part of the repository: [str.strip()], [str.lower()],
    [int(str)] and [float(str)].  The parsers answer [None] where Python
    raises [ValueError]; [float_of_str] also answers [None] for the
    spellings of nan and infinity, which no range check accepts. *)
Record PyBuiltins : Type := {
  str_strip : string -> string;
  str_lower : string -> string;
  int_of_str : string -> option Z;
  float_of_str : string -> option Q
}.

(** ** The data model *)

(** [SensorReading]: the dataclass returned by [read_sensors] *)
Record SensorReading : Type := {
  timestamp : string;
  cpu_percent : Q;
  cpu_temp : option Q;
  ram_percent : Q;
  disk_percent : Q;
  ssd_temp : option Q
}.

(** *** What the backends answer *)

Inductive HardwareType : Type := Cpu | Storage | Motherboard | GpuNvidia | Memory.
Inductive SensorType : Type := Temperature | Load | Clock | Voltage | Fan.

Definition HardwareType_eqb (a b : HardwareType) : bool :=
  match a, b with
  | Cpu, Cpu | Storage, Storage | Motherboard, Motherboard
  | GpuNvidia, GpuNvidia | Memory, Memory => true
  | _, _ => false
  end.

Definition SensorType_eqb (a b : SensorType) : bool :=
  match a, b with
  | Temperature, Temperature | Load, Load | Clock, Clock
  | Voltage, Voltage | Fan, Fan => true
  | _, _ => false
  end.

(** A sensor of LibreHardwareMonitor, seen through pythonnet. [Value] is a
    nullable float, [Name] may be null. *)
Record LhmSensor : Type := {
  lhm_SensorType : SensorType;
  lhm_Value : option Q;
  lhm_Name : option string
}.

(** One entry of [_lhm_computer.Hardware]; [hw_Update] is what
    [hw.Update()] does: [Some e] when it raises [e]. *)
Record LhmHardware : Type := {
  hw_HardwareType : HardwareType;
  hw_Update : option exn;
  hw_Sensors : list LhmSensor
}.

(** A row of the WMI class [Sensor] of the OHM/LHM provider *)
Record WmiSensor : Type := {
  wmi_SensorType : string;
  wmi_Name : option string;
  wmi_Value : option Q;
  wmi_Parent : option string
}.

(** A row of [MSAcpi_ThermalZoneTemperature]: [CurrentTemperature] in
    tenths of a kelvin, [None] when the property is null *)
Record ThermalZone : Type := {
  CurrentTemperature : option Z
}.

(** A row of [MSFT_PhysicalDisk]: [None] when the object has no
    [Temperature] attribute or it is null *)
Record PhysicalDisk : Type := {
  disk_Temperature : option Q
}.

(** What [subprocess.run] returns *)
Record CompletedProcess : Type := {
  returncode : Z;
  stdout : string
}.

(** An entry of [psutil.sensors_temperatures()] *)
Record shwtemp : Type := {
  label : string;
  current : Q
}.

(** The answers of the outside world at one moment. *)
Record Env : Type := {
  (** [wmi_module.WMI(namespace=ns)]: [Some e] when connecting raises *)
  wmi_connect : string -> option exn;
  (** [client.Sensor()] on a client of the given namespace *)
  wmi_Sensor : string -> Res (list WmiSensor);
  (** [self._wmi_root.MSAcpi_ThermalZoneTemperature()] *)
  wmi_MSAcpi_ThermalZoneTemperature : Res (list ThermalZone);
  (** [self._wmi_storage.MSFT_PhysicalDisk()] *)
  wmi_MSFT_PhysicalDisk : Res (list PhysicalDisk);
  (** the import of the enums followed by [_lhm_computer.Hardware] *)
  lhm_Hardware : Res (list LhmHardware);
  (** [subprocess.run(["powershell", ..., script], timeout=8, ...)] *)
  subprocess_run : string -> Res CompletedProcess;
  (** [psutil.sensors_temperatures()]: a dict in insertion order *)
  psutil_sensors_temperatures : Res (list (string * list shwtemp));
  (** [psutil.cpu_percent(interval=0.5)] *)
  psutil_cpu_percent : Res Q;
  (** [psutil.virtual_memory().percent] *)
  psutil_virtual_memory_percent : Res Q;
  (** [psutil.disk_usage("C:\\").percent] *)
  psutil_disk_usage_percent : Res Q;
  (** [time.strftime("%Y-%m-%d %H:%M:%S")] *)
  time_strftime : string
}.

(** The module-level facts fixed when [monitor.py] is imported. *)
Inductive LhmComputer : Type := Computer.

Record Globals : Type := {
  WMI_AVAILABLE : bool;
  LHM_READY : bool;
  _lhm_computer : option LhmComputer;
  (** [hasattr(psutil, "sensors_temperatures")] *)
  psutil_has_sensors_temperatures : bool
}.

(** *** The monitor object *)

(** A WMI client remembers the namespace it is connected to. *)
Record WmiClient : Type := { namespace : string }.

Record HardwareMonitor : Type := {
  _wmi_ohm : option WmiClient;
  _wmi_root : option WmiClient;
  _wmi_storage : option WmiClient;
  _cpu_method : option string;
  _ssd_method : option string
}.

(** The running system: the object, the world it talks to, the clock
    that selects the world's current answers, and the names of the probe
    methods called so far, oldest first. *)
Record Sys : Type := {
  self : HardwareMonitor;
  globals : Globals;
  world : nat -> Env;
  clock : nat;
  calls : list string
}.

Definition now (s : Sys) : Env := world s (clock s).

Definition with_self (s : Sys) (h : HardwareMonitor) : Sys :=
  {| self := h; globals := globals s; world := world s;
     clock := clock s; calls := calls s |}.

Definition set_wmi_ohm (c : option WmiClient) (h : HardwareMonitor) :=
  {| _wmi_ohm := c; _wmi_root := _wmi_root h; _wmi_storage := _wmi_storage h;
     _cpu_method := _cpu_method h; _ssd_method := _ssd_method h |}.
Definition set_wmi_root (c : option WmiClient) (h : HardwareMonitor) :=
  {| _wmi_ohm := _wmi_ohm h; _wmi_root := c; _wmi_storage := _wmi_storage h;
     _cpu_method := _cpu_method h; _ssd_method := _ssd_method h |}.
Definition set_wmi_storage (c : option WmiClient) (h : HardwareMonitor) :=
  {| _wmi_ohm := _wmi_ohm h; _wmi_root := _wmi_root h; _wmi_storage := c;
     _cpu_method := _cpu_method h; _ssd_method := _ssd_method h |}.
Definition set_cpu_method (m : option string) (h : HardwareMonitor) :=
  {| _wmi_ohm := _wmi_ohm h; _wmi_root := _wmi_root h;
     _wmi_storage := _wmi_storage h;
     _cpu_method := m; _ssd_method := _ssd_method h |}.
Definition set_ssd_method (m : option string) (h : HardwareMonitor) :=
  {| _wmi_ohm := _wmi_ohm h; _wmi_root := _wmi_root h;
     _wmi_storage := _wmi_storage h;
     _cpu_method := _cpu_method h; _ssd_method := m |}.

(** ** The monad of methods *)

Definition M (A : Type) : Type := Sys -> Res A * Sys.

Definition ret {A} (a : A) : M A := fun s => (Ok a, s).

Definition bind {A B} (m : M A) (k : A -> M B) : M B :=
  fun s => match m s with
           | (Ok a, s') => k a s'
           | (Raise e, s') => (Raise e, s')
           end.

Notation "x <- m ;; k" := (bind m (fun x => k))
  (at level 61, m at next level, right associativity).
Notation "m ;;; k" := (bind m (fun _ => k))
  (at level 61, right associativity).

(** [self.<field> = v] *)
Definition assign (f : HardwareMonitor -> HardwareMonitor) : M unit :=
  fun s => (Ok tt, with_self s (f (self s))).

(** A probe method: it reads the object and the current answers of the
    world, leaves its name in the trace and lets the clock advance. *)
Definition probe (name : string)
  (body : Globals -> HardwareMonitor -> Env -> Res (option Q)) : M (option Q) :=
  fun s =>
    (body (globals s) (self s) (now s),
     {| self := self s; globals := globals s; world := world s;
        clock := S (clock s); calls := calls s ++ [name] |}).

(** ** Small Python idioms *)

(** [x is None] *)
Definition is_None {A} (x : option A) : bool :=
  match x with None => true | Some _ => false end.

(** [x or ""] for an optional string *)
Definition or_empty (x : option string) : string :=
  match x with
  | Some s => s
  | None => ""
  end.

(** Truth value of an optional string: [None] and [""] are false. *)
Definition truthy (x : option string) : bool :=
  match x with
  | Some s => negb (String.eqb s "")
  | None => false
  end.

(** [float(v)] for a numeric attribute that may be null: [float(None)]
    raises [TypeError]. *)
Definition float_of_attr (v : option Q) : Res Q :=
  match v with
  | Some q => Ok q
  | None => Raise TypeError
  end.

(** [int(v)] for an integer attribute that may be null *)
Definition int_of_attr (v : option Z) : Res Z :=
  match v with
  | Some z => Ok z
  | None => Raise TypeError
  end.

(** [d[k]] guarded by [k in d], for a dict kept in insertion order *)
Fixpoint dict_get {A} (d : list (string * A)) (k : string) : option A :=
  match d with
  | [] => None
  | (k', v) :: d' => if String.eqb k k' then Some v else dict_get d' k
  end.

Section Probes.

Variable py : PyBuiltins.

(** ** Helpers *)

(** [_run_powershell] *)
Definition _run_powershell (e : Env) (script : string) : Res (option string) :=
  try_except Exception
    (res_bind (subprocess_run e script) (fun result =>
       if (returncode result =? 0)
          && negb (String.eqb (str_strip py (stdout result)) "")
       then Ok (Some (str_strip py (stdout result)))
       else Ok None)).

(** ** CPU temperature methods *)

(** The inner loop of [_cpu_temp_lhm] over [hw.Sensors]; the accumulator
    is [(pkg_temp, first_core)]. *)
Fixpoint lhm_cpu_sensors (sensors : list LhmSensor) (acc : option Q * option Q)
  : option Q * option Q :=
  match sensors with
  | [] => acc
  | sensor :: rest =>
      if negb (SensorType_eqb (lhm_SensorType sensor) Temperature)
      then lhm_cpu_sensors rest acc
      else match lhm_Value sensor with
           | None => lhm_cpu_sensors rest acc
           | Some val =>
               if negb (plausible val) then lhm_cpu_sensors rest acc
               else
                 let name := str_lower py (or_empty (lhm_Name sensor)) in
                 if str_in "package" name || str_in "total" name
                 then lhm_cpu_sensors rest (Some val, snd acc)
                 else if is_None (snd acc) && str_in "core" name
                 then lhm_cpu_sensors rest (fst acc, Some val)
                 else lhm_cpu_sensors rest acc
           end
  end.

(** The outer loop of [_cpu_temp_lhm] over [_lhm_computer.Hardware] *)
Fixpoint lhm_cpu_hardware (hardware : list LhmHardware) : Res (option Q) :=
  match hardware with
  | [] => Ok None
  | hw :: rest =>
      if negb (HardwareType_eqb (hw_HardwareType hw) Cpu)
      then lhm_cpu_hardware rest
      else match hw_Update hw with
           | Some e => Raise e
           | None =>
               match lhm_cpu_sensors (hw_Sensors hw) (None, None) with
               | (Some pkg_temp, _) => Ok (Some (round1 pkg_temp))
               | (None, Some first_core) => Ok (Some (round1 first_core))
               | (None, None) => lhm_cpu_hardware rest
               end
           end
  end.

Definition cpu_temp_lhm_body (g : Globals) (h : HardwareMonitor) (e : Env)
  : Res (option Q) :=
  if negb (LHM_READY g) || is_None (_lhm_computer g) then Ok None
  else try_except Exception (res_bind (lhm_Hardware e) lhm_cpu_hardware).

(** The loop of [_cpu_temp_ohm] over [self._wmi_ohm.Sensor()] *)
Fixpoint ohm_cpu_sensors (sensors : list WmiSensor) : Res (option Q) :=
  match sensors with
  | [] => Ok None
  | sensor :: rest =>
      if String.eqb (wmi_SensorType sensor) "Temperature"
      then
        let name := str_lower py (or_empty (wmi_Name sensor)) in
        if any_in ["cpu package"; "cpu total"; "core #0"; "cpu"] name
        then res_bind (float_of_attr (wmi_Value sensor)) (fun val =>
               if plausible val then Ok (Some (round1 val))
               else ohm_cpu_sensors rest)
        else ohm_cpu_sensors rest
      else ohm_cpu_sensors rest
  end.

Definition cpu_temp_ohm_body (g : Globals) (h : HardwareMonitor) (e : Env)
  : Res (option Q) :=
  match _wmi_ohm h with
  | None => Ok None
  | Some client =>
      try_except Exception
        (res_bind (wmi_Sensor e (namespace client)) ohm_cpu_sensors)
  end.

(** The loop of [_cpu_temp_wmi_acpi] over the thermal zones *)
Fixpoint wmi_acpi_zones (zones : list ThermalZone) : Res (option Q) :=
  match zones with
  | [] => Ok None
  | tz :: rest =>
      res_bind (int_of_attr (CurrentTemperature tz)) (fun raw =>
      res_bind (decikelvin_to_celsius raw) (fun celsius =>
        if plausible celsius then Ok (Some (round1 celsius))
        else wmi_acpi_zones rest))
  end.

Definition cpu_temp_wmi_acpi_body (g : Globals) (h : HardwareMonitor) (e : Env)
  : Res (option Q) :=
  match _wmi_root h with
  | None => Ok None
  | Some _ => try_except Exception
                (res_bind (wmi_MSAcpi_ThermalZoneTemperature e) wmi_acpi_zones)
  end.

Definition ps_acpi_script : string :=
  "Get-CimInstance -Namespace root/WMI " ++
  "-ClassName MSAcpi_ThermalZoneTemperature " ++
  "-ErrorAction SilentlyContinue | " ++
  "Select-Object -ExpandProperty CurrentTemperature -First 1".

(** [int(s)] for a string [s] *)
Definition int_of_string (s : string) : Res Z :=
  match int_of_str py s with
  | Some z => Ok z
  | None => Raise ValueError
  end.

(** [float(s)] for a string [s] *)
Definition float_of_string (s : string) : Res Q :=
  match float_of_str py s with
  | Some q => Ok q
  | None => Raise ValueError
  end.

Definition cpu_temp_ps_acpi_body (g : Globals) (h : HardwareMonitor) (e : Env)
  : Res (option Q) :=
  res_bind (_run_powershell e ps_acpi_script) (fun output =>
    if truthy output
    then try_except ValueError_TypeError
           (res_bind (int_of_string (str_strip py (or_empty output))) (fun raw =>
            res_bind (decikelvin_to_celsius raw) (fun celsius =>
              if plausible celsius then Ok (Some (round1 celsius))
              else Ok None)))
    else Ok None).

(** The first loop of [_cpu_temp_psutil], over the well-known chip names *)
Fixpoint psutil_named (temps : list (string * list shwtemp)) (names : list string)
  : option Q :=
  match names with
  | [] => None
  | name :: rest =>
      match dict_get temps name with
      | Some (entry :: _) => Some (current entry)
      | _ => psutil_named temps rest
      end
  end.

(** The second loop, over [temps.values()] *)
Fixpoint psutil_any (values : list (string * list shwtemp)) : option Q :=
  match values with
  | [] => None
  | (_, entry :: _) :: _ => Some (current entry)
  | (_, []) :: rest => psutil_any rest
  end.

Definition cpu_temp_psutil_body (g : Globals) (h : HardwareMonitor) (e : Env)
  : Res (option Q) :=
  if negb (psutil_has_sensors_temperatures g) then Ok None
  else try_except Exception
         (res_bind (psutil_sensors_temperatures e) (fun temps =>
            match temps with
            | [] => Ok None
            | _ =>
                match psutil_named temps
                        ["coretemp"; "cpu_thermal"; "k10temp"; "zenpower"] with
                | Some v => Ok (Some v)
                | None => Ok (psutil_any temps)
                end
            end)).

Definition _cpu_temp_lhm : M (option Q) := probe "_cpu_temp_lhm" cpu_temp_lhm_body.
Definition _cpu_temp_ohm : M (option Q) := probe "_cpu_temp_ohm" cpu_temp_ohm_body.
Definition _cpu_temp_wmi_acpi : M (option Q) :=
  probe "_cpu_temp_wmi_acpi" cpu_temp_wmi_acpi_body.
Definition _cpu_temp_ps_acpi : M (option Q) :=
  probe "_cpu_temp_ps_acpi" cpu_temp_ps_acpi_body.
Definition _cpu_temp_psutil : M (option Q) :=
  probe "_cpu_temp_psutil" cpu_temp_psutil_body.

(** ** SSD / NVMe temperature methods *)

(** The inner loop of [_ssd_temp_lhm] over [hw.Sensors] *)
Fixpoint lhm_ssd_sensors (sensors : list LhmSensor) : option Q :=
  match sensors with
  | [] => None
  | sensor :: rest =>
      if negb (SensorType_eqb (lhm_SensorType sensor) Temperature)
      then lhm_ssd_sensors rest
      else match lhm_Value sensor with
           | None => lhm_ssd_sensors rest
           | Some val =>
               if plausible val then Some (round1 val)
               else lhm_ssd_sensors rest
           end
  end.

(** The outer loop of [_ssd_temp_lhm] *)
Fixpoint lhm_ssd_hardware (hardware : list LhmHardware) : Res (option Q) :=
  match hardware with
  | [] => Ok None
  | hw :: rest =>
      if negb (HardwareType_eqb (hw_HardwareType hw) Storage)
      then lhm_ssd_hardware rest
      else match hw_Update hw with
           | Some e => Raise e
           | None =>
               match lhm_ssd_sensors (hw_Sensors hw) with
               | Some v => Ok (Some v)
               | None => lhm_ssd_hardware rest
               end
           end
  end.

Definition ssd_temp_lhm_body (g : Globals) (h : HardwareMonitor) (e : Env)
  : Res (option Q) :=
  if negb (LHM_READY g) || is_None (_lhm_computer g) then Ok None
  else try_except Exception (res_bind (lhm_Hardware e) lhm_ssd_hardware).

(** The loop of [_ssd_temp_ohm] *)
Fixpoint ohm_ssd_sensors (sensors : list WmiSensor) : Res (option Q) :=
  match sensors with
  | [] => Ok None
  | sensor :: rest =>
      if String.eqb (wmi_SensorType sensor) "Temperature"
      then
        let name := str_lower py (or_empty (wmi_Name sensor)) in
        let parent := str_lower py (or_empty (wmi_Parent sensor)) in
        let by_parent :=
          if any_in ["nvme"; "ssd"; "storage"] parent
          then res_bind (float_of_attr (wmi_Value sensor)) (fun val =>
                 if plausible val then Ok (Some (round1 val))
                 else ohm_ssd_sensors rest)
          else ohm_ssd_sensors rest in
        if any_in ["ssd"; "nvme"; "disk"; "drive"] name
        then res_bind (float_of_attr (wmi_Value sensor)) (fun val =>
               if plausible val then Ok (Some (round1 val))
               else by_parent)
        else by_parent
      else ohm_ssd_sensors rest
  end.

Definition ssd_temp_ohm_body (g : Globals) (h : HardwareMonitor) (e : Env)
  : Res (option Q) :=
  match _wmi_ohm h with
  | None => Ok None
  | Some client =>
      try_except Exception
        (res_bind (wmi_Sensor e (namespace client)) ohm_ssd_sensors)
  end.

Definition ps_reliability_script : string :=
  "Get-PhysicalDisk | Get-StorageReliabilityCounter " ++
  "-ErrorAction SilentlyContinue | " ++
  "Where-Object { $_.Temperature -gt 0 } | " ++
  "Select-Object -ExpandProperty Temperature -First 1".

Definition ssd_temp_ps_reliability_body (g : Globals) (h : HardwareMonitor)
  (e : Env) : Res (option Q) :=
  res_bind (_run_powershell e ps_reliability_script) (fun output =>
    if truthy output
    then try_except ValueError_TypeError
           (res_bind (float_of_string (str_strip py (or_empty output))) (fun val =>
              if plausible val then Ok (Some (round1 val))
              else Ok None))
    else Ok None).

(** The loop of [_ssd_temp_wmi_storage] over the physical disks *)
Fixpoint wmi_storage_disks (disks : list PhysicalDisk) : Res (option Q) :=
  match disks with
  | [] => Ok None
  | disk :: rest =>
      match disk_Temperature disk with
      | Some raw =>
          res_bind (float_of_attr (Some raw)) (fun val =>
            if plausible val then Ok (Some (round1 val))
            else wmi_storage_disks rest)
      | None => wmi_storage_disks rest
      end
  end.

Definition ssd_temp_wmi_storage_body (g : Globals) (h : HardwareMonitor)
  (e : Env) : Res (option Q) :=
  match _wmi_storage h with
  | None => Ok None
  | Some _ => try_except Exception
                (res_bind (wmi_MSFT_PhysicalDisk e) wmi_storage_disks)
  end.

Definition _ssd_temp_lhm : M (option Q) := probe "_ssd_temp_lhm" ssd_temp_lhm_body.
Definition _ssd_temp_ohm : M (option Q) := probe "_ssd_temp_ohm" ssd_temp_ohm_body.
Definition _ssd_temp_ps_reliability : M (option Q) :=
  probe "_ssd_temp_ps_reliability" ssd_temp_ps_reliability_body.
Definition _ssd_temp_wmi_storage : M (option Q) :=
  probe "_ssd_temp_wmi_storage" ssd_temp_wmi_storage_body.

(** ** The monitor's methods *)

(** A call to the outside world that is not a probe: it reads the
    current answers and time passes. *)
Definition os_call {A} (f : Env -> Res A) : M A :=
  fun s =>
    (f (now s),
     {| self := self s; globals := globals s; world := world s;
        clock := S (clock s); calls := calls s |}).

(** The loop of [_init_wmi_providers] over the two provider namespaces:
    the first one that connects and answers a [Sensor()] query. *)
Fixpoint connect_ohm (e : Env) (namespaces : list string) : option WmiClient :=
  match namespaces with
  | [] => None
  | ns :: rest =>
      match wmi_connect e ns, wmi_Sensor e ns with
      | None, Ok _ => Some {| namespace := ns |}
      | _, _ => connect_ohm e rest
      end
  end.

(** [wmi_module.WMI(namespace=ns)] inside [try ... except Exception: pass] *)
Definition connect_or_keep (e : Env) (ns : string) (old : option WmiClient)
  : option WmiClient :=
  match wmi_connect e ns with
  | None => Some {| namespace := ns |}
  | Some _ => old
  end.

Definition _init_wmi_providers : M unit :=
  fun s =>
    if negb (WMI_AVAILABLE (globals s)) then (Ok tt, s)
    else
      (e <- os_call (fun e => Ok e) ;;
       assign (fun h =>
         match connect_ohm e ["root\LibreHardwareMonitor";
                              "root\OpenHardwareMonitor"] with
         | Some client => set_wmi_ohm (Some client) h
         | None => h
         end) ;;;
       assign (fun h =>
         set_wmi_root (connect_or_keep e "root\WMI" (_wmi_root h)) h) ;;;
       assign (fun h =>
         set_wmi_storage
           (connect_or_keep e "root\Microsoft\Windows\Storage" (_wmi_storage h))
           h)) s.

(** The two temperature metrics, each with its slot in the object. *)
Inductive metric : Type := CpuTemp | SsdTemp.

Definition get_method (m : metric) (h : HardwareMonitor) : option string :=
  match m with
  | CpuTemp => _cpu_method h
  | SsdTemp => _ssd_method h
  end.

Definition set_method (m : metric) (v : option string) (h : HardwareMonitor)
  : HardwareMonitor :=
  match m with
  | CpuTemp => set_cpu_method v h
  | SsdTemp => set_ssd_method v h
  end.

(** The lists [cpu_methods] and [ssd_methods] of [_detect_best_methods] *)
Definition cpu_methods : list (string * M (option Q)) :=
  [ ("lhm",      _cpu_temp_lhm);
    ("ohm_wmi",  _cpu_temp_ohm);
    ("wmi_acpi", _cpu_temp_wmi_acpi);
    ("ps_acpi",  _cpu_temp_ps_acpi);
    ("psutil",   _cpu_temp_psutil) ].

Definition ssd_methods : list (string * M (option Q)) :=
  [ ("lhm",            _ssd_temp_lhm);
    ("ohm_wmi",        _ssd_temp_ohm);
    ("ps_reliability", _ssd_temp_ps_reliability);
    ("wmi_storage",    _ssd_temp_wmi_storage) ].

(** The [dispatch] dict of [get_cpu_temperature], in insertion order *)
Definition cpu_dispatch : list (string * M (option Q)) :=
  [ ("lhm",      _cpu_temp_lhm);
    ("ohm_wmi",  _cpu_temp_ohm);
    ("wmi_acpi", _cpu_temp_wmi_acpi);
    ("ps_acpi",  _cpu_temp_ps_acpi);
    ("psutil",   _cpu_temp_psutil) ].

(** The [dispatch] dict of [get_ssd_temperature], in insertion order *)
Definition ssd_dispatch : list (string * M (option Q)) :=
  [ ("lhm",            _ssd_temp_lhm);
    ("ohm_wmi",        _ssd_temp_ohm);
    ("ps_reliability", _ssd_temp_ps_reliability);
    ("wmi_storage",    _ssd_temp_wmi_storage) ].

(** The chain of a metric: the list of [_detect_best_methods] and the
    dict of the accessor hold the same pairs in the same order. *)
Definition chain (m : metric) : list (string * M (option Q)) :=
  match m with
  | CpuTemp => cpu_methods
  | SsdTemp => ssd_methods
  end.

(** [for name, func in methods: val = func();
     if val is not None: self._x_method = name; break] *)
Fixpoint detect_loop (m : metric) (methods : list (string * M (option Q)))
  : M unit :=
  match methods with
  | [] => ret tt
  | (name, func) :: rest =>
      val <- func ;;
      match val with
      | Some _ => assign (set_method m (Some name))
      | None => detect_loop m rest
      end
  end.

Definition _detect_best_methods : M unit :=
  detect_loop CpuTemp cpu_methods ;;;
  detect_loop SsdTemp ssd_methods.

(** [for name, func in dispatch.items(): val = func();
     if val is not None: self._x_method = name; return val]
    followed by [return None] *)
Fixpoint sweep_loop (m : metric) (items : list (string * M (option Q)))
  : M (option Q) :=
  match items with
  | [] => ret None
  | (name, func) :: rest =>
      val <- func ;;
      match val with
      | Some v => assign (set_method m (Some name)) ;;; ret (Some v)
      | None => sweep_loop m rest
      end
  end.

(** The body shared by [get_cpu_temperature] and [get_ssd_temperature]:
    the sticky method first, the whole dispatch table if it gives
    nothing. *)
Definition get_temperature (m : metric) (dispatch : list (string * M (option Q)))
  : M (option Q) :=
  fun s =>
    let method := get_method m (self s) in
    let sticky : M (option Q) :=
      if truthy method
      then match dict_get dispatch (or_empty method) with
           | Some func => func
           | None => ret None
           end
      else ret None in
    (val <- sticky ;;
     match val with
     | Some v => ret (Some v)
     | None => sweep_loop m dispatch
     end) s.

Definition get_cpu_temperature : M (option Q) := get_temperature CpuTemp cpu_dispatch.
Definition get_ssd_temperature : M (option Q) := get_temperature SsdTemp ssd_dispatch.

Definition read_sensors : M SensorReading :=
  timestamp <- os_call (fun e => Ok (time_strftime e)) ;;
  cpu_percent <- os_call psutil_cpu_percent ;;
  ram_percent <- os_call psutil_virtual_memory_percent ;;
  disk_percent <- os_call psutil_disk_usage_percent ;;
  cpu_temp <- get_cpu_temperature ;;
  ssd_temp <- get_ssd_temperature ;;
  ret {| timestamp := timestamp;
         cpu_percent := round1 cpu_percent;
         cpu_temp := option_map round1 cpu_temp;
         ram_percent := round1 ram_percent;
         disk_percent := round1 disk_percent;
         ssd_temp := option_map round1 ssd_temp |}.

(** [HardwareMonitor.__init__] *)
Definition __init__ : M unit :=
  assign (set_wmi_ohm None) ;;;
  assign (set_wmi_root None) ;;;
  assign (set_wmi_storage None) ;;;
  assign (set_cpu_method None) ;;;
  assign (set_ssd_method None) ;;;
  _init_wmi_providers ;;;
  _detect_best_methods.

End Probes.

(** [labels.get(key, "Tidak tersedia")] for the two label tables *)
Definition cpu_labels : list (string * string) :=
  [ ("lhm", "LibreHardwareMonitor");
    ("ohm_wmi", "OHM/LHM WMI");
    ("wmi_acpi", "WMI ThermalZone");
    ("ps_acpi", "PowerShell ACPI");
    ("psutil", "psutil") ].

Definition ssd_labels : list (string * string) :=
  [ ("lhm", "LibreHardwareMonitor");
    ("ohm_wmi", "OHM/LHM WMI");
    ("ps_reliability", "StorageReliability");
    ("wmi_storage", "WMI Storage") ].

Definition labels_get (labels : list (string * string)) (key : string) : string :=
  match dict_get labels key with
  | Some l => l
  | None => "Tidak tersedia"
  end.

Definition cpu_method_label (h : HardwareMonitor) : string :=
  labels_get cpu_labels (or_empty (_cpu_method h)).

Definition ssd_method_label (h : HardwareMonitor) : string :=
  labels_get ssd_labels (or_empty (_ssd_method h)).

Definition method_label (m : metric) (h : HardwareMonitor) : string :=
  match m with
  | CpuTemp => cpu_method_label h
  | SsdTemp => ssd_method_label h
  end.

(** The entries ["temp_cpu_method"] and ["temp_ssd_method"] of
    [get_system_info]: [self._x_method or "none"] *)
Definition temp_method (m : metric) (h : HardwareMonitor) : string :=
  if truthy (get_method m h) then or_empty (get_method m h) else "none".

(** The object and its surroundings just before [__init__] runs. *)
Definition blank (g : Globals) (w : nat -> Env) : Sys :=
  {| self := {| _wmi_ohm := None; _wmi_root := None; _wmi_storage := None;
                _cpu_method := None; _ssd_method := None |};
     globals := g; world := w; clock := 0%nat; calls := [] |}.

(** [HardwareMonitor()] *)
Definition construct (py : PyBuiltins) (g : Globals) (w : nat -> Env)
  : Res unit * Sys :=
  __init__ py (blank g w).

(** ** An instance of the string builtins

    Enough of [strip], [lower], [int] and [float] for ASCII text in plain
    decimal notation, which is what the worked examples use. *)

Definition is_space (c : ascii) : bool :=
  let n := nat_of_ascii c in
  ((9 <=? n) && (n <=? 13) || (28 <=? n) && (n <=? 32))%nat.

Fixpoint lstrip (s : list ascii) : list ascii :=
  match s with
  | c :: s' => if is_space c then lstrip s' else s
  | [] => []
  end.

Definition ascii_strip (s : string) : string :=
  string_of_list_ascii
    (rev (lstrip (rev (lstrip (list_ascii_of_string s))))).

Definition lower_char (c : ascii) : ascii :=
  let n := nat_of_ascii c in
  if ((65 <=? n) && (n <=? 90))%nat then ascii_of_nat (n + 32) else c.

Fixpoint ascii_lower (s : string) : string :=
  match s with
  | EmptyString => EmptyString
  | String c s' => String (lower_char c) (ascii_lower s')
  end.

Definition digit_of (c : ascii) : option Z :=
  let n := nat_of_ascii c in
  if ((48 <=? n) && (n <=? 57))%nat then Some (Z.of_nat (n - 48)) else None.

(** Reads a run of decimal digits, most significant first. *)
Fixpoint digits (s : list ascii) (acc : Z) : option Z :=
  match s with
  | [] => Some acc
  | c :: s' =>
      match digit_of c with
      | Some d => digits s' (10 * acc + d)
      | None => None
      end
  end.

Definition unsigned_int (s : list ascii) : option Z :=
  match s with
  | [] => None
  | _ => digits s 0
  end.

Definition signed {A} (neg : A -> A) (body : list ascii -> option A)
  (s : list ascii) : option A :=
  match s with
  | "-"%char :: s' => option_map neg (body s')
  | "+"%char :: s' => body s'
  | _ => body s
  end.

Definition decimal_int (s : string) : option Z :=
  signed Z.opp unsigned_int (list_ascii_of_string (ascii_strip s)).

(** Splits at the first ['.']. *)
Fixpoint split_dot (s : list ascii) : list ascii * option (list ascii) :=
  match s with
  | [] => ([], None)
  | c :: s' =>
      if Ascii.eqb c "."%char then ([], Some s')
      else let (a, b) := split_dot s' in (c :: a, b)
  end.

Definition unsigned_float (s : list ascii) : option Q :=
  match split_dot s with
  | (whole, None) => option_map inject_Z (unsigned_int whole)
  | (whole, Some frac) =>
      match unsigned_int whole, unsigned_int frac with
      | Some a, Some b =>
          Some (inject_Z a + (b # Pos.of_nat (10 ^ List.length frac)))%Q
      | _, _ => None
      end
  end.

Definition decimal_float (s : string) : option Q :=
  signed Qopp unsigned_float (list_ascii_of_string (ascii_strip s)).

Definition ascii_builtins : PyBuiltins :=
  {| str_strip := ascii_strip;
     str_lower := ascii_lower;
     int_of_str := decimal_int;
     float_of_str := decimal_float |}.

(** ** Worlds for the worked examples *)

(** No backend answers: WMI refuses the connection, pythonnet is not
    importable, PowerShell cannot be started, psutil has no sensor. *)
Definition dead_env : Env :=
  {| wmi_connect := fun _ => Some ComError;
     wmi_Sensor := fun _ => Raise ComError;
     wmi_MSAcpi_ThermalZoneTemperature := Raise ComError;
     wmi_MSFT_PhysicalDisk := Raise ComError;
     lhm_Hardware := Raise ImportError;
     subprocess_run := fun _ => Raise OSError;
     psutil_sensors_temperatures := Ok [];
     psutil_cpu_percent := Ok (1234 # 100);
     psutil_virtual_memory_percent := Ok (617 # 10);
     psutil_disk_usage_percent := Ok (45 # 1);
     time_strftime := "2024-05-01 10:00:00" |}.

(** A Windows machine with every Python dependency installed. *)
Definition windows : Globals :=
  {| WMI_AVAILABLE := true; LHM_READY := true;
     _lhm_computer := Some Computer;
     psutil_has_sensors_temperatures := false |}.

(** A machine where only psutil can be asked for temperatures. *)
Definition linux : Globals :=
  {| WMI_AVAILABLE := false; LHM_READY := false;
     _lhm_computer := None;
     psutil_has_sensors_temperatures := true |}.

Definition with_lhm (hardware : Res (list LhmHardware)) (e : Env) : Env :=
  {| wmi_connect := wmi_connect e; wmi_Sensor := wmi_Sensor e;
     wmi_MSAcpi_ThermalZoneTemperature := wmi_MSAcpi_ThermalZoneTemperature e;
     wmi_MSFT_PhysicalDisk := wmi_MSFT_PhysicalDisk e;
     lhm_Hardware := hardware;
     subprocess_run := subprocess_run e;
     psutil_sensors_temperatures := psutil_sensors_temperatures e;
     psutil_cpu_percent := psutil_cpu_percent e;
     psutil_virtual_memory_percent := psutil_virtual_memory_percent e;
     psutil_disk_usage_percent := psutil_disk_usage_percent e;
     time_strftime := time_strftime e |}.

Definition with_wmi (connect : string -> option exn)
  (sensors : string -> Res (list WmiSensor))
  (zones : Res (list ThermalZone)) (e : Env) : Env :=
  {| wmi_connect := connect; wmi_Sensor := sensors;
     wmi_MSAcpi_ThermalZoneTemperature := zones;
     wmi_MSFT_PhysicalDisk := wmi_MSFT_PhysicalDisk e;
     lhm_Hardware := lhm_Hardware e;
     subprocess_run := subprocess_run e;
     psutil_sensors_temperatures := psutil_sensors_temperatures e;
     psutil_cpu_percent := psutil_cpu_percent e;
     psutil_virtual_memory_percent := psutil_virtual_memory_percent e;
     psutil_disk_usage_percent := psutil_disk_usage_percent e;
     time_strftime := time_strftime e |}.

Definition with_powershell (run : string -> Res CompletedProcess) (e : Env) : Env :=
  {| wmi_connect := wmi_connect e; wmi_Sensor := wmi_Sensor e;
     wmi_MSAcpi_ThermalZoneTemperature := wmi_MSAcpi_ThermalZoneTemperature e;
     wmi_MSFT_PhysicalDisk := wmi_MSFT_PhysicalDisk e;
     lhm_Hardware := lhm_Hardware e;
     subprocess_run := run;
     psutil_sensors_temperatures := psutil_sensors_temperatures e;
     psutil_cpu_percent := psutil_cpu_percent e;
     psutil_virtual_memory_percent := psutil_virtual_memory_percent e;
     psutil_disk_usage_percent := psutil_disk_usage_percent e;
     time_strftime := time_strftime e |}.

Definition with_psutil (temps : Res (list (string * list shwtemp))) (e : Env) : Env :=
  {| wmi_connect := wmi_connect e; wmi_Sensor := wmi_Sensor e;
     wmi_MSAcpi_ThermalZoneTemperature := wmi_MSAcpi_ThermalZoneTemperature e;
     wmi_MSFT_PhysicalDisk := wmi_MSFT_PhysicalDisk e;
     lhm_Hardware := lhm_Hardware e;
     subprocess_run := subprocess_run e;
     psutil_sensors_temperatures := temps;
     psutil_cpu_percent := psutil_cpu_percent e;
     psutil_virtual_memory_percent := psutil_virtual_memory_percent e;
     psutil_disk_usage_percent := psutil_disk_usage_percent e;
     time_strftime := time_strftime e |}.

(** ** Machines for the worked examples

    The scenario of the specification: the first probe fails, the second
    answers 42.3, a later one answers 50.0; after two probe calls the
    second backend disappears. *)

(** A machine with every backend library installed. *)
Definition workstation : Globals :=
  {| WMI_AVAILABLE := true; LHM_READY := true;
     _lhm_computer := Some Computer;
     psutil_has_sensors_temperatures := true |}.

(** The package sensor of the WMI provider, reading [v]. *)
Definition cpu_package (v : Q) : WmiSensor :=
  {| wmi_SensorType := "Temperature"; wmi_Name := Some "CPU Package";
     wmi_Value := Some v; wmi_Parent := Some "/intelcpu/0" |}.

(** psutil reporting [v] for the chip [coretemp]. *)
Definition coretemp (v : Q) : Res (list (string * list shwtemp)) :=
  Ok [("coretemp", [ {| label := "Package id 0"; current := v |} ])].

(** The WMI provider reads 42.3 and psutil 50.0. *)
Definition env_provider : Env :=
  with_psutil (coretemp 50)
    (with_wmi (fun _ => None) (fun _ => Ok [cpu_package (423 # 10)])
       (Raise ComError) dead_env).

(** Only psutil answers, with 50.0. *)
Definition env_psutil_only : Env := with_psutil (coretemp 50) dead_env.

(** The provider answers for the first calls and then goes away. *)
Definition failover_world (t : nat) : Env :=
  if (t <=? 2)%nat then env_provider else env_psutil_only.

(** The provider answers during construction and is lost afterwards; no
    other backend ever answers. *)
Definition lost_world (t : nat) : Env :=
  if (t <=? 2)%nat
  then with_wmi (fun _ => None) (fun _ => Ok [cpu_package (423 # 10)])
         (Raise ComError) dead_env
  else dead_env.

(** A machine where psutil reports the temperature [v] for the CPU and
    nothing else answers. *)
Definition env_psutil (v : Q) : Env := with_psutil (coretemp v) dead_env.

(** [n] times the digit 0. *)
Fixpoint zeros (n : nat) : string :=
  match n with
  | O => EmptyString
  | S n' => String "0"%char (zeros n')
  end.

(** The digit 1 followed by four hundred zeros. *)
Definition huge_reading : string := String "1"%char (zeros 400).

(** PowerShell answers with [huge_reading]; nothing else answers. *)
Definition env_huge : Env :=
  with_powershell
    (fun _ => Ok {| returncode := 0; stdout := huge_reading |}) dead_env.

(** Nothing answers while the monitor is constructed; afterwards
    PowerShell prints [huge_reading]. *)
Definition huge_later (t : nat) : Env :=
  if (t <=? 9)%nat then dead_env else env_huge.

(** LibreHardwareMonitor sees one drive whose temperature sensor reads
    [v]; nothing else answers. *)
Definition env_drive (v : Q) : Env :=
  with_lhm
    (Ok [ {| hw_HardwareType := Storage; hw_Update := None;
             hw_Sensors := [ {| lhm_SensorType := Temperature;
                                lhm_Value := Some v;
                                lhm_Name := Some "Temperature" |} ] |} ])
    dead_env.

(** LibreHardwareMonitor sees a CPU with a load sensor, two core
    temperatures and a package temperature. *)
Definition env_cpu_sensors : Env :=
  with_lhm
    (Ok [ {| hw_HardwareType := Cpu; hw_Update := None;
             hw_Sensors :=
               [ {| lhm_SensorType := Load; lhm_Value := Some 12%Q;
                    lhm_Name := Some "CPU Total" |};
                 {| lhm_SensorType := Temperature; lhm_Value := Some (455 # 10);
                    lhm_Name := Some "CPU Core #1" |};
                 {| lhm_SensorType := Temperature; lhm_Value := Some 46%Q;
                    lhm_Name := Some "CPU Core #2" |};
                 {| lhm_SensorType := Temperature; lhm_Value := Some (4725 # 100);
                    lhm_Name := Some "CPU Package" |} ] |} ])
    dead_env.

(** PowerShell exits with [code] after printing [out]. *)
Definition env_powershell (code : Z) (out : string) : Env :=
  with_powershell (fun _ => Ok {| returncode := code; stdout := out |}) dead_env.

(** LibreHardwareMonitor sees the drive at 36.6 while the monitor is
    constructed; afterwards only PowerShell answers, with 35. *)
Definition drive_failover (t : nat) : Env :=
  if (t <=? 6)%nat then env_drive (366 # 10) else env_powershell 0 "35".

(** A monitor object with no WMI client and no method selected. *)
Definition bare : HardwareMonitor :=
  {| _wmi_ohm := None; _wmi_root := None; _wmi_storage := None;
     _cpu_method := None; _ssd_method := None |}.

(** * The vocabulary of the properties *)

Local Open Scope list_scope.

(** The Python method behind each name of a chain, in chain order. *)
Definition method_names (m : metric) : list (string * string) :=
  match m with
  | CpuTemp =>
      [ ("lhm", "_cpu_temp_lhm"); ("ohm_wmi", "_cpu_temp_ohm");
        ("wmi_acpi", "_cpu_temp_wmi_acpi"); ("ps_acpi", "_cpu_temp_ps_acpi");
        ("psutil", "_cpu_temp_psutil") ]
  | SsdTemp =>
      [ ("lhm", "_ssd_temp_lhm"); ("ohm_wmi", "_ssd_temp_ohm");
        ("ps_reliability", "_ssd_temp_ps_reliability");
        ("wmi_storage", "_ssd_temp_wmi_storage") ]
  end.

(** The names of a chain, in priority order. *)
Definition chain_names (m : metric) : list string := map fst (method_names m).

(** The probe methods of the class, by the name they are defined
    under. *)
Definition probe_methods (py : PyBuiltins) : list (string * M (option Q)) :=
  [ ("_cpu_temp_lhm", _cpu_temp_lhm py);
    ("_cpu_temp_ohm", _cpu_temp_ohm py);
    ("_cpu_temp_wmi_acpi", _cpu_temp_wmi_acpi);
    ("_cpu_temp_ps_acpi", _cpu_temp_ps_acpi py);
    ("_cpu_temp_psutil", _cpu_temp_psutil);
    ("_ssd_temp_lhm", _ssd_temp_lhm);
    ("_ssd_temp_ohm", _ssd_temp_ohm py);
    ("_ssd_temp_ps_reliability", _ssd_temp_ps_reliability py);
    ("_ssd_temp_wmi_storage", _ssd_temp_wmi_storage) ].

(** [self.<pname>] for a probe method. *)
Definition bound_method (py : PyBuiltins) (pname : string) : M (option Q) :=
  match dict_get (probe_methods py) pname with
  | Some func => func
  | None => ret None
  end.

(** The chain a metric declares: its names in priority order, each with
    the probe method it stands for.  It is written from [method_names],
    not from the tables of the code. *)
Definition declared_chain (py : PyBuiltins) (m : metric)
  : list (string * M (option Q)) :=
  map (fun np => (fst np, bound_method py (snd np))) (method_names m).

(** The state reached by calling the methods of [ps] one after the other. *)
Fixpoint after (ps : list (string * M (option Q))) (s : Sys) : Sys :=
  match ps with
  | [] => s
  | (_, func) :: rest => after rest (snd (func s))
  end.

(** Every method of [ps], called in turn from [s], returns [None]. *)
Fixpoint all_absent (ps : list (string * M (option Q))) (s : Sys) : Prop :=
  match ps with
  | [] => True
  | (_, func) :: rest => fst (func s) = Ok None /\ all_absent rest (snd (func s))
  end.

(** The accessor of a metric. *)
Definition get_metric (py : PyBuiltins) (m : metric) : M (option Q) :=
  match m with
  | CpuTemp => get_cpu_temperature py
  | SsdTemp => get_ssd_temperature py
  end.

(** The dispatch table of the accessor of a metric. *)
Definition dispatch (py : PyBuiltins) (m : metric)
  : list (string * M (option Q)) :=
  match m with
  | CpuTemp => cpu_dispatch py
  | SsdTemp => ssd_dispatch py
  end.

(** The discovery pass of one metric inside [_detect_best_methods]. *)
Definition discover (py : PyBuiltins) (m : metric) : M unit :=
  detect_loop m (chain py m).

(** [func] is the probe method called [pname]. *)
Definition is_probe (pname : string) (func : M (option Q)) : Prop :=
  exists body, func = probe pname body.

(** [ps] pairs the chain names [names] with their probe methods. *)
Definition probes_of (names : list (string * string))
  (ps : list (string * M (option Q))) : Prop :=
  Forall2 (fun np nf => fst np = fst nf /\ is_probe (snd np) (snd nf)) names ps.

(** Two systems that differ at most in what the world answers from the
    [n]-th coming call on. *)
Definition same_until (n : nat) (s t : Sys) : Prop :=
  self s = self t /\ globals s = globals t /\ clock s = clock t /\
  calls s = calls t /\
  forall k, (k < n)%nat -> world s (clock s + k)%nat = world t (clock t + k)%nat.

(** The system at the moment [__init__] reaches [_detect_best_methods]. *)
Definition before_discovery (g : Globals) (w : nat -> Env) : Sys :=
  snd ((assign (set_wmi_ohm None) ;;;
        assign (set_wmi_root None) ;;;
        assign (set_wmi_storage None) ;;;
        assign (set_cpu_method None) ;;;
        assign (set_ssd_method None) ;;;
        _init_wmi_providers) (blank g w)).

(** The object changes at most by a name of [names] entering the slot
    of [m]. *)
Definition selects (names : list string) (m : metric)
  (h h' : HardwareMonitor) : Prop :=
  h' = h \/ exists name, In name names /\ h' = set_method m (Some name) h.

(** The slot of [m] holds nothing or a name of the chain of [m]. *)
Definition slot_ok (m : metric) (h : HardwareMonitor) : Prop :=
  get_method m h = None \/
  exists name, get_method m h = Some name /\ In name (chain_names m).

(** The slot of [m] holds a name of the chain of [m]. *)
Definition slot_set (m : metric) (h : HardwareMonitor) : Prop :=
  exists name, get_method m h = Some name /\ In name (chain_names m).

(** The operations a caller may perform on a constructed monitor. *)
Inductive operation : Type :=
| GetTemperature (m : metric)
| ReadSensors.

(** The system after an operation, whether it returned or raised. *)
Definition run_op (py : PyBuiltins) (o : operation) (s : Sys) : Sys :=
  match o with
  | GetTemperature m => snd (get_metric py m s)
  | ReadSensors => snd (read_sensors py s)
  end.

Definition run_ops (py : PyBuiltins) (ops : list operation) (s : Sys) : Sys :=
  fold_left (fun s o => run_op py o s) ops s.

(** The system [n] calls to the operating system later. *)
Definition advance (n : nat) (s : Sys) : Sys :=
  {| self := self s; globals := globals s; world := world s;
     clock := (n + clock s)%nat; calls := calls s |}.

(** The reading assembled from the six values [read_sensors] collects. *)
Definition reading_of (ts : string) (c r d : Q) (ct st : option Q)
  : SensorReading :=
  {| timestamp := ts;
     cpu_percent := round1 c;
     cpu_temp := option_map round1 ct;
     ram_percent := round1 r;
     disk_percent := round1 d;
     ssd_temp := option_map round1 st |}.

(** A method that returns from every state. *)
Definition never_raises {A} (func : M A) : Prop :=
  forall s, exists a, fst (func s) = Ok a.

(** The state in which the discovery pass of [m] starts. *)
Definition pass_start (py : PyBuiltins) (g : Globals) (w : nat -> Env)
  (m : metric) : Sys :=
  match m with
  | CpuTemp => before_discovery g w
  | SsdTemp => snd (discover py CpuTemp (before_discovery g w))
  end.

(** The discovery pass of [m] is reached: the pass before it, if any,
    returned. *)
Definition pass_reached (py : PyBuiltins) (g : Globals) (w : nat -> Env)
  (m : metric) : Prop :=
  match m with
  | CpuTemp => True
  | SsdTemp => fst (discover py CpuTemp (before_discovery g w)) = Ok tt
  end.

(** The value comes from a raw value that passed the range check, and is
    that raw value rounded. *)
Definition validated (r : Res (option Q)) : Prop :=
  forall v, r = Ok (Some v) ->
            exists raw, plausible raw = true /\ v = round1 raw.

(** ** More vocabulary: the probes one by one *)

(** The bodies of the eight probes that test the range before they
    return. *)
Definition checked_bodies (py : PyBuiltins)
  : list (Globals -> HardwareMonitor -> Env -> Res (option Q)) :=
  [ cpu_temp_lhm_body py; cpu_temp_ohm_body py; cpu_temp_wmi_acpi_body;
    cpu_temp_ps_acpi_body py; ssd_temp_lhm_body; ssd_temp_ohm_body py;
    ssd_temp_ps_reliability_body py; ssd_temp_wmi_storage_body ].

(** What the inner loop of [_cpu_temp_lhm] keeps of a sensor: the value
    of a temperature sensor that is present and in range. *)
Definition lhm_candidate (sensor : LhmSensor) : option Q :=
  if SensorType_eqb (lhm_SensorType sensor) Temperature
  then match lhm_Value sensor with
       | Some val => if plausible val then Some val else None
       | None => None
       end
  else None.

(** The sensor is named after the package or the total. *)
Definition names_package (py : PyBuiltins) (sensor : LhmSensor) : bool :=
  let name := str_lower py (or_empty (lhm_Name sensor)) in
  str_in "package" name || str_in "total" name.

(** The sensor is named after a core, and not after the package. *)
Definition names_core (py : PyBuiltins) (sensor : LhmSensor) : bool :=
  let name := str_lower py (or_empty (lhm_Name sensor)) in
  negb (names_package py sensor) && str_in "core" name.

(** The values in range of the sensors selected by [keep], in order. *)
Fixpoint candidates (keep : LhmSensor -> bool) (sensors : list LhmSensor)
  : list Q :=
  match sensors with
  | [] => []
  | sensor :: rest =>
      match lhm_candidate sensor with
      | Some val => if keep sensor then val :: candidates keep rest
                    else candidates keep rest
      | None => candidates keep rest
      end
  end.

(** The last element of a list, if any. *)
Definition last_error {A} (l : list A) : option A :=
  last (map Some l) None.

(** A method from which no exception but [OverflowError] escapes. *)
Definition raises_only_overflow {A} (func : M A) : Prop :=
  forall s e, fst (func s) = Raise e -> e = OverflowError.

(** A CPU as LibreHardwareMonitor shows it: a load sensor, two core
    temperatures, a package temperature. *)
Definition example_cpu : LhmHardware :=
  {| hw_HardwareType := Cpu; hw_Update := None;
     hw_Sensors :=
       [ {| lhm_SensorType := Load; lhm_Value := Some 12%Q;
            lhm_Name := Some "CPU Total" |};
         {| lhm_SensorType := Temperature; lhm_Value := Some (455 # 10);
            lhm_Name := Some "CPU Core #1" |};
         {| lhm_SensorType := Temperature; lhm_Value := Some 46%Q;
            lhm_Name := Some "CPU Core #2" |};
         {| lhm_SensorType := Temperature; lhm_Value := Some (4725 # 100);
            lhm_Name := Some "CPU Package" |} ] |}.

(** The namespace [ns] connects and a client of it answers a [Sensor()]
    query. *)
Definition provider_up (e : Env) (ns : string) : Prop :=
  wmi_connect e ns = None /\ exists sensors, wmi_Sensor e ns = Ok sensors.

(** A CPU whose die temperature is named [Tctl/Tdie]: a core
    temperature and the die temperature. *)
Definition example_ryzen : LhmHardware :=
  {| hw_HardwareType := Cpu; hw_Update := None;
     hw_Sensors :=
       [ {| lhm_SensorType := Temperature; lhm_Value := Some 50%Q;
            lhm_Name := Some "Core #1" |};
         {| lhm_SensorType := Temperature; lhm_Value := Some 60%Q;
            lhm_Name := Some "Tctl/Tdie" |} ] |}.

(** [method_labels] of [generate_pdf_report] in [reporter.py] *)
Definition report_method_labels : list (string * string) :=
  [ ("lhm", "LibreHardwareMonitor"); ("ohm_wmi", "OHM/LHM WMI");
    ("wmi_acpi", "WMI ThermalZone"); ("ps_acpi", "PowerShell ACPI");
    ("psutil", "psutil"); ("ps_reliability", "StorageReliability");
    ("wmi_storage", "WMI Storage"); ("none", "Tidak tersedia") ].

(** [method_labels.get(cpu_m, cpu_m)]: the label the PDF report prints
    for the method name found in the system information *)
Definition report_method_label (method : string) : string :=
  match dict_get report_method_labels method with
  | Some l => l
  | None => method
  end.

(** * The report: [reporter.py] *)

(** [a > b] and [a >= b] on floats *)
Definition gt (a b : Q) : bool :=
  match (b ?= a)%Q with Lt => true | _ => false end.

Definition ge (a b : Q) : bool := negb (gt b a).

(** [max(xs)] for a non-empty list [x :: rest]: the running maximum is
    replaced by an item that is greater. *)
Definition py_max (x : Q) (rest : list Q) : Q :=
  fold_left (fun best y => if gt y best then y else best) rest x.

(** [statistics.mean(xs)] for a non-empty list: the exact sum over the
    number of items *)
Definition mean (xs : list Q) : Q :=
  (fold_right Qplus 0 xs / inject_Z (Z.of_nat (List.length xs)))%Q.

(** [[r.cpu_temp for r in readings if r.cpu_temp is not None]] *)
Fixpoint present_temps (readings : list SensorReading) : list Q :=
  match readings with
  | [] => []
  | r :: rest =>
      match cpu_temp r with
      | Some t => t :: present_temps rest
      | None => present_temps rest
      end
  end.

(** [evaluate_status]: (status, colour, description) *)
Definition evaluate_status (readings : list SensorReading)
  : string * string * string :=
  let lulus := ("LULUS", "#00AA00",
                "Semua parameter dalam batas normal. Hardware sehat.") in
  match present_temps readings with
  | t :: temps =>
      let max_temp := py_max t temps in
      if gt max_temp 85
      then ("GAGAL", "#FF0000",
            "Suhu melebihi batas kritis! Perlu penanganan segera.")
      else if ge max_temp 75
      then ("PERINGATAN", "#FFA500",
            "Suhu tinggi terdeteksi. Periksa sistem pendingin.")
      else lulus
  | [] =>
      let usages := map cpu_percent readings in
      match usages with
      | _ :: _ =>
          let avg_usage := mean usages in
          if gt avg_usage 95
          then ("GAGAL", "#FF0000",
                "Penggunaan CPU sangat tinggi. Periksa proses berjalan.")
          else if gt avg_usage 85
          then ("PERINGATAN", "#FFA500",
                "Penggunaan CPU tinggi. Pantau lebih lanjut.")
          else lulus
      | [] => lulus
      end
  end.

(** The first component of [evaluate_status]. *)
Definition verdict (readings : list SensorReading) : string :=
  fst (fst (evaluate_status readings)).

(** The loop of [generate_chart] that fills [timestamps], [cpu_temps] and
    [cpu_usages]; [strptime] is [datetime.strptime] with the format of
    the readings, answering [None] where it raises [ValueError]. *)
Definition chart_series {T} (strptime : string -> option T)
  (readings : list SensorReading) : list T * list (option Q) * list Q :=
  fold_left
    (fun '(timestamps, cpu_temps, cpu_usages) r =>
       match strptime (timestamp r) with
       | Some t => (timestamps ++ [t], cpu_temps ++ [cpu_temp r],
                    cpu_usages ++ [cpu_percent r])
       | None => (timestamps, cpu_temps, cpu_usages)
       end)
    readings ([], [], []).

(** [has_temp = any(t is not None for t in cpu_temps)] *)
Definition has_temp (cpu_temps : list (option Q)) : bool :=
  existsb (fun t => negb (is_None t)) cpu_temps.

(** [valid_temps = [t if t is not None else 0 for t in cpu_temps]] *)
Definition valid_temps (cpu_temps : list (option Q)) : list Q :=
  map (fun t => match t with Some x => x | None => 0%Q end) cpu_temps.

(** A reading with the given temperature and utilization. *)
Definition reading_with (ct : option Q) (c : Q) : SensorReading :=
  {| timestamp := "2024-05-01 10:00:00"; cpu_percent := c; cpu_temp := ct;
     ram_percent := 50; disk_percent := 50; ssd_temp := None |}.

(** * GPU information: [get_gpu_info] of [benchmark.py] *)

(** A row of [Win32_VideoController]; an attribute that is missing or
    null is [None]. *)
Record VideoController : Type := {
  vc_Name : option string;
  vc_AdapterRAM : option Z;
  vc_DriverVersion : option string
}.

(** The dict [info] with its three keys ["name"], ["vram_mb"] and
    ["driver"] *)
Record GpuInfo : Type := {
  info_name : string;
  info_vram_mb : option Z;
  info_driver : string
}.

(** [s or "N/A"] for an optional string *)
Definition or_NA (x : option string) : string :=
  if truthy x then or_empty x else "N/A".

(** The loop of [get_gpu_info] over the video controllers *)
Fixpoint gpu_loop (gpus : list VideoController) (info : GpuInfo) : GpuInfo :=
  match gpus with
  | [] => info
  | gpu :: rest =>
      let name := or_empty (vc_Name gpu) in
      if negb (String.eqb name "")
      then
        {| info_name := name;
           info_vram_mb :=
             match vc_AdapterRAM gpu with
             | Some vram =>
                 if negb (vram =? 0) && (0 <? vram)
                 then Some (vram / (1024 * 1024))
                 else info_vram_mb info
             | None => info_vram_mb info
             end;
           info_driver := or_NA (vc_DriverVersion gpu) |}
      else gpu_loop rest info
  end.

(** [get_gpu_info]; [controllers] is what [wmi_module.WMI()] followed by
    [Win32_VideoController()] answers. *)
Definition get_gpu_info (wmi_available : bool)
  (controllers : Res (list VideoController)) : GpuInfo :=
  let info := {| info_name := "N/A"; info_vram_mb := None;
                 info_driver := "N/A" |} in
  if negb wmi_available then info
  else match controllers with
       | Ok gpus => gpu_loop gpus info
       | Raise _ => info
       end.

(** The controller has a name that is not empty. *)
Definition named (gpu : VideoController) : bool :=
  negb (String.eqb (or_empty (vc_Name gpu)) "").

(** * The load generator: [stress.py] *)

(** A started daemon thread running [_worker] *)
Inductive Thread : Type := Worker.

Record StressEngine : Type := {
  _running : bool;
  _threads : list Thread;
  _mode : string
}.

(** [StressEngine.__init__] *)
Definition stress_init : StressEngine :=
  {| _running := false; _threads := []; _mode := "idle" |}.

Definition start_idle (e : StressEngine) : StressEngine :=
  {| _running := _running e; _threads := _threads e; _mode := "idle" |}.

(** [x or d] for an integer that may be [None] *)
Definition int_or (x : option Z) (d : Z) : Z :=
  match x with
  | Some n => if n =? 0 then d else n
  | None => d
  end.

(** The number of workers [start_load] settles on; the first value,
    computed from the number of active threads, is overwritten. *)
Definition num_workers (active_count : Z) (cpu_count : option Z) : Z :=
  let num_workers := Z.max 1 (int_or (Some (active_count / 2)) 1) in
  let num_workers := Z.max 1 (Z.min 2 (int_or cpu_count 2)) in
  num_workers.

(** [for _ in range(n): t = Thread(...); t.start(); threads.append(t)] *)
Definition spawn (n : Z) (threads : list Thread) : list Thread :=
  threads ++ repeat Worker (Z.to_nat n).

(** [start_load]; [active_count] is [threading.active_count()] and
    [cpu_count] is [psutil.cpu_count(logical=False)]. *)
Definition start_load (active_count : Z) (cpu_count : option Z)
  (e : StressEngine) : StressEngine :=
  {| _running := true;
     _threads := spawn (num_workers active_count cpu_count) (_threads e);
     _mode := "load" |}.

Definition stop (e : StressEngine) : StressEngine :=
  {| _running := false; _threads := []; _mode := "idle" |}.

(** The calls a client may make on the engine. *)
Inductive stress_op : Type :=
| StartIdle
| StartLoad (active_count : Z) (cpu_count : option Z)
| Stop.

Definition stress_step (e : StressEngine) (o : stress_op) : StressEngine :=
  match o with
  | StartIdle => start_idle e
  | StartLoad a c => start_load a c e
  | Stop => stop e
  end.

Definition stress_run (ops : list stress_op) : StressEngine :=
  fold_left stress_step ops stress_init.

(** The number of [start_load] calls since the last [stop]. *)
Fixpoint loads_since_stop (ops : list stress_op) (acc : nat) : nat :=
  match ops with
  | [] => acc
  | Stop :: rest => loads_since_stop rest 0
  | StartLoad _ _ :: rest => loads_since_stop rest (S acc)
  | StartIdle :: rest => loads_since_stop rest acc
  end.

(** Two objects with the same WMI clients. *)
Definition same_clients (h h' : HardwareMonitor) : Prop :=
  _wmi_ohm h = _wmi_ohm h' /\ _wmi_root h = _wmi_root h' /\
  _wmi_storage h = _wmi_storage h'.

(** The world of [s] answers [e] at every moment. *)
Definition steady (e : Env) (s : Sys) : Prop := forall t, world s t = e.

(** Two systems in which every probe returns the same: same module
    facts, same steady world, same WMI clients. *)
Definition akin (e : Env) (s s' : Sys) : Prop :=
  globals s = globals s' /\ steady e s /\ steady e s' /\
  same_clients (self s) (self s').

(** In the steady world of [s0], the slot of [m] is settled on the
    answer [r]: it is empty and no probe of the chain answers, or it
    holds the name of a probe that answers [r]. *)
Definition settled (py : PyBuiltins) (s0 : Sys) (m : metric)
  (h : HardwareMonitor) (r : option Q) : Prop :=
  (get_method m h = None /\ r = None /\
   forall nf, In nf (chain py m) -> fst (snd nf s0) = Ok None) \/
  (exists name (func : M (option Q)) v,
      get_method m h = Some name /\ r = Some v /\
      dict_get (chain py m) name = Some func /\
      fst (func s0) = Ok (Some v)).

(** * Properties *)


(** ** The probes on small inputs *)

Example round1_examples :
  round1 (366 # 10) = 366 # 10 /\ round1 (1234 # 100) = 123 # 10 /\
  round1 (4725 # 100) = 472 # 10 /\ round1 (4735 # 100) = 474 # 10.
Proof. repeat split; reflexivity. Qed.

(** The range check of a checked probe, on the values the specification
    lists. *)
Example range_check_examples :
  ssd_temp_lhm_body windows bare (env_drive (-5)) = Ok None /\
  ssd_temp_lhm_body windows bare (env_drive 0) = Ok None /\
  ssd_temp_lhm_body windows bare (env_drive 150) = Ok None /\
  ssd_temp_lhm_body windows bare (env_drive 9999) = Ok None /\
  ssd_temp_lhm_body windows bare (env_drive (366 # 10)) = Ok (Some (366 # 10)).
Proof. repeat split; reflexivity. Qed.

(** The package temperature wins over the first core. *)
Example lhm_prefers_package :
  cpu_temp_lhm_body ascii_builtins windows bare env_cpu_sensors
  = Ok (Some (472 # 10)).
Proof. reflexivity. Qed.

(** 303.1 K is 29.95 degrees; an unparsable answer and a failed helper
    give nothing. *)
Example ps_acpi_examples :
  cpu_temp_ps_acpi_body ascii_builtins windows bare (env_powershell 0 " 3031 ")
  = Ok (Some (300 # 10)) /\
  cpu_temp_ps_acpi_body ascii_builtins windows bare (env_powershell 0 "N/A")
  = Ok None /\
  cpu_temp_ps_acpi_body ascii_builtins windows bare (env_powershell 1 "3031")
  = Ok None /\
  cpu_temp_ps_acpi_body ascii_builtins windows bare dead_env = Ok None.
Proof. repeat split; reflexivity. Qed.

(** ** Walking a chain *)

Lemma bind_ok {A B} (m : M A) (k : A -> M B) s a :
  fst (m s) = Ok a -> bind m k s = k a (snd (m s)).
Proof. unfold bind. destruct (m s) as [r s']; simpl. intros ->. reflexivity. Qed.

Lemma chain_probes py m : probes_of (method_names m) (chain py m).
Proof.
  destruct m; repeat constructor; simpl; eexists; reflexivity.
Qed.

Lemma probes_of_app_inv names pre x post :
  probes_of names (pre ++ x :: post) ->
  exists npre nx npost,
    names = npre ++ nx :: npost /\ probes_of npre pre /\
    fst nx = fst x /\ is_probe (snd nx) (snd x) /\ probes_of npost post /\
    List.length npre = List.length pre.
Proof.
  unfold probes_of. intros H.
  apply Forall2_app_inv_r in H. destruct H as (npre & rest & Hpre & Hrest & ->).
  inversion Hrest as [|nx x' npost post' [Hn Hp] Hpost]; subst.
  exists npre, nx, npost. repeat split; auto.
  eapply Forall2_length; eauto.
Qed.

(** Calling probes moves the clock and the trace, nothing else. *)
Lemma after_probes names ps s :
  probes_of names ps ->
  self (after ps s) = self s /\ globals (after ps s) = globals s /\
  world (after ps s) = world s /\
  clock (after ps s) = (clock s + List.length ps)%nat /\
  calls (after ps s) = calls s ++ map snd names.
Proof.
  intros H. revert s. induction H as [|[n pn] [n' f] names ps [_ [body Hb]] _ IH];
    intros s; simpl.
  - rewrite app_nil_r, Nat.add_0_r. auto.
  - simpl in Hb. subst f.
    destruct (IH (snd (probe pn body s))) as (H1 & H2 & H3 & H4 & H5).
    rewrite H1, H2, H3, H4, H5. unfold probe; simpl.
    rewrite <- app_assoc. simpl. repeat split; auto; lia.
Qed.

Lemma detect_loop_absent m ps s :
  all_absent ps s -> detect_loop m ps s = (Ok tt, after ps s).
Proof.
  revert s. induction ps as [|[name func] rest IH]; intros s H; simpl.
  - reflexivity.
  - destruct H as [H1 H2]. rewrite (bind_ok _ _ _ H1). apply IH, H2.
Qed.

Lemma detect_loop_first m pre name (func : M (option Q)) post s v :
  all_absent pre s ->
  fst (func (after pre s)) = Ok (Some v) ->
  detect_loop m (pre ++ (name, func) :: post) s =
  (Ok tt, with_self (snd (func (after pre s)))
            (set_method m (Some name) (self (snd (func (after pre s)))))).
Proof.
  revert s. induction pre as [|[n f] rest IH]; intros s H Hv; simpl in *.
  - rewrite (bind_ok _ _ _ Hv). reflexivity.
  - destruct H as [H1 H2]. rewrite (bind_ok _ _ _ H1). apply IH; assumption.
Qed.

Lemma sweep_loop_absent m ps s :
  all_absent ps s -> sweep_loop m ps s = (Ok None, after ps s).
Proof.
  revert s. induction ps as [|[name func] rest IH]; intros s H; simpl.
  - reflexivity.
  - destruct H as [H1 H2]. rewrite (bind_ok _ _ _ H1). apply IH, H2.
Qed.

Lemma sweep_loop_first m pre name (func : M (option Q)) post s v :
  all_absent pre s ->
  fst (func (after pre s)) = Ok (Some v) ->
  sweep_loop m (pre ++ (name, func) :: post) s =
  (Ok (Some v), with_self (snd (func (after pre s)))
                  (set_method m (Some name) (self (snd (func (after pre s)))))).
Proof.
  revert s. induction pre as [|[n f] rest IH]; intros s H Hv; simpl in *.
  - rewrite (bind_ok _ _ _ Hv). reflexivity.
  - destruct H as [H1 H2]. rewrite (bind_ok _ _ _ H1). apply IH; assumption.
Qed.

Lemma get_method_set_same m v h : get_method m (set_method m v h) = v.
Proof. destruct m; reflexivity. Qed.

(** A probe reads the world only at the current clock. *)
Lemma probe_same_until pn body n s t :
  same_until (S n) s t ->
  fst (probe pn body s) = fst (probe pn body t) /\
  same_until n (snd (probe pn body s)) (snd (probe pn body t)).
Proof.
  intros (Hs & Hg & Hc & Hl & Hw). unfold probe, now; simpl. split.
  - rewrite Hs, Hg. specialize (Hw 0%nat). rewrite !Nat.add_0_r in Hw.
    rewrite Hw by lia. reflexivity.
  - repeat split; simpl; try congruence.
    intros k Hk. specialize (Hw (S k)).
    rewrite !Nat.add_succ_r in Hw. simpl. apply Hw. lia.
Qed.

Lemma probes_same_until names ps n s t :
  probes_of names ps ->
  same_until (List.length ps + n) s t ->
  (all_absent ps s -> all_absent ps t) /\
  same_until n (after ps s) (after ps t).
Proof.
  intros H. revert s t.
  induction H as [|[nm pn] [nm' f] names ps [_ [body Hb]] _ IH];
    intros s t Hst; simpl in *.
  - split; auto.
  - subst f. destruct (probe_same_until pn body Hst) as [Hr Hn].
    destruct (IH _ _ Hn) as [Ha Hs]. split; auto.
    intros [H1 H2]. split; [congruence | auto].
Qed.

(** ** Construction *)

Lemma construct_unfold py g w :
  construct py g w = _detect_best_methods py (before_discovery g w).
Proof.
  unfold construct, __init__, before_discovery, _init_wmi_providers, blank.
  unfold bind, assign, os_call; simpl.
  destruct (WMI_AVAILABLE g); reflexivity.
Qed.

Lemma detect_best_methods_passes py :
  _detect_best_methods py = (discover py CpuTemp ;;; discover py SsdTemp).
Proof. reflexivity. Qed.

Lemma before_discovery_methods g w m :
  get_method m (self (before_discovery g w)) = None.
Proof.
  unfold before_discovery, _init_wmi_providers, blank, bind, assign, os_call.
  cbn -[connect_ohm].
  destruct (WMI_AVAILABLE g); cbn -[connect_ohm]; [|destruct m; reflexivity].
  destruct (connect_ohm _ _); destruct m; reflexivity.
Qed.

(** ** Reading with a sticky method *)

Lemma get_metric_unfold py m :
  get_metric py m = get_temperature m (chain py m).
Proof. destruct m; reflexivity. Qed.

Lemma chain_no_empty_name py m : dict_get (chain py m) "" = None.
Proof. destruct m; reflexivity. Qed.

Lemma probes_of_dict_get names ps name (func : M (option Q)) :
  probes_of names ps ->
  dict_get ps name = Some func ->
  exists pname, dict_get names name = Some pname /\ is_probe pname func.
Proof.
  induction 1 as [|[n pn] [n' f] names ps [Hn Hp] _ IH]; simpl; [discriminate|].
  simpl in Hn, Hp. subst n'.
  destruct (String.eqb name n).
  - intros [= ->]. eauto.
  - assumption.
Qed.

(** The list walked by [_detect_best_methods] and the dict of the accessor
    both hold the declared chain. *)
Lemma declared_chain_tables py m :
  chain py m = declared_chain py m /\ dispatch py m = declared_chain py m.
Proof. destruct m; split; reflexivity. Qed.

(** A name found in the dispatch table is a true value. *)
Lemma selected_truthy py m name (func : M (option Q)) :
  dict_get (chain py m) name = Some func -> truthy (Some name) = true.
Proof.
  intros H. simpl. destruct (String.eqb_spec name ""); [|reflexivity].
  subst. rewrite chain_no_empty_name in H. discriminate.
Qed.

(** With a method selected, the accessor starts with that method alone. *)
Lemma get_metric_sticky py m name (func : M (option Q)) s :
  get_method m (self s) = Some name ->
  dict_get (chain py m) name = Some func ->
  get_metric py m s =
  (val <- func ;;
   match val with
   | Some v => ret (Some v)
   | None => sweep_loop m (chain py m)
   end) s.
Proof.
  intros Hm Hd. rewrite get_metric_unfold. unfold get_temperature.
  rewrite Hm, (@selected_truthy py m name func Hd). simpl or_empty. rewrite Hd.
  reflexivity.
Qed.

(** C4. With a method selected for a metric and its probe answering, the
    accessor returns that answer after calling this one probe and no
    other, and leaves the object as it was.  The probe is the one the
    declared chain of the metric gives for the selected name, for the
    CPU and for the SSD alike. *)
Theorem sticky_fast_path py m name (func : M (option Q)) s v :
  get_method m (self s) = Some name ->
  dict_get (declared_chain py m) name = Some func ->
  fst (func s) = Ok (Some v) ->
  fst (get_metric py m s) = Ok (Some v) /\
  self (snd (get_metric py m s)) = self s /\
  exists pname,
    dict_get (method_names m) name = Some pname /\
    calls (snd (get_metric py m s)) = calls s ++ [pname].
Proof.
  intros Hm Hd Hv.
  rewrite <- (proj1 (declared_chain_tables py m)) in Hd.
  rewrite (@get_metric_sticky py m name func s Hm Hd), (bind_ok _ _ _ Hv).
  destruct (@probes_of_dict_get _ _ name func (chain_probes py m) Hd)
    as (pname & Hp & body & ->).
  unfold ret, probe; simpl. repeat split. exists pname. split; auto.
Qed.

Lemma sticky_fast_path_witness :
  let s := snd (construct ascii_builtins workstation (fun _ => env_provider)) in
  let t := snd (construct ascii_builtins windows
                  (fun _ => env_powershell 0 "35")) in
  (get_method CpuTemp (self s) = Some "ohm_wmi" /\
   fst (get_cpu_temperature ascii_builtins s) = Ok (Some (423 # 10)) /\
   self (snd (get_cpu_temperature ascii_builtins s)) = self s /\
   calls (snd (get_cpu_temperature ascii_builtins s)) =
     calls s ++ ["_cpu_temp_ohm"]) /\
  (get_method SsdTemp (self t) = Some "ps_reliability" /\
   fst (get_ssd_temperature ascii_builtins t) = Ok (Some (350 # 10)) /\
   self (snd (get_ssd_temperature ascii_builtins t)) = self t /\
   calls (snd (get_ssd_temperature ascii_builtins t)) =
     calls t ++ ["_ssd_temp_ps_reliability"]).
Proof.
  intros s t. split.
  - destruct (@sticky_fast_path ascii_builtins CpuTemp "ohm_wmi"
                (_cpu_temp_ohm ascii_builtins) s (423 # 10)
                eq_refl eq_refl eq_refl) as (Hr & Hs & pname & Hp & Hc).
    split; [reflexivity|]. split; [exact Hr|]. split; [exact Hs|].
    simpl in Hp. injection Hp as <-. exact Hc.
  - destruct (@sticky_fast_path ascii_builtins SsdTemp "ps_reliability"
                (_ssd_temp_ps_reliability ascii_builtins) t (350 # 10)
                eq_refl eq_refl eq_refl) as (Hr & Hs & pname & Hp & Hc).
    split; [reflexivity|]. split; [exact Hr|]. split; [exact Hs|].
    simpl in Hp. injection Hp as <-. exact Hc.
Defined.

(** C5. When the selected probe returns nothing, the same call sweeps the
    declared chain of the metric from its head in priority order: if the
    probes before [name] return nothing and the probe [name] returns
    [v], the accessor returns [v], [name] becomes the selected method,
    and the probes called are the sticky one followed by those of the
    chain up to [name].  This holds for the CPU and for the SSD. *)
Theorem sticky_failure_falls_through py m name0 (func0 : M (option Q))
  pre name (func : M (option Q)) post s v :
  get_method m (self s) = Some name0 ->
  dict_get (declared_chain py m) name0 = Some func0 ->
  fst (func0 s) = Ok None ->
  declared_chain py m = pre ++ (name, func) :: post ->
  all_absent pre (snd (func0 s)) ->
  fst (func (after pre (snd (func0 s)))) = Ok (Some v) ->
  fst (get_metric py m s) = Ok (Some v) /\
  get_method m (self (snd (get_metric py m s))) = Some name /\
  exists pname0,
    dict_get (method_names m) name0 = Some pname0 /\
    calls (snd (get_metric py m s)) =
      calls s ++
      pname0 :: map snd (firstn (S (List.length pre)) (method_names m)).
Proof.
  intros Hm Hd H0 Hc Hpre Hv.
  rewrite <- (proj1 (declared_chain_tables py m)) in Hd, Hc.
  rewrite (@get_metric_sticky py m name0 func0 s Hm Hd), (bind_ok _ _ _ H0).
  pose proof (chain_probes py m) as Hp.
  destruct (@probes_of_dict_get _ _ name0 func0 Hp Hd)
    as (pname0 & Hp0 & body0 & Hb0).
  rewrite Hc in Hp. apply probes_of_app_inv in Hp.
  destruct Hp as (npre & nx & npost & Hn & Hppre & Hnx & [body Hb] & _ & Hlen).
  simpl in Hb, Hnx.
  rewrite Hc, (@sweep_loop_first m pre name func post _ v Hpre Hv).
  cbn [fst snd self with_self calls]. rewrite get_method_set_same.
  repeat split. exists pname0. split; [assumption|].
  destruct (after_probes (snd (func0 s)) Hppre) as (_ & _ & _ & _ & Hcalls).
  rewrite Hb. unfold probe at 1; cbn [snd calls].
  rewrite Hcalls, Hb0. unfold probe at 1; cbn [snd calls].
  rewrite Hn, <- Hlen.
  replace (S (List.length npre)) with (List.length npre + 1)%nat by lia.
  rewrite firstn_app_2. simpl. rewrite map_app, <- !app_assoc. reflexivity.
Qed.

Lemma sticky_failure_falls_through_witness :
  let s := snd (construct ascii_builtins workstation failover_world) in
  let t := snd (construct ascii_builtins windows drive_failover) in
  (get_method CpuTemp (self s) = Some "ohm_wmi" /\
   fst (_cpu_temp_ohm ascii_builtins s) = Ok None /\
   fst (get_cpu_temperature ascii_builtins s) = Ok (Some 50%Q) /\
   get_method CpuTemp (self (snd (get_cpu_temperature ascii_builtins s))) =
     Some "psutil" /\
   calls (snd (get_cpu_temperature ascii_builtins s)) =
     calls s ++ ["_cpu_temp_ohm"; "_cpu_temp_lhm"; "_cpu_temp_ohm";
                 "_cpu_temp_wmi_acpi"; "_cpu_temp_ps_acpi";
                 "_cpu_temp_psutil"]) /\
  (get_method SsdTemp (self t) = Some "lhm" /\
   fst (_ssd_temp_lhm t) = Ok None /\
   fst (get_ssd_temperature ascii_builtins t) = Ok (Some (350 # 10)) /\
   get_method SsdTemp (self (snd (get_ssd_temperature ascii_builtins t))) =
     Some "ps_reliability" /\
   calls (snd (get_ssd_temperature ascii_builtins t)) =
     calls t ++ ["_ssd_temp_lhm"; "_ssd_temp_lhm"; "_ssd_temp_ohm";
                 "_ssd_temp_ps_reliability"]).
Proof.
  intros s t. split.
  - assert (Ha : all_absent
                   [("lhm", _cpu_temp_lhm ascii_builtins);
                    ("ohm_wmi", _cpu_temp_ohm ascii_builtins);
                    ("wmi_acpi", _cpu_temp_wmi_acpi);
                    ("ps_acpi", _cpu_temp_ps_acpi ascii_builtins)]
                   (snd (_cpu_temp_ohm ascii_builtins s)))
      by (repeat split; reflexivity).
    destruct (@sticky_failure_falls_through ascii_builtins CpuTemp "ohm_wmi"
                (_cpu_temp_ohm ascii_builtins)
                [("lhm", _cpu_temp_lhm ascii_builtins);
                 ("ohm_wmi", _cpu_temp_ohm ascii_builtins);
                 ("wmi_acpi", _cpu_temp_wmi_acpi);
                 ("ps_acpi", _cpu_temp_ps_acpi ascii_builtins)]
                "psutil" _cpu_temp_psutil [] s 50%Q
                eq_refl eq_refl eq_refl eq_refl Ha eq_refl)
      as (Hr & Hm & pname0 & Hp & Hc).
    split; [reflexivity|]. split; [reflexivity|].
    split; [exact Hr|]. split; [exact Hm|].
    simpl in Hp. injection Hp as <-. exact Hc.
  - assert (Ha : all_absent
                   [("lhm", _ssd_temp_lhm);
                    ("ohm_wmi", _ssd_temp_ohm ascii_builtins)]
                   (snd (_ssd_temp_lhm t)))
      by (repeat split; reflexivity).
    destruct (@sticky_failure_falls_through ascii_builtins SsdTemp "lhm"
                _ssd_temp_lhm
                [("lhm", _ssd_temp_lhm);
                 ("ohm_wmi", _ssd_temp_ohm ascii_builtins)]
                "ps_reliability" (_ssd_temp_ps_reliability ascii_builtins)
                [("wmi_storage", _ssd_temp_wmi_storage)] t (350 # 10)
                eq_refl eq_refl eq_refl eq_refl Ha eq_refl)
      as (Hr & Hm & pname0 & Hp & Hc).
    split; [reflexivity|]. split; [reflexivity|].
    split; [exact Hr|]. split; [exact Hm|].
    simpl in Hp. injection Hp as <-. exact Hc.
Defined.

(** ** An exhausted sweep *)

(** C1, as the code has it.  When the selected probe returns nothing and
    the sweep of the whole chain finds nothing either, the accessor
    returns absence and leaves the object untouched: the slot still
    holds the name it held, and the label is still the one of that
    probe. *)
Theorem exhausted_sweep_keeps_method py m name0 (func0 : M (option Q)) s :
  get_method m (self s) = Some name0 ->
  dict_get (dispatch py m) name0 = Some func0 ->
  fst (func0 s) = Ok None ->
  all_absent (dispatch py m) (snd (func0 s)) ->
  fst (get_metric py m s) = Ok None /\
  get_method m (self (snd (get_metric py m s))) = Some name0 /\
  method_label m (self (snd (get_metric py m s))) = method_label m (self s).
Proof.
  intros Hm Hd H0 Ha.
  change (dispatch py m) with (chain py m) in *.
  rewrite (@get_metric_sticky py m name0 func0 s Hm Hd), (bind_ok _ _ _ H0).
  rewrite (sweep_loop_absent m _ _ Ha). cbn [fst snd].
  destruct (@probes_of_dict_get _ _ name0 func0 (chain_probes py m) Hd)
    as (pname0 & _ & body0 & ->).
  destruct (after_probes (snd (probe pname0 body0 s)) (chain_probes py m))
    as (Hself & _).
  rewrite Hself. unfold probe; cbn [snd self]. auto.
Qed.

Lemma exhausted_sweep_keeps_method_witness :
  let s := snd (construct ascii_builtins workstation lost_world) in
  get_method CpuTemp (self s) = Some "ohm_wmi" /\
  fst (_cpu_temp_ohm ascii_builtins s) = Ok None /\
  all_absent (dispatch ascii_builtins CpuTemp)
    (snd (_cpu_temp_ohm ascii_builtins s)) /\
  fst (get_cpu_temperature ascii_builtins s) = Ok None /\
  get_method CpuTemp (self (snd (get_cpu_temperature ascii_builtins s))) =
    Some "ohm_wmi".
Proof.
  intros s.
  assert (Ha : all_absent (dispatch ascii_builtins CpuTemp)
                 (snd (_cpu_temp_ohm ascii_builtins s)))
    by (repeat split; reflexivity).
  destruct (@exhausted_sweep_keeps_method ascii_builtins CpuTemp "ohm_wmi"
              (_cpu_temp_ohm ascii_builtins) s eq_refl eq_refl eq_refl Ha)
    as (Hr & Hm & _).
  split; [reflexivity|]. split; [reflexivity|]. split; [exact Ha|].
  split; [exact Hr | exact Hm].
Defined.

(** C1 as stated fails: an exhausted sweep does not clear the slot.  On
    the machine that lost its provider the CPU slot still reads
    ["ohm_wmi"] after such a read, and the label still names the
    provider. *)
Lemma exhausted_sweep_does_not_clear :
  ~ (forall py m name0 (func0 : M (option Q)) s,
        get_method m (self s) = Some name0 ->
        dict_get (dispatch py m) name0 = Some func0 ->
        fst (func0 s) = Ok None ->
        all_absent (dispatch py m) (snd (func0 s)) ->
        get_method m (self (snd (get_metric py m s))) = None /\
        method_label m (self (snd (get_metric py m s))) = "Tidak tersedia").
Proof.
  intros H.
  pose (s := snd (construct ascii_builtins workstation lost_world)).
  assert (Ha : all_absent (dispatch ascii_builtins CpuTemp)
                 (snd (_cpu_temp_ohm ascii_builtins s)))
    by (repeat split; reflexivity).
  destruct (H ascii_builtins CpuTemp "ohm_wmi" (_cpu_temp_ohm ascii_builtins) s
              eq_refl eq_refl eq_refl Ha) as [Hnone _].
  vm_compute in Hnone. discriminate Hnone.
Qed.

(** ** What an operation may do to the object *)

Lemma selects_weaken names name0 m h h' :
  selects names m h h' -> selects (name0 :: names) m h h'.
Proof.
  intros [H | (name & Hin & H)]; [left; assumption|].
  right. exists name. split; [right; assumption | assumption].
Qed.

Lemma probe_self pname body s : self (snd (probe pname body s)) = self s.
Proof. reflexivity. Qed.

Lemma detect_loop_selects m names ps s :
  probes_of names ps ->
  selects (map fst names) m (self s) (self (snd (detect_loop m ps s))).
Proof.
  intros H. revert s.
  induction H as [|[n pn] [n' f] names ps [Hn [body Hb]] _ IH]; intros s.
  - left. reflexivity.
  - simpl in Hn, Hb. subst n' f. simpl. unfold bind.
    destruct (probe pn body s) as [r s'] eqn:E.
    assert (Hs : self s' = self s)
      by (change s' with (snd (r, s')); rewrite <- E; apply probe_self).
    destruct r as [[v|]|e]; simpl.
    + right. exists n. split; [left; reflexivity|]. rewrite Hs. reflexivity.
    + rewrite <- Hs. apply selects_weaken, IH.
    + left. assumption.
Qed.

Lemma sweep_loop_selects m names ps s :
  probes_of names ps ->
  selects (map fst names) m (self s) (self (snd (sweep_loop m ps s))).
Proof.
  intros H. revert s.
  induction H as [|[n pn] [n' f] names ps [Hn [body Hb]] _ IH]; intros s.
  - left. reflexivity.
  - simpl in Hn, Hb. subst n' f. simpl. unfold bind.
    destruct (probe pn body s) as [r s'] eqn:E.
    assert (Hs : self s' = self s)
      by (change s' with (snd (r, s')); rewrite <- E; apply probe_self).
    destruct r as [[v|]|e]; simpl.
    + right. exists n. split; [left; reflexivity|]. rewrite Hs. reflexivity.
    + rewrite <- Hs. apply selects_weaken, IH.
    + left. assumption.
Qed.

Lemma discover_selects py m s :
  selects (chain_names m) m (self s) (self (snd (discover py m s))).
Proof. apply detect_loop_selects, chain_probes. Qed.

Lemma get_metric_selects py m s :
  selects (chain_names m) m (self s) (self (snd (get_metric py m s))).
Proof.
  rewrite get_metric_unfold. unfold get_temperature.
  assert (Hsweep : forall s', self s' = self s ->
            selects (chain_names m) m (self s)
              (self (snd (sweep_loop m (chain py m) s')))).
  { intros s' <-. apply sweep_loop_selects, chain_probes. }
  destruct (truthy (get_method m (self s))).
  - destruct (dict_get (chain py m) (or_empty (get_method m (self s))))
      as [func|] eqn:Hd.
    + destruct (@probes_of_dict_get _ _ _ func (chain_probes py m) Hd)
        as (pname & _ & body & ->).
      unfold bind. destruct (probe pname body s) as [r s'] eqn:E.
      assert (Hs : self s' = self s)
        by (change s' with (snd (r, s')); rewrite <- E; apply probe_self).
      destruct r as [[v|]|e]; simpl.
      * left. assumption.
      * apply Hsweep, Hs.
      * left. assumption.
    + unfold bind, ret. apply Hsweep. reflexivity.
  - unfold bind, ret. apply Hsweep. reflexivity.
Qed.

Lemma selects_slot_ok m m' h h' :
  selects (chain_names m') m' h h' -> slot_ok m h -> slot_ok m h'.
Proof.
  intros [-> | (name & Hin & ->)] H; [assumption|].
  destruct m, m'; try assumption; right; exists name; split; auto.
Qed.

Lemma selects_slot_set m m' h h' :
  selects (chain_names m') m' h h' -> slot_set m h -> slot_set m h'.
Proof.
  intros [-> | (name & Hin & ->)] H; [assumption|].
  destruct m, m'; try assumption; exists name; split; auto.
Qed.

Lemma os_call_self {A} (f : Env -> Res A) s : self (snd (os_call f s)) = self s.
Proof. reflexivity. Qed.

(** [read_sensors] changes the object only through its two accessors. *)
Lemma read_sensors_selects py s :
  exists h,
    selects (chain_names CpuTemp) CpuTemp (self s) h /\
    selects (chain_names SsdTemp) SsdTemp h (self (snd (read_sensors py s))).
Proof.
  unfold read_sensors.
  set (k1 := fun _ : string => _).
  unfold bind at 1. destruct (os_call _ s) as [r1 s1] eqn:E1.
  assert (H1 : self s1 = self s)
    by (change s1 with (snd (r1, s1)); rewrite <- E1; apply os_call_self).
  destruct r1 as [ts|e];
    [|exists (self s); split; left; [reflexivity | assumption]].
  subst k1. cbv beta.
  unfold bind at 1. destruct (os_call _ s1) as [r2 s2] eqn:E2.
  assert (H2 : self s2 = self s)
    by (change s2 with (snd (r2, s2)); rewrite <- E2, os_call_self; exact H1).
  destruct r2 as [c|e];
    [|exists (self s); split; left; [reflexivity | assumption]].
  unfold bind at 1. destruct (os_call _ s2) as [r3 s3] eqn:E3.
  assert (H3 : self s3 = self s)
    by (change s3 with (snd (r3, s3)); rewrite <- E3, os_call_self; exact H2).
  destruct r3 as [r|e];
    [|exists (self s); split; left; [reflexivity | assumption]].
  unfold bind at 1. destruct (os_call _ s3) as [r4 s4] eqn:E4.
  assert (H4 : self s4 = self s)
    by (change s4 with (snd (r4, s4)); rewrite <- E4, os_call_self; exact H3).
  destruct r4 as [d|e];
    [|exists (self s); split; left; [reflexivity | assumption]].
  pose proof (get_metric_selects py CpuTemp s4) as Hc. rewrite H4 in Hc.
  change (get_metric py CpuTemp) with (get_cpu_temperature py) in Hc.
  unfold bind at 1. destruct (get_cpu_temperature py s4) as [r5 s5] eqn:E5.
  simpl in Hc.
  destruct r5 as [ct|e];
    [|exists (self s5); split; [assumption | left; reflexivity]].
  pose proof (get_metric_selects py SsdTemp s5) as Hd.
  change (get_metric py SsdTemp) with (get_ssd_temperature py) in Hd.
  unfold bind at 1. destruct (get_ssd_temperature py s5) as [r6 s6] eqn:E6.
  simpl in Hd.
  exists (self s5). split; [assumption|].
  destruct r6; simpl; assumption.
Qed.

Lemma run_op_slot_ok py o m s :
  slot_ok m (self s) -> slot_ok m (self (run_op py o s)).
Proof.
  destruct o as [m'|]; simpl.
  - intros H. eapply selects_slot_ok; [apply get_metric_selects | exact H].
  - destruct (read_sensors_selects py s) as (h & Hc & Hs). intros H.
    eapply selects_slot_ok; [exact Hs|]. eapply selects_slot_ok; eauto.
Qed.

Lemma run_op_slot_set py o m s :
  slot_set m (self s) -> slot_set m (self (run_op py o s)).
Proof.
  destruct o as [m'|]; simpl.
  - intros H. eapply selects_slot_set; [apply get_metric_selects | exact H].
  - destruct (read_sensors_selects py s) as (h & Hc & Hs). intros H.
    eapply selects_slot_set; [exact Hs|]. eapply selects_slot_set; eauto.
Qed.

Lemma run_ops_slot_ok py ops m s :
  slot_ok m (self s) -> slot_ok m (self (run_ops py ops s)).
Proof.
  revert s. induction ops as [|o ops IH]; intros s H; simpl; [assumption|].
  apply IH, run_op_slot_ok, H.
Qed.

Lemma run_ops_slot_set py ops m s :
  slot_set m (self s) -> slot_set m (self (run_ops py ops s)).
Proof.
  revert s. induction ops as [|o ops IH]; intros s H; simpl; [assumption|].
  apply IH, run_op_slot_set, H.
Qed.

Lemma construct_slot_ok py g w m : slot_ok m (self (snd (construct py g w))).
Proof.
  rewrite construct_unfold, detect_best_methods_passes.
  assert (H0 : slot_ok m (self (before_discovery g w)))
    by (left; apply before_discovery_methods).
  pose proof (discover_selects py CpuTemp (before_discovery g w)) as Hc.
  unfold bind. destruct (discover py CpuTemp (before_discovery g w)) as [r s1].
  simpl in Hc. pose proof (selects_slot_ok Hc H0) as H1.
  destruct r; simpl; [|assumption].
  eapply selects_slot_ok; [apply discover_selects | assumption].
Qed.

(** The names of the two chains, and the tables that carry them. *)
Lemma chain_names_explicit py :
  chain_names CpuTemp = ["lhm"; "ohm_wmi"; "wmi_acpi"; "ps_acpi"; "psutil"] /\
  chain_names SsdTemp = ["lhm"; "ohm_wmi"; "ps_reliability"; "wmi_storage"] /\
  (forall m, map fst (chain py m) = chain_names m) /\
  (forall m, map fst (dispatch py m) = chain_names m).
Proof. repeat split; intros []; reflexivity. Qed.

(** A name of the chain is a key of the dispatch table. *)
Lemma chain_name_dispatched py m name :
  In name (chain_names m) ->
  exists func, dict_get (dispatch py m) name = Some func.
Proof.
  destruct m; simpl; intros H;
    repeat (destruct H as [<- | H]; [eexists; reflexivity|]);
    destruct H.
Qed.

(** C9. On a constructed monitor, after any operations, the slot of a
    metric holds nothing or a name of that metric's own chain; and once
    it holds a name, whatever operations follow, it holds a name of the
    chain again, never nothing. *)
Theorem selected_method_invariant py g w ops m :
  let s := run_ops py ops (snd (construct py g w)) in
  slot_ok m (self s) /\
  forall name later,
    get_method m (self s) = Some name ->
    exists name', get_method m (self (run_ops py later s)) = Some name' /\
                  In name' (chain_names m).
Proof.
  intros s.
  assert (Hok : slot_ok m (self s))
    by (apply run_ops_slot_ok, construct_slot_ok).
  split; [assumption|].
  intros name later Hname.
  apply (@run_ops_slot_set py later m s).
  destruct Hok as [Hn | H]; [congruence | assumption].
Qed.

Lemma selected_method_invariant_witness :
  let s := run_ops ascii_builtins [ReadSensors]
             (snd (construct ascii_builtins workstation failover_world)) in
  get_method CpuTemp (self s) = Some "psutil" /\
  exists name',
    get_method CpuTemp
      (self (run_ops ascii_builtins [GetTemperature CpuTemp; ReadSensors] s)) =
      Some name' /\
    In name' (chain_names CpuTemp).
Proof.
  intros s. split; [reflexivity|].
  destruct (selected_method_invariant ascii_builtins workstation failover_world
              [ReadSensors] CpuTemp) as [_ H].
  exact (H "psutil" [GetTemperature CpuTemp; ReadSensors] eq_refl).
Defined.

(** ** Rounding *)

Lemma round1_tenths n : round1 (n # 10) = n # 10.
Proof.
  unfold round1. cbn [Qnum Qden].
  rewrite (Z.mul_comm 10 n), Z.div_mul, Z.mod_mul by discriminate.
  reflexivity.
Qed.

Lemma round1_shape x : exists n, round1 x = n # 10.
Proof. unfold round1. eexists. reflexivity. Qed.

Lemma round1_idempotent x : round1 (round1 x) = round1 x.
Proof. destruct (round1_shape x) as [n ->]. apply round1_tenths. Qed.

(** ** The reading *)

Lemma bind_returns {A B} (m : M A) (k : A -> M B) s b :
  fst (bind m k s) = Ok b <->
  exists a, fst (m s) = Ok a /\ fst (k a (snd (m s))) = Ok b.
Proof.
  unfold bind. destruct (m s) as [[a|e] s']; cbn [fst snd].
  - split; [intros H; exists a; auto | intros (a' & [= <-] & H); exact H].
  - split; [discriminate | intros (a' & H & _); discriminate].
Qed.

(** [read_sensors] returns exactly when the three utilization queries
    and the two accessors return, and then it returns their values
    rounded. *)
Lemma read_sensors_returns py s rd :
  fst (read_sensors py s) = Ok rd <->
  exists c r d ct st,
    psutil_cpu_percent (world s (1 + clock s)%nat) = Ok c /\
    psutil_virtual_memory_percent (world s (2 + clock s)%nat) = Ok r /\
    psutil_disk_usage_percent (world s (3 + clock s)%nat) = Ok d /\
    fst (get_cpu_temperature py (advance 4 s)) = Ok ct /\
    fst (get_ssd_temperature py
           (snd (get_cpu_temperature py (advance 4 s)))) = Ok st /\
    rd = reading_of (time_strftime (world s (clock s))) c r d ct st.
Proof.
  unfold read_sensors. split.
  - intros H.
    apply bind_returns in H. destruct H as (ts & Hts & H).
    apply bind_returns in H. destruct H as (c & Hc & H).
    apply bind_returns in H. destruct H as (r & Hr & H).
    apply bind_returns in H. destruct H as (d & Hd & H).
    apply bind_returns in H. destruct H as (ct & Hct & H).
    apply bind_returns in H. destruct H as (st & Hst & H).
    injection Hts as <-. injection H as <-.
    exists c, r, d, ct, st. repeat split; assumption.
  - intros (c & r & d & ct & st & Hc & Hr & Hd & Hct & Hst & ->).
    apply bind_returns. eexists. split; [reflexivity|].
    apply bind_returns. exists c. split; [exact Hc|].
    apply bind_returns. exists r. split; [exact Hr|].
    apply bind_returns. exists d. split; [exact Hd|].
    apply bind_returns. exists ct. split; [exact Hct|].
    apply bind_returns. exists st. split; [exact Hst|].
    reflexivity.
Qed.

(** C7. A reading returned by [read_sensors] carries the three
    utilization figures, each the rounded answer of the direct query to
    the operating system; and when those queries answer while both
    accessors report absence, [read_sensors] still returns a reading,
    with the three figures filled in and both temperatures absent. *)
Theorem read_sensors_utilization py s :
  (forall rd,
      fst (read_sensors py s) = Ok rd ->
      exists c r d,
        psutil_cpu_percent (world s (1 + clock s)%nat) = Ok c /\
        psutil_virtual_memory_percent (world s (2 + clock s)%nat) = Ok r /\
        psutil_disk_usage_percent (world s (3 + clock s)%nat) = Ok d /\
        cpu_percent rd = round1 c /\
        ram_percent rd = round1 r /\
        disk_percent rd = round1 d) /\
  (forall c r d,
      psutil_cpu_percent (world s (1 + clock s)%nat) = Ok c ->
      psutil_virtual_memory_percent (world s (2 + clock s)%nat) = Ok r ->
      psutil_disk_usage_percent (world s (3 + clock s)%nat) = Ok d ->
      fst (get_cpu_temperature py (advance 4 s)) = Ok None ->
      fst (get_ssd_temperature py
             (snd (get_cpu_temperature py (advance 4 s)))) = Ok None ->
      exists rd,
        fst (read_sensors py s) = Ok rd /\
        cpu_percent rd = round1 c /\
        ram_percent rd = round1 r /\
        disk_percent rd = round1 d /\
        cpu_temp rd = None /\
        ssd_temp rd = None).
Proof.
  split.
  - intros rd H. apply read_sensors_returns in H.
    destruct H as (c & r & d & ct & st & Hc & Hr & Hd & _ & _ & ->).
    exists c, r, d. repeat split; assumption.
  - intros c r d Hc Hr Hd Hct Hst.
    exists (reading_of (time_strftime (world s (clock s))) c r d None None).
    split; [|repeat split].
    apply read_sensors_returns. exists c, r, d, None, None.
    repeat split; assumption.
Qed.

Lemma read_sensors_utilization_witness :
  let s := snd (construct ascii_builtins windows (fun _ => dead_env)) in
  exists rd,
    fst (read_sensors ascii_builtins s) = Ok rd /\
    cpu_percent rd = (123 # 10) /\
    ram_percent rd = (617 # 10) /\
    disk_percent rd = (450 # 10) /\
    cpu_temp rd = None /\
    ssd_temp rd = None.
Proof.
  intros s.
  destruct (read_sensors_utilization ascii_builtins s) as [_ H].
  exact (H (1234 # 100) (617 # 10) (45 # 1)
           eq_refl eq_refl eq_refl eq_refl eq_refl).
Defined.

(** C10. Every numeric field of a reading returned by [read_sensors]
    equals itself rounded to one decimal: the three utilization figures,
    and each temperature that is present. *)
Theorem reading_fields_rounded py s rd :
  fst (read_sensors py s) = Ok rd ->
  round1 (cpu_percent rd) = cpu_percent rd /\
  round1 (ram_percent rd) = ram_percent rd /\
  round1 (disk_percent rd) = disk_percent rd /\
  (forall t, cpu_temp rd = Some t -> round1 t = t) /\
  (forall t, ssd_temp rd = Some t -> round1 t = t).
Proof.
  intros H. apply read_sensors_returns in H.
  destruct H as (c & r & d & ct & st & _ & _ & _ & _ & _ & ->).
  cbn [reading_of cpu_percent ram_percent disk_percent cpu_temp ssd_temp].
  repeat split; try apply round1_idempotent.
  - intros t Ht. destruct ct as [x|]; [|discriminate].
    injection Ht as <-. apply round1_idempotent.
  - intros t Ht. destruct st as [x|]; [|discriminate].
    injection Ht as <-. apply round1_idempotent.
Qed.

Lemma reading_fields_rounded_witness :
  let s := snd (construct ascii_builtins workstation failover_world) in
  exists rd,
    fst (read_sensors ascii_builtins s) = Ok rd /\
    cpu_temp rd = Some (500 # 10) /\
    round1 (cpu_percent rd) = cpu_percent rd /\
    (forall t, cpu_temp rd = Some t -> round1 t = t).
Proof.
  intros s.
  exists (reading_of "2024-05-01 10:00:00" (1234 # 100) (617 # 10) (45 # 1)
            (Some 50%Q) None).
  destruct (@reading_fields_rounded ascii_builtins s
              (reading_of "2024-05-01 10:00:00" (1234 # 100) (617 # 10) (45 # 1)
                 (Some 50%Q) None) eq_refl) as (Hc & _ & _ & Ht & _).
  split; [reflexivity|]. split; [reflexivity|]. split; [exact Hc | exact Ht].
Defined.

(** ** Probes that cannot raise *)

Lemma try_except_Exception_returns {A} (body : Res (option A)) :
  exists r, try_except Exception body = Ok r.
Proof. destruct body as [r|e]; simpl; eauto. Qed.

Lemma run_powershell_returns py e script :
  exists output, _run_powershell py e script = Ok output.
Proof. apply try_except_Exception_returns. Qed.

Lemma cpu_temp_lhm_returns py g h e : exists r, cpu_temp_lhm_body py g h e = Ok r.
Proof.
  unfold cpu_temp_lhm_body.
  destruct (negb (LHM_READY g) || is_None (_lhm_computer g)); eauto.
  apply try_except_Exception_returns.
Qed.

Lemma cpu_temp_ohm_returns py g h e : exists r, cpu_temp_ohm_body py g h e = Ok r.
Proof.
  unfold cpu_temp_ohm_body. destruct (_wmi_ohm h); eauto.
  apply try_except_Exception_returns.
Qed.

Lemma cpu_temp_wmi_acpi_returns g h e :
  exists r, cpu_temp_wmi_acpi_body g h e = Ok r.
Proof.
  unfold cpu_temp_wmi_acpi_body. destruct (_wmi_root h); eauto.
  apply try_except_Exception_returns.
Qed.

Lemma cpu_temp_psutil_returns g h e :
  exists r, cpu_temp_psutil_body g h e = Ok r.
Proof.
  unfold cpu_temp_psutil_body.
  destruct (negb (psutil_has_sensors_temperatures g)); eauto.
  apply try_except_Exception_returns.
Qed.

Lemma ssd_temp_lhm_returns g h e : exists r, ssd_temp_lhm_body g h e = Ok r.
Proof.
  unfold ssd_temp_lhm_body.
  destruct (negb (LHM_READY g) || is_None (_lhm_computer g)); eauto.
  apply try_except_Exception_returns.
Qed.

Lemma ssd_temp_ohm_returns py g h e : exists r, ssd_temp_ohm_body py g h e = Ok r.
Proof.
  unfold ssd_temp_ohm_body. destruct (_wmi_ohm h); eauto.
  apply try_except_Exception_returns.
Qed.

Lemma ssd_temp_ps_reliability_returns py g h e :
  exists r, ssd_temp_ps_reliability_body py g h e = Ok r.
Proof.
  unfold ssd_temp_ps_reliability_body.
  destruct (run_powershell_returns py e ps_reliability_script) as [output ->].
  simpl. destruct (truthy output); eauto.
  unfold float_of_string.
  destruct (float_of_str py _) as [val|]; simpl; eauto.
  destruct (plausible val); simpl; eauto.
Qed.

Lemma ssd_temp_wmi_storage_returns g h e :
  exists r, ssd_temp_wmi_storage_body g h e = Ok r.
Proof.
  unfold ssd_temp_wmi_storage_body. destruct (_wmi_storage h); eauto.
  apply try_except_Exception_returns.
Qed.

Lemma probe_never_raises pname body :
  (forall g h e, exists r, body g h e = Ok r) -> never_raises (probe pname body).
Proof. intros H s. unfold probe; simpl. apply H. Qed.

Lemma detect_loop_never_raises m ps :
  Forall (fun nf => never_raises (snd nf)) ps -> never_raises (detect_loop m ps).
Proof.
  induction 1 as [|[name func] rest Hf _ IH]; intros s; simpl.
  - exists tt. reflexivity.
  - destruct (Hf s) as [val Hv]. simpl in Hv. rewrite (bind_ok _ _ _ Hv).
    destruct val; [exists tt; reflexivity | apply IH].
Qed.

Lemma sweep_loop_never_raises m ps :
  Forall (fun nf => never_raises (snd nf)) ps -> never_raises (sweep_loop m ps).
Proof.
  induction 1 as [|[name func] rest Hf _ IH]; intros s; simpl.
  - exists None. reflexivity.
  - destruct (Hf s) as [val Hv]. simpl in Hv. rewrite (bind_ok _ _ _ Hv).
    destruct val as [v|]; [exists (Some v); reflexivity | apply IH].
Qed.

Lemma ssd_chain_never_raises py :
  Forall (fun nf => never_raises (snd nf)) (chain py SsdTemp).
Proof.
  repeat constructor; simpl; apply probe_never_raises.
  - apply ssd_temp_lhm_returns.
  - apply ssd_temp_ohm_returns.
  - apply ssd_temp_ps_reliability_returns.
  - apply ssd_temp_wmi_storage_returns.
Qed.

Lemma discover_ssd_returns py s : fst (discover py SsdTemp s) = Ok tt.
Proof.
  destruct (detect_loop_never_raises SsdTemp (ssd_chain_never_raises py) s)
    as [[] H]. exact H.
Qed.

(** Every SSD probe and the SSD accessor return from every state. *)
Lemma get_ssd_temperature_never_raises py : never_raises (get_ssd_temperature py).
Proof.
  intros s. unfold get_ssd_temperature, get_temperature.
  change (ssd_dispatch py) with (ssd_methods py).
  assert (Hsweep : forall s', exists a,
             fst (sweep_loop SsdTemp (ssd_methods py) s') = Ok a)
    by (intros s'; apply (sweep_loop_never_raises SsdTemp
                            (ssd_chain_never_raises py))).
  assert (Hstep : forall func : M (option Q), never_raises func ->
            exists a,
              fst ((val <- func ;;
                    match val with
                    | Some v => ret (Some v)
                    | None => sweep_loop SsdTemp (ssd_methods py)
                    end) s) = Ok a).
  { intros func Hf. destruct (Hf s) as [val Hv]. rewrite (bind_ok _ _ _ Hv).
    destruct val as [v|]; [exists (Some v); reflexivity | apply Hsweep]. }
  destruct (truthy _).
  - destruct (dict_get _ _) as [func|] eqn:Hd.
    + apply Hstep.
      pose proof (ssd_chain_never_raises py) as Hall.
      change (chain py SsdTemp) with (ssd_methods py) in Hall.
      revert Hd Hall. generalize (or_empty (get_method SsdTemp (self s))).
      generalize (ssd_methods py). intros ps key.
      induction ps as [|[n f] ps IH]; simpl; [discriminate|].
      intros Hd Hall. inversion Hall as [|x l Hx Hl]; subst.
      destruct (String.eqb key n); [injection Hd as <-; exact Hx | auto].
    + apply Hstep. intros s'. exists None. reflexivity.
  - apply Hstep. intros s'. exists None. reflexivity.
Qed.

(** ** The passes of the constructor *)

Lemma label_unavailable m h :
  get_method m h = None ->
  method_label m h = "Tidak tersedia" /\ temp_method m h = "none".
Proof.
  intros H. unfold temp_method. rewrite H.
  destruct m; simpl in H; unfold method_label, cpu_method_label,
    ssd_method_label; rewrite H; split; reflexivity.
Qed.

Lemma selects_other_slot names m m' h h' :
  m <> m' -> selects names m' h h' -> get_method m h' = get_method m h.
Proof.
  intros Hne [-> | (name & _ & ->)]; [reflexivity|].
  destruct m, m'; try reflexivity; congruence.
Qed.

(** With nothing selected, an exhausted sweep returns absence and selects
    nothing. *)
Lemma get_metric_unselected_absent py m s :
  get_method m (self s) = None ->
  all_absent (chain py m) s ->
  get_metric py m s = (Ok None, after (chain py m) s).
Proof.
  intros Hm Ha. rewrite get_metric_unfold. unfold get_temperature.
  rewrite Hm. simpl truthy. cbv iota. unfold bind at 1, ret at 1.
  apply sweep_loop_absent, Ha.
Qed.

(** ** Discovery *)

(** The pass of [m] decides the slot of [m] for the whole construction. *)
Lemma construct_slot py g w m name :
  pass_reached py g w m ->
  fst (discover py m (pass_start py g w m)) = Ok tt ->
  get_method m (self (snd (discover py m (pass_start py g w m)))) = Some name ->
  fst (construct py g w) = Ok tt /\
  get_method m (self (snd (construct py g w))) = Some name.
Proof.
  intros Hreach Hret Hslot.
  rewrite construct_unfold, detect_best_methods_passes.
  destruct m; unfold pass_reached, pass_start in Hreach, Hret, Hslot.
  - rewrite (bind_ok _ _ _ Hret). split; [apply discover_ssd_returns|].
    rewrite (@selects_other_slot _ CpuTemp SsdTemp _ _ ltac:(discriminate)
               (discover_selects py SsdTemp _)).
    exact Hslot.
  - rewrite (bind_ok _ _ _ Hreach). split; assumption.
Qed.

(** C3. The discovery pass of a metric, CPU or SSD, walks the declared
    chain of the metric in priority order and selects the first probe
    that returns a value: when the probes before [name] return nothing
    and the probe [name] returns [v], the pass ends without fault with
    [name] in the metric's slot, the probes called are exactly those up
    to [name], in chain order, and neither other probes behind [name]
    nor other answers of the world to later calls change the outcome.
    When the pass is the one the constructor runs, the constructor
    returns with [name] in the slot. *)
Theorem discovery_selects_first_success py m pre name
  (func : M (option Q)) post s v :
  declared_chain py m = pre ++ (name, func) :: post ->
  all_absent pre s ->
  fst (func (after pre s)) = Ok (Some v) ->
  fst (discover py m s) = Ok tt /\
  get_method m (self (snd (discover py m s))) = Some name /\
  calls (snd (discover py m s)) =
    calls s ++ map snd (firstn (S (List.length pre)) (method_names m)) /\
  (forall post',
      detect_loop m (pre ++ (name, func) :: post') s = discover py m s) /\
  (forall t, same_until (S (List.length pre)) s t ->
      fst (discover py m t) = Ok tt /\
      get_method m (self (snd (discover py m t))) = Some name) /\
  (forall g w, s = pass_start py g w m -> pass_reached py g w m ->
      fst (construct py g w) = Ok tt /\
      get_method m (self (snd (construct py g w))) = Some name).
Proof.
  intros Hc Hpre Hv.
  rewrite <- (proj1 (declared_chain_tables py m)) in Hc.
  pose proof (chain_probes py m) as Hp. rewrite Hc in Hp.
  apply probes_of_app_inv in Hp.
  destruct Hp as (npre & nx & npost & Hn & Hppre & Hnx & [body Hb] & _ & Hlen).
  simpl in Hb, Hnx.
  assert (Hother : forall t, same_until (S (List.length pre)) s t ->
            all_absent pre t /\ fst (func (after pre t)) = Ok (Some v)).
  { intros t Ht.
    replace (S (List.length pre)) with (List.length pre + 1)%nat in Ht by lia.
    destruct (probes_same_until 1 Hppre Ht) as [Ha Hs]. split; [auto|].
    rewrite Hb in *.
    destruct (probe_same_until (snd nx) body Hs) as [Hr _].
    rewrite <- Hr. assumption. }
  assert (Hrun : forall t, all_absent pre t ->
            fst (func (after pre t)) = Ok (Some v) ->
            fst (discover py m t) = Ok tt /\
            get_method m (self (snd (discover py m t))) = Some name).
  { intros t Ha Hr. unfold discover. rewrite Hc.
    rewrite (@detect_loop_first m pre name func post t v Ha Hr).
    cbn [fst snd self with_self]. rewrite get_method_set_same. auto. }
  destruct (Hrun s Hpre Hv) as [Hret Hslot].
  split; [exact Hret|]. split; [exact Hslot|]. split; [|split; [|split]].
  - unfold discover. rewrite Hc.
    rewrite (@detect_loop_first m pre name func post s v Hpre Hv).
    cbn [fst snd self with_self calls].
    destruct (after_probes s Hppre) as (_ & _ & _ & _ & Hcalls).
    rewrite Hb. unfold probe at 1; cbn [snd calls].
    rewrite Hcalls, Hn, <- Hlen.
    replace (S (List.length npre)) with (List.length npre + 1)%nat by lia.
    rewrite firstn_app_2. simpl. rewrite map_app, app_assoc. reflexivity.
  - intros post'. unfold discover. rewrite Hc.
    rewrite (@detect_loop_first m pre name func post s v Hpre Hv).
    apply (@detect_loop_first m pre name func post' s v Hpre Hv).
  - intros t Ht. destruct (Hother t Ht) as [Ha Hr]. apply Hrun; assumption.
  - intros g w Hs Hreach. subst s. apply construct_slot; assumption.
Qed.

Lemma discovery_selects_first_success_witness :
  let s := before_discovery workstation failover_world in
  let w := fun _ : nat => env_powershell 0 "35" in
  let t := pass_start ascii_builtins windows w SsdTemp in
  (all_absent [("lhm", _cpu_temp_lhm ascii_builtins)] s /\
   fst (_cpu_temp_ohm ascii_builtins
          (after [("lhm", _cpu_temp_lhm ascii_builtins)] s))
     = Ok (Some (423 # 10)) /\
   get_method CpuTemp (self (snd (discover ascii_builtins CpuTemp s))) =
     Some "ohm_wmi" /\
   calls (snd (discover ascii_builtins CpuTemp s)) =
     ["_cpu_temp_lhm"; "_cpu_temp_ohm"] /\
   fst (construct ascii_builtins workstation failover_world) = Ok tt /\
   _cpu_method
     (self (snd (construct ascii_builtins workstation failover_world)))
     = Some "ohm_wmi") /\
  (all_absent [("lhm", _ssd_temp_lhm);
               ("ohm_wmi", _ssd_temp_ohm ascii_builtins)] t /\
   fst (_ssd_temp_ps_reliability ascii_builtins
          (after [("lhm", _ssd_temp_lhm);
                  ("ohm_wmi", _ssd_temp_ohm ascii_builtins)] t))
     = Ok (Some (350 # 10)) /\
   get_method SsdTemp (self (snd (discover ascii_builtins SsdTemp t))) =
     Some "ps_reliability" /\
   calls (snd (discover ascii_builtins SsdTemp t)) =
     calls t ++ ["_ssd_temp_lhm"; "_ssd_temp_ohm";
                 "_ssd_temp_ps_reliability"] /\
   fst (construct ascii_builtins windows w) = Ok tt /\
   _ssd_method (self (snd (construct ascii_builtins windows w)))
     = Some "ps_reliability").
Proof.
  intros s w t. split.
  - assert (Ha : all_absent [("lhm", _cpu_temp_lhm ascii_builtins)] s)
      by (split; [reflexivity | exact I]).
    assert (Hv : fst (_cpu_temp_ohm ascii_builtins
                        (after [("lhm", _cpu_temp_lhm ascii_builtins)] s))
                 = Ok (Some (423 # 10))) by reflexivity.
    split; [exact Ha|]. split; [exact Hv|].
    destruct (@discovery_selects_first_success ascii_builtins CpuTemp
                [("lhm", _cpu_temp_lhm ascii_builtins)] "ohm_wmi"
                (_cpu_temp_ohm ascii_builtins)
                [("wmi_acpi", _cpu_temp_wmi_acpi);
                 ("ps_acpi", _cpu_temp_ps_acpi ascii_builtins);
                 ("psutil", _cpu_temp_psutil)]
                s (423 # 10) eq_refl Ha Hv) as (_ & Hm & Hc & _ & _ & Hk).
    split; [exact Hm|]. split; [exact Hc|].
    exact (Hk workstation failover_world eq_refl I).
  - assert (Ha : all_absent [("lhm", _ssd_temp_lhm);
                             ("ohm_wmi", _ssd_temp_ohm ascii_builtins)] t)
      by (repeat split; reflexivity).
    assert (Hv : fst (_ssd_temp_ps_reliability ascii_builtins
                        (after [("lhm", _ssd_temp_lhm);
                                ("ohm_wmi", _ssd_temp_ohm ascii_builtins)] t))
                 = Ok (Some (350 # 10))) by reflexivity.
    split; [exact Ha|]. split; [exact Hv|].
    destruct (@discovery_selects_first_success ascii_builtins SsdTemp
                [("lhm", _ssd_temp_lhm);
                 ("ohm_wmi", _ssd_temp_ohm ascii_builtins)]
                "ps_reliability" (_ssd_temp_ps_reliability ascii_builtins)
                [("wmi_storage", _ssd_temp_wmi_storage)]
                t (350 # 10) eq_refl Ha Hv) as (_ & Hm & Hc & _ & _ & Hk).
    split; [exact Hm|]. split; [exact Hc|].
    refine (Hk windows w eq_refl _). reflexivity.
Defined.

(** ** A chain exhausted at construction *)

(** C8. If the discovery pass of a metric finds every probe of its chain
    absent, the constructor returns without fault, the metric's slot is
    still empty, and its label reads unavailable; a later read of the
    metric that finds the chain exhausted again returns absence and
    leaves the slot empty. *)
Theorem exhausted_chain_stays_none py g w m :
  pass_reached py g w m ->
  all_absent (chain py m) (pass_start py g w m) ->
  fst (construct py g w) = Ok tt /\
  get_method m (self (snd (construct py g w))) = None /\
  method_label m (self (snd (construct py g w))) = "Tidak tersedia" /\
  temp_method m (self (snd (construct py g w))) = "none" /\
  (forall s,
      get_method m (self s) = None ->
      all_absent (dispatch py m) s ->
      fst (get_metric py m s) = Ok None /\
      get_method m (self (snd (get_metric py m s))) = None).
Proof.
  intros Hreach Ha.
  assert (Hslot : fst (construct py g w) = Ok tt /\
                  get_method m (self (snd (construct py g w))) = None).
  { rewrite construct_unfold, detect_best_methods_passes.
    destruct m; unfold pass_reached, pass_start in Hreach, Ha.
    - unfold discover at 1 3. unfold bind.
      rewrite (detect_loop_absent CpuTemp _ _ Ha).
      split; [apply discover_ssd_returns|].
      rewrite (@selects_other_slot _ CpuTemp SsdTemp _ _ ltac:(discriminate)
                 (discover_selects py SsdTemp _)).
      destruct (after_probes (before_discovery g w) (chain_probes py CpuTemp))
        as [-> _].
      apply (before_discovery_methods g w CpuTemp).
    - rewrite (bind_ok _ _ _ Hreach).
      unfold discover at 1 3. rewrite (detect_loop_absent SsdTemp _ _ Ha).
      split; [reflexivity|]. cbn [snd].
      destruct (after_probes (snd (discover py CpuTemp (before_discovery g w)))
                  (chain_probes py SsdTemp)) as [-> _].
      rewrite (@selects_other_slot _ SsdTemp CpuTemp _ _ ltac:(discriminate)
                 (discover_selects py CpuTemp _)).
      apply (before_discovery_methods g w SsdTemp). }
  destruct Hslot as [Hret Hnone].
  destruct (label_unavailable m _ Hnone) as [Hl Ht].
  repeat split; try assumption.
  - rewrite (get_metric_unselected_absent py m s H H0). reflexivity.
  - rewrite (get_metric_unselected_absent py m s H H0). cbn [snd].
    destruct (after_probes s (chain_probes py m)) as [-> _]. assumption.
Qed.

Lemma exhausted_chain_stays_none_witness :
  let c := construct ascii_builtins windows (fun _ => dead_env) in
  fst c = Ok tt /\
  _cpu_method (self (snd c)) = None /\
  cpu_method_label (self (snd c)) = "Tidak tersedia" /\
  fst (get_cpu_temperature ascii_builtins (snd c)) = Ok None /\
  _cpu_method (self (snd (get_cpu_temperature ascii_builtins (snd c)))) = None.
Proof.
  intros c.
  assert (Ha : all_absent (chain ascii_builtins CpuTemp)
                 (pass_start ascii_builtins windows (fun _ => dead_env) CpuTemp))
    by (repeat split; reflexivity).
  destruct (@exhausted_chain_stays_none ascii_builtins windows
              (fun _ => dead_env) CpuTemp I Ha) as (Hr & Hn & Hl & _ & Hlater).
  assert (Hb : all_absent (dispatch ascii_builtins CpuTemp) (snd c))
    by (repeat split; reflexivity).
  destruct (Hlater (snd c) Hn Hb) as [Hv Hk].
  repeat split; assumption.
Defined.

(** ** Range validation *)

Lemma plausible_spec val : plausible val = true <-> (0 < val /\ val < 150)%Q.
Proof.
  unfold plausible. rewrite !Qlt_alt.
  destruct (0 ?= val)%Q, (val ?= 150)%Q; split;
    try discriminate; try tauto; intros [? ?]; discriminate.
Qed.

(** Rounding a plausible value can reach the ends of the interval but
    not leave it. *)
Lemma round1_plausible raw :
  plausible raw = true -> (0 <= round1 raw /\ round1 raw <= 150)%Q.
Proof.
  intros H. apply plausible_spec in H. destruct H as [Hlo Hhi].
  destruct raw as [n d]. unfold Qlt in Hlo, Hhi. simpl in Hlo, Hhi.
  unfold round1, Qle. cbn [Qnum Qden].
  assert (Hd : 0 < Zpos d) by reflexivity.
  assert (Hf0 : 0 <= 10 * n / Zpos d) by (apply Z.div_pos; lia).
  assert (Hf1 : 10 * n / Zpos d < 1500)
    by (apply Z.div_lt_upper_bound; lia).
  destruct (2 * ((10 * n) mod Zpos d) ?= Zpos d);
    [destruct (Z.even (10 * n / Zpos d))| |]; lia.
Qed.

Lemma validated_none : validated (Ok None).
Proof. intros v H. discriminate. Qed.

Lemma validated_raise e : validated (Raise e).
Proof. intros v H. discriminate. Qed.

Lemma validated_checked val (rest : Res (option Q)) :
  validated rest ->
  validated (if plausible val then Ok (Some (round1 val)) else rest).
Proof.
  intros Hr. destruct (plausible val) eqn:Hp; [|assumption].
  intros v [= <-]. eauto.
Qed.

Lemma validated_try_except catches body :
  validated body -> validated (try_except catches body).
Proof.
  intros H. destruct body as [r|e]; simpl; [assumption|].
  destruct (catches e); [apply validated_none | apply validated_raise].
Qed.

Lemma validated_bind {A} (r : Res A) (k : A -> Res (option Q)) :
  (forall a, validated (k a)) -> validated (res_bind r k).
Proof. intros H. destruct r; simpl; [apply H | apply validated_raise]. Qed.

Create HintDb validated.

#[local] Hint Resolve validated_none validated_raise validated_checked
  validated_try_except validated_bind : validated.

Lemma lhm_cpu_sensors_plausible py sensors acc :
  (forall v, fst acc = Some v -> plausible v = true) ->
  (forall v, snd acc = Some v -> plausible v = true) ->
  (forall v, fst (lhm_cpu_sensors py sensors acc) = Some v -> plausible v = true) /\
  (forall v, snd (lhm_cpu_sensors py sensors acc) = Some v -> plausible v = true).
Proof.
  revert acc. induction sensors as [|sensor rest IH]; intros acc H1 H2; simpl.
  - auto.
  - destruct (negb (SensorType_eqb (lhm_SensorType sensor) Temperature)); auto.
    destruct (lhm_Value sensor) as [val|]; auto.
    destruct (plausible val) eqn:Hp; simpl; auto.
    destruct (str_in "package" _ || str_in "total" _).
    + apply IH; simpl; auto. intros v [= <-]. assumption.
    + destruct (is_None (snd acc) && str_in "core" _); auto.
      apply IH; simpl; auto. intros v [= <-]. assumption.
Qed.

Lemma lhm_cpu_hardware_validated py hardware :
  validated (lhm_cpu_hardware py hardware).
Proof.
  induction hardware as [|hw rest IH]; simpl; auto with validated.
  destruct (negb (HardwareType_eqb (hw_HardwareType hw) Cpu)); auto.
  destruct (hw_Update hw); auto with validated.
  destruct (lhm_cpu_sensors_plausible py (hw_Sensors hw) (None, None))
    as [Hp Hc]; try (simpl; discriminate).
  destruct (lhm_cpu_sensors py (hw_Sensors hw) (None, None)) as [[p|] [c|]];
    simpl in Hp, Hc; auto; intros v [= <-]; eauto.
Qed.

Lemma ohm_cpu_sensors_validated py sensors :
  validated (ohm_cpu_sensors py sensors).
Proof.
  induction sensors as [|sensor rest IH];
    cbn [ohm_cpu_sensors]; auto with validated.
  destruct (String.eqb _ _); auto.
  destruct (any_in _ _); auto with validated.
Qed.

Lemma wmi_acpi_zones_validated zones : validated (wmi_acpi_zones zones).
Proof.
  induction zones as [|tz rest IH]; simpl; auto with validated.
Qed.

Lemma lhm_ssd_sensors_validated sensors v :
  lhm_ssd_sensors sensors = Some v ->
  exists raw, plausible raw = true /\ v = round1 raw.
Proof.
  induction sensors as [|sensor rest IH]; simpl; [discriminate|].
  destruct (negb (SensorType_eqb (lhm_SensorType sensor) Temperature)); auto.
  destruct (lhm_Value sensor) as [val|]; auto.
  destruct (plausible val) eqn:Hp; auto. intros [= <-]. eauto.
Qed.

Lemma lhm_ssd_hardware_validated hardware :
  validated (lhm_ssd_hardware hardware).
Proof.
  induction hardware as [|hw rest IH]; simpl; auto with validated.
  destruct (negb (HardwareType_eqb (hw_HardwareType hw) Storage)); auto.
  destruct (hw_Update hw); auto with validated.
  destruct (lhm_ssd_sensors (hw_Sensors hw)) as [x|] eqn:E; auto.
  intros v [= <-]. apply (lhm_ssd_sensors_validated _ E).
Qed.

Lemma ohm_ssd_sensors_validated py sensors :
  validated (ohm_ssd_sensors py sensors).
Proof.
  induction sensors as [|sensor rest IH];
    cbn [ohm_ssd_sensors]; auto with validated.
  destruct (String.eqb _ _); auto.
  assert (Hparent :
    validated
      (if any_in ["nvme"; "ssd"; "storage"]
            (str_lower py (or_empty (wmi_Parent sensor)))
       then res_bind (float_of_attr (wmi_Value sensor)) (fun val =>
              if plausible val then Ok (Some (round1 val))
              else ohm_ssd_sensors py rest)
       else ohm_ssd_sensors py rest)).
  { destruct (any_in _ _); auto with validated. }
  destruct (any_in ["ssd"; "nvme"; "disk"; "drive"] _); auto with validated.
Qed.

Lemma wmi_storage_disks_validated disks : validated (wmi_storage_disks disks).
Proof.
  induction disks as [|disk rest IH]; simpl; auto with validated.
  destruct (disk_Temperature disk); simpl; auto with validated.
Qed.

(** Every probe but [_cpu_temp_psutil] returns only rounded values that
    passed the range check. *)
Lemma checked_probes_validated py g h e :
  validated (cpu_temp_lhm_body py g h e) /\
  validated (cpu_temp_ohm_body py g h e) /\
  validated (cpu_temp_wmi_acpi_body g h e) /\
  validated (cpu_temp_ps_acpi_body py g h e) /\
  validated (ssd_temp_lhm_body g h e) /\
  validated (ssd_temp_ohm_body py g h e) /\
  validated (ssd_temp_ps_reliability_body py g h e) /\
  validated (ssd_temp_wmi_storage_body g h e).
Proof.
  unfold cpu_temp_lhm_body, cpu_temp_ohm_body, cpu_temp_wmi_acpi_body,
    cpu_temp_ps_acpi_body, ssd_temp_lhm_body, ssd_temp_ohm_body,
    ssd_temp_ps_reliability_body, ssd_temp_wmi_storage_body.
  repeat split.
  - destruct (_ || _); auto with validated.
    apply validated_try_except, validated_bind, lhm_cpu_hardware_validated.
  - destruct (_wmi_ohm h); auto with validated.
    apply validated_try_except, validated_bind, ohm_cpu_sensors_validated.
  - destruct (_wmi_root h); auto with validated.
    apply validated_try_except, validated_bind, wmi_acpi_zones_validated.
  - apply validated_bind. intros output.
    destruct (truthy output); auto 7 with validated.
  - destruct (_ || _); auto with validated.
    apply validated_try_except, validated_bind, lhm_ssd_hardware_validated.
  - destruct (_wmi_ohm h); auto with validated.
    apply validated_try_except, validated_bind, ohm_ssd_sensors_validated.
  - apply validated_bind. intros output.
    destruct (truthy output); auto 7 with validated.
  - destruct (_wmi_storage h); auto with validated.
    apply validated_try_except, validated_bind, wmi_storage_disks_validated.
Qed.

(** Rounding happens after the range check, so a checked probe can
    return an end of the interval: 0.04 passes the check and is returned
    as 0.0. *)
Lemma rounding_reaches_boundary :
  plausible (4 # 100) = true /\ round1 (4 # 100) = 0 # 10 /\
  plausible (14996 # 100) = true /\ round1 (14996 # 100) = 1500 # 10.
Proof. repeat split; reflexivity. Qed.

(** C2, at the input where the code departs from it.  [_cpu_temp_psutil]
    hands on whatever psutil reports, without the range check its eight
    siblings make: a reported 9999 is selected at construction, returned
    by the accessor, and reaches the reading. *)
Theorem psutil_probe_skips_range_check :
  (forall v h, cpu_temp_psutil_body linux h (env_psutil v) = Ok (Some v)) /\
  plausible 9999 = false /\
  let c := construct ascii_builtins linux (fun _ => env_psutil 9999) in
  fst c = Ok tt /\
  _cpu_method (self (snd c)) = Some "psutil" /\
  fst (get_cpu_temperature ascii_builtins (snd c)) = Ok (Some 9999%Q) /\
  exists rd,
    fst (read_sensors ascii_builtins (snd c)) = Ok rd /\
    cpu_temp rd = Some (99990 # 10).
Proof.
  split; [reflexivity|]. split; [reflexivity|].
  cbv zeta. split; [reflexivity|]. split; [reflexivity|].
  split; [reflexivity|].
  eexists. split; reflexivity.
Qed.

(** ** The probe that can raise *)

(** [_cpu_temp_ps_acpi] raises nothing but [OverflowError], and raises
    it exactly when PowerShell prints an integer too large for a
    float. *)
Lemma cpu_temp_ps_acpi_raises py g h e ex :
  cpu_temp_ps_acpi_body py g h e = Raise ex ->
  ex = OverflowError /\
  exists output raw,
    _run_powershell py e ps_acpi_script = Ok (Some output) /\
    int_of_str py (str_strip py output) = Some raw /\
    float_overflow_bound <= Z.abs raw.
Proof.
  unfold cpu_temp_ps_acpi_body.
  destruct (run_powershell_returns py e ps_acpi_script) as [output ->].
  cbn [res_bind]. destruct (truthy output) eqn:Ht; [|discriminate].
  destruct output as [out|]; [|discriminate]. cbn [or_empty].
  unfold int_of_string.
  destruct (int_of_str py (str_strip py out)) as [raw|] eqn:Hi;
    [|discriminate].
  cbn [res_bind]. unfold decikelvin_to_celsius, float_of_int.
  destruct (Z.abs raw <? float_overflow_bound) eqn:Hb; cbn [res_bind].
  - destruct (plausible _); discriminate.
  - cbn [try_except ValueError_TypeError]. intros [= <-].
    split; [reflexivity|]. exists out, raw.
    apply Z.ltb_ge in Hb. repeat split; assumption.
Qed.

(** C6, at the input where the code departs from it.  When PowerShell
    prints an integer beyond the range of a float, [_cpu_temp_ps_acpi]
    raises [OverflowError], which its handler for [ValueError] and
    [TypeError] lets through: the constructor raises, and on a monitor
    already constructed the accessor and [read_sensors] raise. *)
Theorem ps_acpi_probe_raises_overflow :
  (forall g h, cpu_temp_ps_acpi_body ascii_builtins g h env_huge
               = Raise OverflowError) /\
  fst (construct ascii_builtins windows (fun _ => env_huge))
    = Raise OverflowError /\
  let c := construct ascii_builtins windows huge_later in
  fst c = Ok tt /\
  fst (get_cpu_temperature ascii_builtins (snd c)) = Raise OverflowError /\
  fst (read_sensors ascii_builtins (snd c)) = Raise OverflowError.
Proof.
  split; [intros g h; vm_compute; reflexivity|].
  split; [vm_compute; reflexivity|].
  cbv zeta. repeat split; vm_compute; reflexivity.
Qed.

(** Every probe but [_cpu_temp_ps_acpi] returns from every state. *)
Lemma other_probes_never_raise py :
  never_raises (_cpu_temp_lhm py) /\
  never_raises (_cpu_temp_ohm py) /\
  never_raises _cpu_temp_wmi_acpi /\
  never_raises _cpu_temp_psutil /\
  never_raises _ssd_temp_lhm /\
  never_raises (_ssd_temp_ohm py) /\
  never_raises (_ssd_temp_ps_reliability py) /\
  never_raises _ssd_temp_wmi_storage.
Proof.
  repeat split; apply probe_never_raises.
  - apply cpu_temp_lhm_returns.
  - apply cpu_temp_ohm_returns.
  - apply cpu_temp_wmi_acpi_returns.
  - apply cpu_temp_psutil_returns.
  - apply ssd_temp_lhm_returns.
  - apply ssd_temp_ohm_returns.
  - apply ssd_temp_ps_reliability_returns.
  - apply ssd_temp_wmi_storage_returns.
Qed.

(** * More of the monitor *)

(** ** The PowerShell helper *)

(** X1. [_run_powershell] never raises.  It returns a string exactly
    when the helper could be run, exited with code 0 and printed
    something besides white space; the string is the stripped output, so
    it is never empty. *)
Theorem run_powershell_contract py e script :
  exists output,
    _run_powershell py e script = Ok output /\
    forall s,
      output = Some s <->
      exists result,
        subprocess_run e script = Ok result /\
        returncode result = 0 /\
        s = str_strip py (stdout result) /\
        s <> "".
Proof.
  unfold _run_powershell.
  destruct (subprocess_run e script) as [result|ex]; cbn [res_bind try_except].
  - destruct (returncode result =? 0) eqn:Hc; cbn [andb].
    + destruct (String.eqb_spec (str_strip py (stdout result)) "") as [He|He];
        cbn [negb]; eexists; (split; [reflexivity|]); intros s; split.
      * discriminate.
      * intros (r & [= <-] & _ & -> & Hne). contradiction.
      * intros [= <-]. exists result. apply Z.eqb_eq in Hc. auto.
      * intros (r & [= <-] & _ & -> & _). reflexivity.
    + eexists. split; [reflexivity|]. intros s; split; [discriminate|].
      intros (r & [= <-] & H0 & _). apply Z.eqb_neq in Hc. contradiction.
  - eexists. split; [reflexivity|]. intros s; split; [discriminate|].
    intros (r & Hr & _). discriminate.
Qed.

(** ** What the checked probes return *)

(** X2. A value returned by one of the eight probes that test the range
    lies between 0 and 150, both ends included, and has one decimal. *)
Theorem checked_probe_values py body g h e v :
  In body (checked_bodies py) ->
  body g h e = Ok (Some v) ->
  (0 <= v /\ v <= 150)%Q /\ round1 v = v.
Proof.
  intros Hin Hv.
  assert (Hval : validated (body g h e)).
  { destruct (checked_probes_validated py g h e)
      as (H1 & H2 & H3 & H4 & H5 & H6 & H7 & H8).
    simpl in Hin.
    repeat (destruct Hin as [<- | Hin]; [assumption|]). destruct Hin. }
  destruct (Hval v Hv) as (raw & Hp & ->).
  split; [apply round1_plausible, Hp | apply round1_idempotent].
Qed.

Lemma checked_probe_values_witness :
  ssd_temp_lhm_body windows bare (env_drive (3664 # 100)) = Ok (Some (366 # 10)) /\
  ((0 <= 366 # 10 /\ 366 # 10 <= 150)%Q /\ round1 (366 # 10) = 366 # 10).
Proof.
  split; [reflexivity|].
  apply (@checked_probe_values ascii_builtins ssd_temp_lhm_body windows bare
           (env_drive (3664 # 100)) (366 # 10)).
  - simpl. tauto.
  - reflexivity.
Defined.

(** ** Which exceptions escape *)

Lemma never_raises_only_overflow {A} (func : M A) :
  never_raises func -> raises_only_overflow func.
Proof. intros H s e He. destruct (H s) as [a Ha]. congruence. Qed.

Lemma ps_acpi_raises_only_overflow py :
  raises_only_overflow (_cpu_temp_ps_acpi py).
Proof.
  intros s e He. unfold _cpu_temp_ps_acpi, probe in He. simpl in He.
  apply cpu_temp_ps_acpi_raises in He. apply He.
Qed.

Lemma cpu_chain_raises_only_overflow py :
  Forall (fun nf => raises_only_overflow (snd nf)) (chain py CpuTemp).
Proof.
  destruct (other_probes_never_raise py) as (H1 & H2 & H3 & H4 & _).
  repeat constructor; simpl;
    try (apply never_raises_only_overflow; assumption).
  apply ps_acpi_raises_only_overflow.
Qed.

Lemma detect_loop_raises_only_overflow m ps :
  Forall (fun nf => raises_only_overflow (snd nf)) ps ->
  raises_only_overflow (detect_loop m ps).
Proof.
  induction 1 as [|[name func] rest Hf _ IH]; intros s e; simpl.
  - discriminate.
  - unfold bind. destruct (func s) as [[val|ex] s'] eqn:E.
    + destruct val; [discriminate | apply IH].
    + simpl. intros [= <-]. apply (Hf s). simpl. rewrite E. reflexivity.
Qed.

Lemma sweep_loop_raises_only_overflow m ps :
  Forall (fun nf => raises_only_overflow (snd nf)) ps ->
  raises_only_overflow (sweep_loop m ps).
Proof.
  induction 1 as [|[name func] rest Hf _ IH]; intros s e; simpl.
  - discriminate.
  - unfold bind. destruct (func s) as [[val|ex] s'] eqn:E.
    + destruct val; [discriminate | apply IH].
    + simpl. intros [= <-]. apply (Hf s). simpl. rewrite E. reflexivity.
Qed.

Lemma dict_get_Forall {A} (P : A -> Prop) (d : list (string * A)) k v :
  Forall (fun kv => P (snd kv)) d -> dict_get d k = Some v -> P v.
Proof.
  induction 1 as [|[k' v'] d Hk _ IH]; simpl; [discriminate|].
  destruct (String.eqb k k'); [intros [= <-]; exact Hk | exact IH].
Qed.

(** X3. No exception other than [OverflowError] leaves
    [get_cpu_temperature] or the constructor, and none at all leaves
    [get_ssd_temperature]. *)
Theorem only_overflow_escapes py :
  (forall s e, fst (get_cpu_temperature py s) = Raise e -> e = OverflowError) /\
  (forall s, exists r, fst (get_ssd_temperature py s) = Ok r) /\
  (forall g w e, fst (construct py g w) = Raise e -> e = OverflowError).
Proof.
  pose proof (cpu_chain_raises_only_overflow py) as Hcpu.
  split; [|split].
  - intros s e. change (get_cpu_temperature py) with (get_metric py CpuTemp).
    rewrite get_metric_unfold. unfold get_temperature.
    assert (Hstep : forall func : M (option Q), raises_only_overflow func ->
              fst ((val <- func ;;
                    match val with
                    | Some v => ret (Some v)
                    | None => sweep_loop CpuTemp (chain py CpuTemp)
                    end) s) = Raise e -> e = OverflowError).
    { intros func Hf. unfold bind.
      destruct (func s) as [[val|ex] s'] eqn:E.
      - destruct val; [discriminate|].
        apply (sweep_loop_raises_only_overflow CpuTemp Hcpu).
      - simpl. intros [= <-]. apply (Hf s). rewrite E. reflexivity. }
    destruct (truthy _).
    + destruct (dict_get _ _) as [func|] eqn:Hd.
      * apply Hstep.
        apply (dict_get_Forall (fun f => raises_only_overflow f) _ Hcpu Hd).
      * apply Hstep. intros s' e'. discriminate.
    + apply Hstep. intros s' e'. discriminate.
  - apply get_ssd_temperature_never_raises.
  - intros g w e. rewrite construct_unfold, detect_best_methods_passes.
    unfold bind.
    destruct (discover py CpuTemp (before_discovery g w)) as [[[]|ex] s'] eqn:E.
    + cbv beta. rewrite discover_ssd_returns. discriminate.
    + simpl. intros [= <-].
      apply (detect_loop_raises_only_overflow CpuTemp Hcpu
               (before_discovery g w)).
      unfold discover in E. rewrite E. reflexivity.
Qed.

Lemma run_powershell_some py e script s :
  _run_powershell py e script = Ok (Some s) <->
  exists result,
    subprocess_run e script = Ok result /\
    returncode result = 0 /\
    s = str_strip py (stdout result) /\
    s <> "".
Proof.
  unfold _run_powershell.
  destruct (subprocess_run e script) as [result|ex]; cbn [res_bind try_except].
  - destruct (returncode result =? 0) eqn:Hc; cbn [andb].
    + destruct (String.eqb_spec (str_strip py (stdout result)) "") as [He|He];
        cbn [negb]; split.
      * discriminate.
      * intros (r & [= <-] & _ & -> & Hne). contradiction.
      * intros [= <-]. exists result. apply Z.eqb_eq in Hc. auto.
      * intros (r & [= <-] & _ & -> & _). reflexivity.
    + split; [discriminate|].
      intros (r & [= <-] & H0 & _). apply Z.eqb_neq in Hc. contradiction.
  - split; [discriminate|]. intros (r & Hr & _). discriminate.
Qed.

(** X4. [_cpu_temp_ps_acpi] raises exactly when the helper exits with
    code 0 and prints an integer whose magnitude is at least
    [2^1024 - 2^970]; for every other answer of PowerShell, and when
    PowerShell cannot be run, it returns. *)
Theorem ps_acpi_raises_exactly py g h e :
  (exists ex, cpu_temp_ps_acpi_body py g h e = Raise ex) <->
  exists result raw,
    subprocess_run e ps_acpi_script = Ok result /\
    returncode result = 0 /\
    str_strip py (stdout result) <> "" /\
    int_of_str py (str_strip py (str_strip py (stdout result))) = Some raw /\
    float_overflow_bound <= Z.abs raw.
Proof.
  split.
  - intros [ex Hex]. apply cpu_temp_ps_acpi_raises in Hex.
    destruct Hex as (_ & output & raw & Hout & Hraw & Hbig).
    apply run_powershell_some in Hout.
    destruct Hout as (result & Hrun & Hcode & -> & Hne).
    exists result, raw. auto.
  - intros (result & raw & Hrun & Hcode & Hne & Hraw & Hbig).
    exists OverflowError. unfold cpu_temp_ps_acpi_body.
    assert (Hout : _run_powershell py e ps_acpi_script
                   = Ok (Some (str_strip py (stdout result))))
      by (apply run_powershell_some; exists result; auto).
    rewrite Hout. cbn [res_bind truthy or_empty].
    destruct (String.eqb_spec (str_strip py (stdout result)) "");
      [contradiction|]. cbn [negb].
    unfold int_of_string. rewrite Hraw. cbn [res_bind].
    unfold decikelvin_to_celsius, float_of_int.
    apply Z.ltb_ge in Hbig. rewrite Hbig. reflexivity.
Qed.

(** ** The LibreHardwareMonitor CPU probe *)

Lemma last_error_some {A} (l : list A) x :
  exists z, last_error (x :: l) = Some z.
Proof.
  revert x. induction l as [|y l IH]; intros x.
  - exists x. reflexivity.
  - destruct (IH y) as [z Hz]. exists z. exact Hz.
Qed.

Lemma last_error_cons {A} (x : A) l :
  last_error (x :: l) =
  match last_error l with Some y => Some y | None => Some x end.
Proof.
  destruct l as [|y l]; [reflexivity|].
  destruct (last_error_some l y) as [z Hz]. rewrite Hz. exact Hz.
Qed.

(** The inner loop keeps the last package value and the first core
    value. *)
Lemma lhm_cpu_sensors_spec py sensors acc :
  lhm_cpu_sensors py sensors acc =
  (match last_error (candidates (names_package py) sensors) with
   | Some pkg => Some pkg
   | None => fst acc
   end,
   match snd acc with
   | Some core => Some core
   | None => hd_error (candidates (names_core py) sensors)
   end).
Proof.
  revert acc. induction sensors as [|sensor rest IH]; intros [pkg core].
  - simpl. destruct core; reflexivity.
  - cbn [lhm_cpu_sensors candidates]. unfold lhm_candidate.
    destruct (SensorType_eqb (lhm_SensorType sensor) Temperature);
      cbn [negb]; [|apply IH].
    destruct (lhm_Value sensor) as [val|]; [|apply IH].
    destruct (plausible val); cbn [negb]; [|apply IH].
    unfold names_core, names_package.
    destruct (str_in "package" _ || str_in "total" _); cbn [negb andb].
    + rewrite IH, last_error_cons. cbn [fst snd].
      destruct (last_error _); reflexivity.
    + cbn [snd fst].
      destruct (str_in "core" _); cbn [andb].
      * destruct core as [c|]; cbn [is_None andb]; rewrite IH; reflexivity.
      * rewrite Bool.andb_false_r. apply IH.
Qed.

(** X5. Where LibreHardwareMonitor is ready and lists a CPU entry first
    whose update succeeds, [_cpu_temp_lhm] reports the last temperature
    in range of a sensor whose name contains "package" or "total", if
    there is one, whatever the cores read and wherever that sensor
    stands in the list; without one it reports the first temperature in
    range of a sensor whose name contains "core"; with neither it
    answers as it would for the entries that follow.  No other name is
    preferred. *)
Theorem lhm_package_preferred py g h e hw rest :
  LHM_READY g = true ->
  _lhm_computer g <> None ->
  lhm_Hardware e = Ok (hw :: rest) ->
  hw_HardwareType hw = Cpu ->
  hw_Update hw = None ->
  cpu_temp_lhm_body py g h e =
  match last_error (candidates (names_package py) (hw_Sensors hw)) with
  | Some pkg => Ok (Some (round1 pkg))
  | None =>
      match hd_error (candidates (names_core py) (hw_Sensors hw)) with
      | Some core => Ok (Some (round1 core))
      | None => cpu_temp_lhm_body py g h (with_lhm (Ok rest) e)
      end
  end.
Proof.
  intros Hr Hc He Ht Hu. unfold cpu_temp_lhm_body. rewrite Hr, He.
  destruct (_lhm_computer g) as [c|]; [|contradiction].
  cbn [negb orb is_None with_lhm lhm_Hardware res_bind lhm_cpu_hardware].
  rewrite Ht, Hu. cbn [HardwareType_eqb negb].
  rewrite lhm_cpu_sensors_spec. cbn [fst snd].
  destruct (last_error _); [reflexivity|].
  destruct (hd_error _); reflexivity.
Qed.

Lemma lhm_package_preferred_witness :
  candidates (names_package ascii_builtins) (hw_Sensors example_cpu)
    = [4725 # 100] /\
  candidates (names_core ascii_builtins) (hw_Sensors example_cpu)
    = [455 # 10; 46%Q] /\
  cpu_temp_lhm_body ascii_builtins windows bare
    (with_lhm (Ok [example_cpu]) dead_env) = Ok (Some (472 # 10)) /\
  candidates (names_package ascii_builtins) (hw_Sensors example_ryzen) = [] /\
  cpu_temp_lhm_body ascii_builtins windows bare
    (with_lhm (Ok [example_ryzen]) dead_env) = Ok (Some (500 # 10)).
Proof.
  split; [reflexivity|]. split; [reflexivity|]. split; [|split].
  - rewrite (@lhm_package_preferred ascii_builtins windows bare
               (with_lhm (Ok [example_cpu]) dead_env) example_cpu []
               eq_refl ltac:(discriminate) eq_refl eq_refl eq_refl).
    reflexivity.
  - reflexivity.
  - rewrite (@lhm_package_preferred ascii_builtins windows bare
               (with_lhm (Ok [example_ryzen]) dead_env) example_ryzen []
               eq_refl ltac:(discriminate) eq_refl eq_refl eq_refl).
    reflexivity.
Defined.

(** ** The psutil probe *)

Lemma dict_get_In {A} (d : list (string * A)) k v :
  dict_get d k = Some v -> In (k, v) d.
Proof.
  induction d as [|[k' v'] d IH]; simpl; [discriminate|].
  destruct (String.eqb_spec k k') as [->|_].
  - intros [= ->]. left. reflexivity.
  - intros H. right. apply IH, H.
Qed.

Lemma psutil_any_none temps :
  psutil_any temps = None <->
  forall name entries, In (name, entries) temps -> entries = [].
Proof.
  induction temps as [|[name [|entry entries]] rest IH]; simpl.
  - split; [intros _ ? ? [] | reflexivity].
  - rewrite IH. split.
    + intros H n l [[= <- <-] | Hin]; [reflexivity | eauto].
    + intros H n l Hin. apply (H n l). right. assumption.
  - split; [discriminate|]. intros H.
    specialize (H name (entry :: entries) (or_introl eq_refl)). discriminate.
Qed.

Lemma psutil_named_some temps names v :
  psutil_named temps names = Some v ->
  exists name entry entries,
    In (name, entry :: entries) temps /\ v = current entry.
Proof.
  induction names as [|name rest IH]; simpl; [discriminate|].
  destruct (dict_get temps name) as [[|entry entries]|] eqn:Hd; auto.
  intros [= <-]. exists name, entry, entries.
  split; [apply dict_get_In, Hd | reflexivity].
Qed.

(** X6. Where psutil can be asked and answers, [_cpu_temp_psutil]
    returns nothing only if psutil lists no temperature entry at all;
    and an entry of the chip [coretemp] is preferred to every other. *)
Theorem psutil_reports_when_available g h e temps :
  psutil_has_sensors_temperatures g = true ->
  psutil_sensors_temperatures e = Ok temps ->
  (cpu_temp_psutil_body g h e = Ok None <->
   forall name entries, In (name, entries) temps -> entries = []) /\
  (forall entry entries,
      dict_get temps "coretemp" = Some (entry :: entries) ->
      cpu_temp_psutil_body g h e = Ok (Some (current entry))).
Proof.
  intros Hhas Hans. unfold cpu_temp_psutil_body.
  rewrite Hhas, Hans. cbn [negb res_bind].
  assert (Hinner :
    match temps with
    | [] => Ok None
    | _ :: _ =>
        match psutil_named temps
                ["coretemp"; "cpu_thermal"; "k10temp"; "zenpower"] with
        | Some v => Ok (Some v)
        | None => Ok (psutil_any temps)
        end
    end =
    match psutil_named temps
            ["coretemp"; "cpu_thermal"; "k10temp"; "zenpower"] with
    | Some v => Ok (Some v)
    | None => Ok (psutil_any temps)
    end) by (destruct temps; reflexivity).
  rewrite Hinner. clear Hinner. split.
  - destruct (psutil_named temps _) as [v|] eqn:Hn; cbn [try_except].
    + split; [discriminate|]. intros Hall.
      apply psutil_named_some in Hn.
      destruct Hn as (name & entry & entries & Hin & _).
      specialize (Hall _ _ Hin). discriminate.
    + rewrite <- psutil_any_none.
      split; [intros [= ->]; reflexivity | intros ->; reflexivity].
  - intros entry entries Hd. cbn [psutil_named]. rewrite Hd. reflexivity.
Qed.

Lemma psutil_reports_when_available_witness :
  cpu_temp_psutil_body linux bare (env_psutil (-5)) = Ok (Some (-5)%Q).
Proof.
  destruct (@psutil_reports_when_available linux bare (env_psutil (-5))
              [("coretemp", [ {| label := "Package id 0"; current := (-5)%Q |} ])]
              eq_refl eq_refl) as [_ H].
  exact (H _ _ eq_refl).
Defined.

(** ** The WMI clients *)

Lemma selects_wmi names m h h' :
  selects names m h h' ->
  _wmi_ohm h' = _wmi_ohm h /\ _wmi_root h' = _wmi_root h /\
  _wmi_storage h' = _wmi_storage h.
Proof. intros [-> | (name & _ & ->)]; [auto | destruct m; auto]. Qed.

Lemma run_op_wmi py o s :
  _wmi_ohm (self (run_op py o s)) = _wmi_ohm (self s) /\
  _wmi_root (self (run_op py o s)) = _wmi_root (self s) /\
  _wmi_storage (self (run_op py o s)) = _wmi_storage (self s).
Proof.
  destruct o as [m|]; simpl.
  - apply (selects_wmi (get_metric_selects py m s)).
  - destruct (read_sensors_selects py s) as (h & Hc & Hs).
    destruct (selects_wmi Hc) as (A1 & A2 & A3).
    destruct (selects_wmi Hs) as (B1 & B2 & B3).
    repeat split; congruence.
Qed.

Lemma run_ops_wmi py ops s :
  _wmi_ohm (self (run_ops py ops s)) = _wmi_ohm (self s) /\
  _wmi_root (self (run_ops py ops s)) = _wmi_root (self s) /\
  _wmi_storage (self (run_ops py ops s)) = _wmi_storage (self s).
Proof.
  revert s. induction ops as [|o ops IH]; intros s; simpl; [auto|].
  destruct (IH (run_op py o s)) as (A1 & A2 & A3).
  destruct (run_op_wmi py o s) as (B1 & B2 & B3).
  repeat split; congruence.
Qed.

Lemma construct_wmi py g w :
  _wmi_ohm (self (snd (construct py g w)))
    = _wmi_ohm (self (before_discovery g w)) /\
  _wmi_root (self (snd (construct py g w)))
    = _wmi_root (self (before_discovery g w)) /\
  _wmi_storage (self (snd (construct py g w)))
    = _wmi_storage (self (before_discovery g w)).
Proof.
  rewrite construct_unfold, detect_best_methods_passes. unfold bind.
  pose proof (discover_selects py CpuTemp (before_discovery g w)) as Hc.
  destruct (discover py CpuTemp (before_discovery g w)) as [r s1].
  simpl in Hc. destruct (selects_wmi Hc) as (A1 & A2 & A3).
  destruct r; simpl; [|auto].
  pose proof (discover_selects py SsdTemp s1) as Hs.
  destruct (selects_wmi Hs) as (B1 & B2 & B3).
  repeat split; congruence.
Qed.

Lemma connect_ohm_cons e ns rest :
  (provider_up e ns /\
   connect_ohm e (ns :: rest) = Some {| namespace := ns |}) \/
  (~ provider_up e ns /\ connect_ohm e (ns :: rest) = connect_ohm e rest).
Proof.
  unfold provider_up. cbn [connect_ohm].
  destruct (wmi_connect e ns) as [x|].
  - right. split; [intros [H _]; discriminate H | reflexivity].
  - destruct (wmi_Sensor e ns) as [l|x].
    + left. eauto.
    + right. split; [intros [_ [l H]]; discriminate H | reflexivity].
Qed.

Lemma connect_ohm_two e ns1 ns2 client :
  connect_ohm e [ns1; ns2] = Some client <->
  namespace client = ns1 /\ provider_up e ns1 \/
  namespace client = ns2 /\ ~ provider_up e ns1 /\ provider_up e ns2.
Proof.
  destruct client as [ns]. cbn [namespace].
  destruct (connect_ohm_cons e ns1 [ns2]) as [[U1 ->] | [D1 ->]].
  - split.
    + intros [= <-]. left. auto.
    + intros [[-> _] | (_ & D1 & _)]; [reflexivity | contradiction].
  - destruct (connect_ohm_cons e ns2 []) as [[U2 ->] | [D2 ->]].
    + split.
      * intros [= <-]. right. auto.
      * intros [[_ U1] | (-> & _)]; [contradiction | reflexivity].
    + cbn [connect_ohm]. split; [discriminate|].
      intros [[_ U1] | (_ & _ & U2)]; contradiction.
Qed.

Lemma connect_or_keep_none e ns client :
  connect_or_keep e ns None = Some client <->
  namespace client = ns /\ wmi_connect e ns = None.
Proof.
  destruct client as [ns']. unfold connect_or_keep. cbn [namespace].
  destruct (wmi_connect e ns) as [x|].
  - split; [discriminate | intros [_ H]; discriminate H].
  - split; [intros [= <-]; auto | intros [-> _]; reflexivity].
Qed.

(** X7. The WMI clients of a monitor are those obtained while it was
    constructed, from the world's first answer, and no later operation
    replaces or adds one.  The OHM client exists exactly when the [wmi]
    module is there and one of the two provider namespaces connects and
    answers a [Sensor()] query; it is then the client of
    LibreHardwareMonitor if that one does, and of OpenHardwareMonitor
    only if LibreHardwareMonitor does not.  The clients of [root\WMI]
    and of the storage namespace exist exactly when the module is there
    and the connection is made, whatever a [Sensor()] query would say. *)
Theorem wmi_clients_fixed py g w ops :
  let h := self (run_ops py ops (snd (construct py g w))) in
  let e := w 0%nat in
  (forall client,
      _wmi_ohm h = Some client <->
      WMI_AVAILABLE g = true /\
      (namespace client = "root\LibreHardwareMonitor" /\
       provider_up e "root\LibreHardwareMonitor" \/
       namespace client = "root\OpenHardwareMonitor" /\
       ~ provider_up e "root\LibreHardwareMonitor" /\
       provider_up e "root\OpenHardwareMonitor")) /\
  (forall client,
      _wmi_root h = Some client <->
      WMI_AVAILABLE g = true /\
      namespace client = "root\WMI" /\
      wmi_connect e "root\WMI" = None) /\
  (forall client,
      _wmi_storage h = Some client <->
      WMI_AVAILABLE g = true /\
      namespace client = "root\Microsoft\Windows\Storage" /\
      wmi_connect e "root\Microsoft\Windows\Storage" = None).
Proof.
  intros h e. subst h e.
  destruct (run_ops_wmi py ops (snd (construct py g w))) as (A1 & A2 & A3).
  destruct (construct_wmi py g w) as (B1 & B2 & B3).
  rewrite A1, A2, A3, B1, B2, B3.
  unfold before_discovery, _init_wmi_providers, blank, bind, assign, os_call.
  cbn -[connect_ohm connect_or_keep].
  destruct (WMI_AVAILABLE g); cbn -[connect_ohm connect_or_keep].
  - destruct (connect_ohm (w 0%nat) _) as [c|] eqn:Ec;
      cbn -[connect_or_keep].
    + split; [|split].
      * intros client. rewrite <- connect_ohm_two, Ec. tauto.
      * intros client. rewrite <- connect_or_keep_none. tauto.
      * intros client. rewrite <- connect_or_keep_none. tauto.
    + split; [|split].
      * intros client. rewrite <- connect_ohm_two, Ec. tauto.
      * intros client. rewrite <- connect_or_keep_none. tauto.
      * intros client. rewrite <- connect_or_keep_none. tauto.
  - split; [|split]; intros client;
      (split; [discriminate | intros [H _]; discriminate H]).
Qed.

(** ** Labels *)

(** X8. On a constructed monitor, after any operations, the label of a
    metric reads unavailable exactly when no method is selected for it,
    and the label the PDF report derives from the system information is
    the label the monitor itself shows. *)
Theorem labels_agree py g w ops m :
  let h := self (run_ops py ops (snd (construct py g w))) in
  (method_label m h = "Tidak tersedia" <-> get_method m h = None) /\
  report_method_label (temp_method m h) = method_label m h.
Proof.
  intros h.
  assert (Hok : slot_ok m h)
    by (apply run_ops_slot_ok, construct_slot_ok).
  destruct Hok as [Hnone | (name & Hname & Hin)].
  - destruct (label_unavailable m h Hnone) as [Hl Ht].
    rewrite Hl, Ht. split; [tauto | reflexivity].
  - unfold temp_method. rewrite Hname.
    destruct m; simpl in Hin, Hname;
      unfold method_label, cpu_method_label, ssd_method_label; rewrite Hname;
      repeat (destruct Hin as [<- | Hin];
              [split; [split; discriminate | reflexivity]|]);
      destruct Hin.
Qed.

(** * The report *)

(** ** The verdict *)

Lemma gt_spec a b : gt a b = true <-> (b < a)%Q.
Proof.
  unfold gt. rewrite Qlt_alt. destruct (b ?= a)%Q; split; congruence.
Qed.

Lemma gt_false a b : gt a b = false <-> (a <= b)%Q.
Proof.
  rewrite <- Bool.not_true_iff_false, gt_spec. split.
  - apply Qnot_lt_le.
  - intros H1 H2. apply (Qlt_irrefl b). eapply Qlt_le_trans; eauto.
Qed.

Lemma ge_spec a b : ge a b = true <-> (b <= a)%Q.
Proof. unfold ge. rewrite Bool.negb_true_iff. apply gt_false. Qed.

Lemma ge_false a b : ge a b = false <-> (a < b)%Q.
Proof. unfold ge. rewrite Bool.negb_false_iff. apply gt_spec. Qed.

(** The maximum is an item and no item exceeds it. *)
Lemma py_max_spec rest x :
  In (py_max x rest) (x :: rest) /\
  forall y, In y (x :: rest) -> (y <= py_max x rest)%Q.
Proof.
  unfold py_max. revert x. induction rest as [|z rest IH]; intros x.
  - simpl. split; [auto|]. intros y [<- | []]. apply Qle_refl.
  - cbn [fold_left]. destruct (gt z x) eqn:Hz.
    + destruct (IH z) as [Hin Hmax]. split.
      * right. exact Hin.
      * intros y [<- | Hy]; [|apply Hmax, Hy].
        apply Qle_trans with z; [|apply Hmax; left; reflexivity].
        apply Qlt_le_weak, gt_spec, Hz.
    + destruct (IH x) as [Hin Hmax]. split.
      * destruct Hin as [<- | Hin]; [left; reflexivity | right; right; exact Hin].
      * intros y [<- | [<- | Hy]].
        -- apply Hmax. left. reflexivity.
        -- apply Qle_trans with x; [apply gt_false, Hz|].
           apply Hmax. left. reflexivity.
        -- apply Hmax. right. exact Hy.
Qed.

Lemma present_temps_In readings t :
  In t (present_temps readings) <->
  exists r, In r readings /\ cpu_temp r = Some t.
Proof.
  induction readings as [|r rest IH]; simpl.
  - split; [intros [] | intros (r & [] & _)].
  - destruct (cpu_temp r) as [x|] eqn:Hx; simpl; rewrite IH; split.
    + intros [<- | (r' & Hin & Ht)]; [exists r; auto | exists r'; auto].
    + intros (r' & [<- | Hin] & Ht); [left; congruence | right; eauto].
    + intros (r' & Hin & Ht). exists r'. auto.
    + intros (r' & [<- | Hin] & Ht); [congruence | eauto].
Qed.

(** X9. As soon as one reading carries a CPU temperature, the verdict is
    decided by the temperatures alone: failed exactly when some reading
    is above 85 degrees, warning exactly when none is above 85 and some
    reading reaches 75, passed exactly when every reading is below 75.
    The utilization figures play no part. *)
Theorem verdict_by_temperature readings :
  (exists r t, In r readings /\ cpu_temp r = Some t) ->
  (verdict readings = "GAGAL" <->
   exists r t, In r readings /\ cpu_temp r = Some t /\ (85 < t)%Q) /\
  (verdict readings = "PERINGATAN" <->
   (exists r t, In r readings /\ cpu_temp r = Some t /\ (75 <= t)%Q) /\
   (forall r t, In r readings -> cpu_temp r = Some t -> (t <= 85)%Q)) /\
  (verdict readings = "LULUS" <->
   forall r t, In r readings -> cpu_temp r = Some t -> (t < 75)%Q).
Proof.
  intros (r0 & t0 & Hin0 & Ht0).
  assert (H0 : In t0 (present_temps readings))
    by (apply present_temps_In; eauto).
  unfold verdict, evaluate_status.
  destruct (present_temps readings) as [|x rest] eqn:Ept; [destruct H0|].
  destruct (py_max_spec rest x) as [Hmem Hmax].
  rewrite <- Ept in Hmem, Hmax.
  assert (Hmem' : exists r, In r readings /\ cpu_temp r = Some (py_max x rest))
    by (apply present_temps_In, Hmem).
  assert (Hmax' : forall r t, In r readings -> cpu_temp r = Some t ->
                              (t <= py_max x rest)%Q)
    by (intros r t Hr Ht; apply Hmax, present_temps_In; eauto).
  destruct Hmem' as (rm & Hrm & Htm).
  destruct (gt (py_max x rest) 85) eqn:Hg; cbn [fst].
  - apply gt_spec in Hg. split; [|split].
    + split; [intros _; exists rm, (py_max x rest); auto | reflexivity].
    + split; [discriminate|]. intros [_ Hall].
      specialize (Hall rm _ Hrm Htm). exfalso.
      apply (Qlt_irrefl 85). eapply Qlt_le_trans; eauto.
    + split; [discriminate|]. intros Hall.
      specialize (Hall rm _ Hrm Htm). exfalso.
      apply (Qlt_irrefl 85). apply Qlt_trans with (py_max x rest); [exact Hg|].
      eapply Qlt_trans; [exact Hall | reflexivity].
  - apply gt_false in Hg.
    destruct (ge (py_max x rest) 75) eqn:Hw; cbn [fst].
    + apply ge_spec in Hw. split; [|split].
      * split; [discriminate|]. intros (r & t & Hr & Ht & Hbig). exfalso.
        apply (Qlt_irrefl 85). eapply Qlt_le_trans; [exact Hbig|].
        eapply Qle_trans; [apply (Hmax' r t Hr Ht) | exact Hg].
      * split; [|reflexivity]. intros _. split.
        -- exists rm, (py_max x rest). auto.
        -- intros r t Hr Ht. eapply Qle_trans; [apply (Hmax' r t Hr Ht) | exact Hg].
      * split; [discriminate|]. intros Hall.
        specialize (Hall rm _ Hrm Htm). exfalso.
        apply (Qlt_irrefl 75). eapply Qle_lt_trans; eauto.
    + apply ge_false in Hw. split; [|split].
      * split; [discriminate|]. intros (r & t & Hr & Ht & Hbig). exfalso.
        apply (Qlt_irrefl 85). eapply Qlt_le_trans; [exact Hbig|].
        eapply Qle_trans; [apply (Hmax' r t Hr Ht) | exact Hg].
      * split; [discriminate|]. intros [(r & t & Hr & Ht & Hbig) _]. exfalso.
        apply (Qlt_irrefl 75). eapply Qle_lt_trans; [exact Hbig|].
        eapply Qle_lt_trans; [apply (Hmax' r t Hr Ht) | exact Hw].
      * split; [|reflexivity]. intros _ r t Hr Ht.
        eapply Qle_lt_trans; [apply (Hmax' r t Hr Ht) | exact Hw].
Qed.

Lemma verdict_by_temperature_witness :
  let readings := [reading_with None 99; reading_with (Some (80 # 1)) 99;
                   reading_with (Some (40 # 1)) 10] in
  verdict readings = "PERINGATAN" /\
  ~ (exists r t, In r readings /\ cpu_temp r = Some t /\ (85 < t)%Q).
Proof.
  intros readings. split; [reflexivity|].
  destruct (@verdict_by_temperature readings) as [Hfail _].
  - exists (reading_with (Some (80 # 1)) 99), (80 # 1).
    split; [right; left; reflexivity | reflexivity].
  - intros H. apply Hfail in H. discriminate H.
Defined.





(** ** The series of the chart *)

Lemma chart_series_fold {T} (strptime : string -> option T) readings ts cts cus :
  fold_left
    (fun '(timestamps, cpu_temps, cpu_usages) r =>
       match strptime (timestamp r) with
       | Some t => (timestamps ++ [t], cpu_temps ++ [cpu_temp r],
                    cpu_usages ++ [cpu_percent r])
       | None => (timestamps, cpu_temps, cpu_usages)
       end)
    readings (ts, cts, cus) =
  let kept :=
    filter (fun r => negb (is_None (strptime (timestamp r)))) readings in
  (ts ++ flat_map (fun r => match strptime (timestamp r) with
                            | Some t => [t]
                            | None => []
                            end) readings,
   cts ++ map cpu_temp kept,
   cus ++ map cpu_percent kept).
Proof.
  revert ts cts cus. induction readings as [|r rest IH]; intros ts cts cus.
  - simpl. rewrite !app_nil_r. reflexivity.
  - cbn [fold_left filter flat_map].
    destruct (strptime (timestamp r)) as [t|]; cbn [is_None negb].
    + rewrite IH. cbn [map]. rewrite <- !app_assoc. reflexivity.
    + rewrite IH. reflexivity.
Qed.

(** X11. The loop of [generate_chart] drops a reading whose time stamp
    does not parse from all three series at once: the temperatures and
    the utilization figures are those of the readings kept, in order,
    and the three series, and the temperatures handed to the plot, have
    one item per reading kept. *)
Theorem chart_series_aligned {T} (strptime : string -> option T) readings :
  let kept :=
    filter (fun r => negb (is_None (strptime (timestamp r)))) readings in
  let '(timestamps, cpu_temps, cpu_usages) := chart_series strptime readings in
  map Some timestamps = map (fun r => strptime (timestamp r)) kept /\
  cpu_temps = map cpu_temp kept /\
  cpu_usages = map cpu_percent kept /\
  List.length timestamps = List.length kept /\
  List.length (valid_temps cpu_temps) = List.length timestamps /\
  List.length cpu_usages = List.length timestamps.
Proof.
  intros kept. unfold chart_series. rewrite chart_series_fold.
  cbv zeta. cbn [app]. fold kept.
  assert (Hts : map Some
                  (flat_map (fun r => match strptime (timestamp r) with
                                      | Some t => [t]
                                      | None => []
                                      end) readings)
                = map (fun r => strptime (timestamp r)) kept).
  { subst kept. induction readings as [|r rest IH]; [reflexivity|].
    cbn [flat_map filter].
    destruct (strptime (timestamp r)) as [t|] eqn:Et; cbn [is_None negb].
    - cbn [app map]. rewrite IH, Et. reflexivity.
    - exact IH. }
  assert (Hlen : List.length
                   (flat_map (fun r => match strptime (timestamp r) with
                                       | Some t => [t]
                                       | None => []
                                       end) readings)
                 = List.length kept).
  { rewrite <- (length_map Some), Hts, length_map. reflexivity. }
  repeat split.
  - exact Hts.
  - exact Hlen.
  - unfold valid_temps. rewrite !length_map. symmetry. exact Hlen.
  - rewrite length_map. symmetry. exact Hlen.
Qed.

(** * GPU information *)

Lemma or_NA_not_empty x : or_NA x <> "".
Proof.
  unfold or_NA, truthy. destruct x as [s|]; [|discriminate].
  destruct (String.eqb_spec s ""); simpl; [discriminate | assumption].
Qed.

(** X12. [get_gpu_info] reports the first video controller that has a
    name, with the driver of that same controller, and the defaults when
    WMI is missing, fails, or lists no named controller.  The name and
    the driver it reports are never empty, and a video memory size it
    reports is never negative. *)
Theorem get_gpu_info_contract wmi_available controllers :
  let info := get_gpu_info wmi_available controllers in
  info_name info <> "" /\
  info_driver info <> "" /\
  (forall mb, info_vram_mb info = Some mb -> 0 <= mb) /\
  (forall gpus,
      wmi_available = true -> controllers = Ok gpus ->
      match find named gpus with
      | Some gpu =>
          vc_Name gpu = Some (info_name info) /\
          info_driver info = or_NA (vc_DriverVersion gpu)
      | None =>
          info = {| info_name := "N/A"; info_vram_mb := None;
                    info_driver := "N/A" |}
      end) /\
  (wmi_available = false \/ (exists e, controllers = Raise e) ->
   info = {| info_name := "N/A"; info_vram_mb := None; info_driver := "N/A" |}).
Proof.
  cbv zeta. unfold get_gpu_info.
  set (info0 := {| info_name := "N/A"; info_vram_mb := None;
                   info_driver := "N/A" |}).
  assert (Hloop : forall gpus,
    info_name (gpu_loop gpus info0) <> "" /\
    info_driver (gpu_loop gpus info0) <> "" /\
    (forall mb, info_vram_mb (gpu_loop gpus info0) = Some mb -> 0 <= mb) /\
    match find named gpus with
    | Some gpu =>
        vc_Name gpu = Some (info_name (gpu_loop gpus info0)) /\
        info_driver (gpu_loop gpus info0) = or_NA (vc_DriverVersion gpu)
    | None => gpu_loop gpus info0 = info0
    end).
  { induction gpus as [|gpu rest IH]; cbn [gpu_loop find].
    - repeat split; try discriminate.
    - unfold named at 1.
      destruct (String.eqb_spec (or_empty (vc_Name gpu)) "") as [He|He];
        cbn [negb]; [exact IH|].
      cbn [info_name info_vram_mb info_driver].
      split; [exact He|]. split; [apply or_NA_not_empty|]. split.
      + destruct (vc_AdapterRAM gpu) as [vram|]; [|discriminate].
        destruct (negb (vram =? 0) && (0 <? vram)) eqn:Hv; [|discriminate].
        intros mb [= <-]. apply Bool.andb_true_iff in Hv.
        destruct Hv as [_ Hpos]. apply Z.ltb_lt in Hpos.
        apply Z.div_pos; lia.
      + split; [|reflexivity].
        destruct (vc_Name gpu) as [s|]; [reflexivity | contradiction]. }
  destruct wmi_available; cbn [negb].
  - destruct controllers as [gpus|e].
    + destruct (Hloop gpus) as (H1 & H2 & H3 & H4).
      split; [exact H1|]. split; [exact H2|]. split; [exact H3|]. split.
      * intros gpus' _ [= <-]. exact H4.
      * intros [H | [e H]]; discriminate.
    + split; [discriminate|]. split; [discriminate|].
      split; [discriminate|]. split.
      * intros gpus _ H. discriminate.
      * reflexivity.
  - split; [discriminate|]. split; [discriminate|].
    split; [discriminate|]. split.
    + intros gpus H. discriminate.
    + reflexivity.
Qed.

(** * The load generator *)

Lemma num_workers_bounds active_count cpu_count :
  1 <= num_workers active_count cpu_count <= 2.
Proof. unfold num_workers. cbv zeta. lia. Qed.

(** X13. [start_load] starts one or two workers, whatever the number
    of cores and of active threads: one on a machine reporting a single
    core, two otherwise, also when the number of cores is unknown. *)
Theorem start_load_workers active_count cpu_count e :
  let added :=
    (List.length (_threads (start_load active_count cpu_count e))
     - List.length (_threads e))%nat in
  (added = 1 \/ added = 2)%nat /\
  (added = 1%nat <-> exists c, cpu_count = Some c /\ c <= 1 /\ c <> 0).
Proof.
  cbv zeta. unfold start_load, spawn. cbn [_threads].
  rewrite length_app, repeat_length.
  replace (List.length (_threads e) + Z.to_nat (num_workers active_count cpu_count)
           - List.length (_threads e))%nat
    with (Z.to_nat (num_workers active_count cpu_count)) by lia.
  pose proof (num_workers_bounds active_count cpu_count) as Hb.
  split; [lia|].
  unfold num_workers, int_or in *. cbv zeta in *.
  destruct cpu_count as [c|].
  - destruct (Z.eqb_spec c 0) as [->|Hc].
    + split; [intros H; simpl in H; lia|].
      intros (c & [= <-] & _ & H). contradiction.
    + split.
      * intros H. exists c. repeat split; [lia | assumption].
      * intros (c' & [= <-] & Hle & _). lia.
  - split; [intros H; simpl in H; lia|]. intros (c & H & _). discriminate.
Qed.

Lemma stress_run_snoc ops o :
  stress_run (ops ++ [o]) = stress_step (stress_run ops) o.
Proof. unfold stress_run. rewrite fold_left_app. reflexivity. Qed.

Lemma loads_since_stop_snoc ops acc o :
  loads_since_stop (ops ++ [o]) acc =
  match o with
  | Stop => 0%nat
  | StartLoad _ _ => S (loads_since_stop ops acc)
  | StartIdle => loads_since_stop ops acc
  end.
Proof.
  revert acc. induction ops as [|o' ops IH]; intros acc.
  - destruct o; reflexivity.
  - destruct o'; simpl; apply IH.
Qed.

(** X14. Whatever calls are made on a fresh engine: it holds worker
    threads only while it is marked running; in mode "load" it is
    running with at least one worker; the mode is "idle" or "load"; and
    it holds between one and two workers for every [start_load] since
    the last [stop], none after a [stop]. *)
Theorem stress_engine_invariant ops :
  let e := stress_run ops in
  let k := loads_since_stop ops 0 in
  (_threads e <> [] -> _running e = true) /\
  (_mode e = "load" -> _running e = true /\ _threads e <> []) /\
  (_mode e = "idle" \/ _mode e = "load") /\
  (k <= List.length (_threads e) <= 2 * k)%nat.
Proof.
  cbv zeta. induction ops as [|o ops IH] using rev_ind.
  - simpl. split; [intros H; contradiction|].
    split; [discriminate|]. split; [left; reflexivity | lia].
  - rewrite stress_run_snoc, loads_since_stop_snoc.
    destruct IH as (I1 & I2 & I3 & I4).
    destruct o as [|a c|]; cbn [stress_step start_idle start_load stop
                                 _running _threads _mode].
    + split; [exact I1|]. split; [discriminate|].
      split; [left; reflexivity | exact I4].
    + unfold spawn. rewrite length_app, repeat_length.
      pose proof (num_workers_bounds a c) as Hb.
      assert (Hne : _threads (stress_run ops)
                    ++ repeat Worker (Z.to_nat (num_workers a c)) <> []).
      { intros H. apply app_eq_nil in H. destruct H as [_ H].
        apply (f_equal (@List.length Thread)) in H.
        rewrite repeat_length in H. simpl in H. lia. }
      split; [reflexivity|]. split; [auto|].
      split; [right; reflexivity | lia].
    + split; [intros H; contradiction|]. split; [discriminate|].
      split; [left; reflexivity | simpl; lia].
Qed.

(** * Temperatures that reach a reading *)

Lemma chain_entry_checked py m nf :
  In nf (chain py m) ->
  (m = CpuTemp /\ fst nf = "psutil") \/
  (forall s v, fst (snd nf s) = Ok (Some v) ->
               exists raw, plausible raw = true /\ v = round1 raw).
Proof.
  intros Hin.
  assert (Hv : forall g h e, _) by (exact (checked_probes_validated py)).
  destruct m; simpl in Hin;
    repeat (destruct Hin as [<- | Hin];
            [first [ left; split; reflexivity
                   | right; intros s v; unfold probe; cbn [fst snd];
                     apply (Hv (globals s) (self s) (now s)) ]|]);
    destruct Hin.
Qed.

Lemma sweep_loop_value m ps s v :
  fst (sweep_loop m ps s) = Ok (Some v) ->
  exists name (func : M (option Q)) s1,
    In (name, func) ps /\ fst (func s1) = Ok (Some v) /\
    get_method m (self (snd (sweep_loop m ps s))) = Some name.
Proof.
  revert s. induction ps as [|[name func] rest IH]; intros s; simpl.
  - discriminate.
  - unfold bind. destruct (func s) as [[[x|]|e] s'] eqn:E; cbn [fst snd].
    + intros [= <-]. exists name, func, s. split; [left; reflexivity|].
      split; [rewrite E; reflexivity|]. apply get_method_set_same.
    + intros H. destruct (IH s' H) as (n & f & s1 & Hin & Hf & Hm).
      exists n, f, s1. split; [right; exact Hin | auto].
    + discriminate.
Qed.

(** A value returned by an accessor was returned by the probe whose name
    the slot holds afterwards. *)
Lemma get_metric_value py m s v :
  fst (get_metric py m s) = Ok (Some v) ->
  exists name (func : M (option Q)) s1,
    In (name, func) (chain py m) /\ fst (func s1) = Ok (Some v) /\
    get_method m (self (snd (get_metric py m s))) = Some name.
Proof.
  rewrite get_metric_unfold. unfold get_temperature.
  assert (Hsweep : forall s',
            fst (sweep_loop m (chain py m) s') = Ok (Some v) ->
            exists name (func : M (option Q)) s1,
              In (name, func) (chain py m) /\ fst (func s1) = Ok (Some v) /\
              get_method m (self (snd (sweep_loop m (chain py m) s')))
              = Some name)
    by (intros s'; apply sweep_loop_value).
  destruct (get_method m (self s)) as [name|] eqn:Hm; cbn [truthy or_empty].
  - destruct (negb (String.eqb name "")).
    + destruct (dict_get (chain py m) name) as [func|] eqn:Hd.
      * destruct (@probes_of_dict_get _ _ name func (chain_probes py m) Hd)
          as (pname & _ & body & Hb).
        unfold bind, ret.
        destruct (func s) as [[[x|]|e] s'] eqn:E; cbn [fst snd].
        -- intros [= <-]. exists name, func, s.
           split; [apply dict_get_In, Hd|]. split; [rewrite E; reflexivity|].
           replace s' with (snd (func s)) by (rewrite E; reflexivity).
           rewrite Hb, probe_self. exact Hm.
        -- apply Hsweep.
        -- discriminate.
      * unfold bind, ret. apply Hsweep.
    + unfold bind, ret. apply Hsweep.
  - unfold bind, ret. apply Hsweep.
Qed.

Lemma read_sensors_state py s rd :
  fst (read_sensors py s) = Ok rd ->
  snd (read_sensors py s) =
  snd (get_ssd_temperature py (snd (get_cpu_temperature py (advance 4 s)))).
Proof.
  intros H. apply read_sensors_returns in H.
  destruct H as (c & r & d & ct & st & Hc & Hr & Hd & Hct & Hst & _).
  unfold read_sensors.
  erewrite bind_ok; [|reflexivity].
  erewrite bind_ok; [|exact Hc].
  erewrite bind_ok; [|exact Hr].
  erewrite bind_ok; [|exact Hd].
  erewrite bind_ok; [|exact Hct].
  erewrite bind_ok; [|exact Hst].
  reflexivity.
Qed.

(** X15. In a reading returned by [read_sensors], an SSD temperature
    that is present lies between 0 and 150, both ends included; so does
    a CPU temperature that is present, unless the method selected for
    the CPU after the read is psutil. *)
Theorem reading_temperature_range py s rd :
  fst (read_sensors py s) = Ok rd ->
  (forall t, ssd_temp rd = Some t -> (0 <= t /\ t <= 150)%Q) /\
  (forall t, cpu_temp rd = Some t ->
             _cpu_method (self (snd (read_sensors py s))) <> Some "psutil" ->
             (0 <= t /\ t <= 150)%Q).
Proof.
  intros Hret. rewrite (read_sensors_state py s Hret).
  apply read_sensors_returns in Hret.
  destruct Hret as (c & r & d & ct & st & _ & _ & _ & Hct & Hst & ->).
  cbn [reading_of ssd_temp cpu_temp].
  set (s4 := advance 4 s) in *.
  set (s5 := snd (get_cpu_temperature py s4)) in *.
  assert (Hround : forall raw, plausible raw = true ->
            (0 <= round1 (round1 raw) /\ round1 (round1 raw) <= 150)%Q)
    by (intros raw Hp; rewrite round1_idempotent; apply round1_plausible, Hp).
  split.
  - intros t Ht. destruct st as [v|]; [|discriminate]. injection Ht as <-.
    destruct (@get_metric_value py SsdTemp s5 v Hst)
      as (name & func & s1 & Hin & Hf & _).
    destruct (chain_entry_checked py SsdTemp _ Hin) as [[Hm _] | Hchk];
      [discriminate|].
    destruct (Hchk s1 v Hf) as (raw & Hp & ->). apply Hround, Hp.
  - intros t Ht Hnot. destruct ct as [v|]; [|discriminate]. injection Ht as <-.
    destruct (@get_metric_value py CpuTemp s4 v Hct)
      as (name & func & s1 & Hin & Hf & Hm).
    fold s5 in Hm.
    assert (Hkeep : _cpu_method
                      (self (snd (get_ssd_temperature py s5)))
                    = _cpu_method (self s5)).
    { apply (@selects_other_slot _ CpuTemp SsdTemp _ _ ltac:(discriminate)
               (get_metric_selects py SsdTemp s5)). }
    rewrite Hkeep in Hnot. simpl in Hm.
    destruct (chain_entry_checked py CpuTemp _ Hin) as [[_ Hps] | Hchk].
    + simpl in Hps. subst name. contradiction.
    + destruct (Hchk s1 v Hf) as (raw & Hp & ->). apply Hround, Hp.
Qed.

Lemma reading_temperature_range_witness :
  let s := snd (construct ascii_builtins workstation (fun _ => env_provider)) in
  exists rd,
    fst (read_sensors ascii_builtins s) = Ok rd /\
    cpu_temp rd = Some (423 # 10) /\
    (0 <= 423 # 10 /\ 423 # 10 <= 150)%Q.
Proof.
  intros s.
  exists (reading_of "2024-05-01 10:00:00" (1234 # 100) (617 # 10) (45 # 1)
            (Some (423 # 10)) None).
  destruct (@reading_temperature_range ascii_builtins s
              (reading_of "2024-05-01 10:00:00" (1234 # 100) (617 # 10)
                 (45 # 1) (Some (423 # 10)) None) eq_refl) as [_ Hcpu].
  split; [reflexivity|]. split; [reflexivity|].
  apply (Hcpu (423 # 10) eq_refl). vm_compute. discriminate.
Defined.

(** * A world that does not change *)

Lemma chain_entry_body py m name (func : M (option Q)) :
  In (name, func) (chain py m) ->
  exists pname body,
    func = probe pname body /\
    forall g h h' e, same_clients h h' -> body g h e = body g h' e.
Proof.
  intros Hin.
  destruct m; simpl in Hin;
    repeat (destruct Hin as [[= <- <-] | Hin];
            [eexists _, _; split; [reflexivity|];
             intros g h h' e (A & B & C);
             cbv delta [cpu_temp_lhm_body cpu_temp_ohm_body
                        cpu_temp_wmi_acpi_body cpu_temp_ps_acpi_body
                        cpu_temp_psutil_body ssd_temp_lhm_body
                        ssd_temp_ohm_body ssd_temp_ps_reliability_body
                        ssd_temp_wmi_storage_body]; cbv beta;
             rewrite ?A, ?B, ?C; reflexivity|]);
    destruct Hin.
Qed.

Lemma chain_entry_keyed py m name (func : M (option Q)) :
  In (name, func) (chain py m) -> dict_get (chain py m) name = Some func.
Proof.
  intros Hin.
  destruct m; simpl in Hin;
    repeat (destruct Hin as [[= <- <-] | Hin]; [reflexivity|]);
    destruct Hin.
Qed.

Lemma akin_refl e s : steady e s -> akin e s s.
Proof. intros H. repeat split; auto. Qed.

Lemma akin_sym e s s' : akin e s s' -> akin e s' s.
Proof. intros (A & B & C & D1 & D2 & D3). repeat split; auto. Qed.

Lemma akin_trans e s1 s2 s3 : akin e s1 s2 -> akin e s2 s3 -> akin e s1 s3.
Proof.
  intros (A & B & C & D1 & D2 & D3) (A' & B' & C' & E1 & E2 & E3).
  repeat split; auto; congruence.
Qed.

(** A probe of a chain returns the same in akin systems, and leaves a
    system akin to the one it started in. *)
Lemma chain_entry_akin py m name (func : M (option Q)) e s s' :
  In (name, func) (chain py m) ->
  akin e s s' ->
  fst (func s) = fst (func s') /\ akin e s (snd (func s)) /\
  self (snd (func s)) = self s.
Proof.
  intros Hin (Hg & Hs & Hs' & Hc).
  destruct (@chain_entry_body py m name func Hin) as (pname & body & -> & Hb).
  unfold probe, now; cbn [fst snd]. split; [|split; [|reflexivity]].
  - rewrite (Hs (clock s)), (Hs' (clock s')), Hg. apply Hb, Hc.
  - repeat split; auto.
Qed.

(** What a sweep or a discovery pass does in a steady world: either no
    probe answers and nothing changes, or some probe answers and its
    name is stored, or a probe raises. *)
Lemma loops_in_steady_world py m e s0 ps s :
  (forall nf, In nf ps -> In nf (chain py m)) ->
  akin e s0 s ->
  (fst (sweep_loop m ps s) = Ok None /\
   fst (detect_loop m ps s) = Ok tt /\
   self (snd (sweep_loop m ps s)) = self s /\
   self (snd (detect_loop m ps s)) = self s /\
   akin e s0 (snd (sweep_loop m ps s)) /\
   akin e s0 (snd (detect_loop m ps s)) /\
   (forall nf, In nf ps -> fst (snd nf s0) = Ok None)) \/
  (exists name (func : M (option Q)) v,
      In (name, func) ps /\ fst (func s0) = Ok (Some v) /\
      fst (sweep_loop m ps s) = Ok (Some v) /\
      fst (detect_loop m ps s) = Ok tt /\
      self (snd (sweep_loop m ps s)) = set_method m (Some name) (self s) /\
      self (snd (detect_loop m ps s)) = set_method m (Some name) (self s) /\
      akin e s0 (snd (sweep_loop m ps s)) /\
      akin e s0 (snd (detect_loop m ps s))) \/
  (exists ex, fst (sweep_loop m ps s) = Raise ex /\
              fst (detect_loop m ps s) = Raise ex).
Proof.
  revert s. induction ps as [|[name func] rest IH]; intros s Hsub Hak.
  - left. simpl. do 4 (split; [reflexivity|]). do 2 (split; [exact Hak|]).
    intros nf [].
  - assert (Hin : In (name, func) (chain py m))
      by (apply Hsub; left; reflexivity).
    destruct (@chain_entry_akin py m name func e s s0 Hin (akin_sym Hak))
      as (Hr & Hak' & Hself).
    assert (Hak0 : akin e s0 (snd (func s)))
      by (eapply akin_trans; [exact Hak | exact Hak']).
    cbn [sweep_loop detect_loop]. unfold bind.
    destruct (func s) as [[[v|]|ex] s1] eqn:E; cbn [fst snd] in *.
    + right; left. exists name, func, v.
      assert (Hset : akin e s0 (with_self s1 (set_method m (Some name) (self s1)))).
      { destruct Hak0 as (G & S1 & S2 & (C1 & C2 & C3)).
        repeat split; auto; cbn [self with_self]; destruct m; auto. }
      split; [left; reflexivity|]. split; [congruence|].
      unfold bind, assign, ret; cbn [fst snd self with_self].
      rewrite Hself in Hset |- *. do 4 (split; [reflexivity|]).
      split; exact Hset.
    + destruct (IH s1 (fun nf H => Hsub nf (or_intror H)) Hak0)
        as [(A1 & A2 & A3 & A4 & A5 & A6 & A7)
           | [(n & f & v & B1 & B2 & B3 & B4 & B5 & B6 & B7 & B8)
             | (ex & C1 & C2)]].
      * left. split; [exact A1|]. split; [exact A2|].
        split; [congruence|]. split; [congruence|].
        split; [exact A5|]. split; [exact A6|].
        intros nf [<- | Hnf]; [cbn [snd]; congruence | apply A7, Hnf].
      * right; left. exists n, f, v.
        split; [right; exact B1|]. split; [exact B2|].
        split; [exact B3|]. split; [exact B4|].
        split; [congruence|]. split; [congruence|].
        split; [exact B7 | exact B8].
      * right; right. exists ex. auto.
    + right; right. exists ex. auto.
Qed.

Lemma all_absent_outcomes ps s0 e py m :
  (forall nf, In nf ps -> In nf (chain py m)) ->
  steady e s0 ->
  (forall nf, In nf ps -> fst (snd nf s0) = Ok None) ->
  forall s, akin e s0 s -> all_absent ps s.
Proof.
  intros Hsub Hst Hall.
  induction ps as [|[name func] rest IH]; intros s Hak; simpl; [exact I|].
  assert (Hin : In (name, func) (chain py m))
    by (apply Hsub; left; reflexivity).
  destruct (@chain_entry_akin py m name func e s s0 Hin (akin_sym Hak))
    as (Hr & Hak' & _).
  split.
  - rewrite Hr. apply (Hall (name, func)). left. reflexivity.
  - apply IH.
    + intros nf H. apply Hsub. right. exact H.
    + intros nf H. apply Hall. right. exact H.
    + eapply akin_trans; [exact Hak | exact Hak'].
Qed.

(** In a steady world a settled slot stays as it is under a read of any
    metric, and the read returns the settled answer. *)
Lemma get_metric_settled py e s0 m s r :
  steady e s0 -> akin e s0 s ->
  settled py s0 m (self s) r ->
  fst (get_metric py m s) = Ok r /\
  self (snd (get_metric py m s)) = self s /\
  akin e s0 (snd (get_metric py m s)).
Proof.
  intros Hst Hak [(Hm & -> & Hall) | (name & func & v & Hm & -> & Hd & Hv)].
  - assert (Ha : all_absent (chain py m) s)
      by (apply (@all_absent_outcomes (chain py m) s0 e py m); auto).
    rewrite (get_metric_unselected_absent py m s Hm Ha). cbn [fst snd].
    destruct (after_probes s (chain_probes py m)) as (A & B & C & _).
    split; [reflexivity|]. split; [exact A|].
    destruct Hak as (G & S1 & S2 & Cl).
    split; [congruence|]. split; [exact S1|]. split.
    + intros t. rewrite C. apply S2.
    + rewrite A. exact Cl.
  - rewrite (@get_metric_sticky py m name func s Hm Hd).
    destruct (@chain_entry_akin py m name func e s s0
                (dict_get_In _ _ Hd) (akin_sym Hak)) as (Hr & Hak' & Hself).
    assert (Hv' : fst (func s) = Ok (Some v)) by congruence.
    rewrite (bind_ok _ _ _ Hv'). unfold ret; cbn [fst snd].
    split; [reflexivity|]. split; [exact Hself|].
    eapply akin_trans; [exact Hak | exact Hak'].
Qed.

Lemma settled_slot py s0 m h h' r :
  get_method m h' = get_method m h ->
  settled py s0 m h r -> settled py s0 m h' r.
Proof.
  intros Heq [(Hm & Hr & Hall) | (name & func & v & Hm & Hr & Hd & Hv)].
  - left. rewrite Heq. auto.
  - right. exists name, func, v. rewrite Heq. auto.
Qed.

Lemma get_method_set_other m m' v h :
  m' <> m -> get_method m' (set_method m v h) = get_method m' h.
Proof. destruct m, m'; intros H; try reflexivity; congruence. Qed.

(** A discovery pass that returns settles the slot it found empty. *)
Lemma discover_settles py e s0 m s :
  steady e s0 -> akin e s0 s ->
  get_method m (self s) = None ->
  fst (discover py m s) = Ok tt ->
  (exists r, settled py s0 m (self (snd (discover py m s))) r) /\
  akin e s0 (snd (discover py m s)) /\
  (forall m', m' <> m ->
      get_method m' (self (snd (discover py m s))) = get_method m' (self s)).
Proof.
  intros Hst Hak Hm Hret. unfold discover in *.
  destruct (@loops_in_steady_world py m e s0 (chain py m) s (fun nf H => H) Hak)
    as [(_ & _ & _ & A4 & _ & A6 & A7)
       | [(n & f & v & B1 & B2 & _ & _ & _ & B6 & _ & B8) | (ex & _ & C2)]].
  - split; [|split].
    + exists None. left. rewrite A4. auto.
    + exact A6.
    + intros m' _. rewrite A4. reflexivity.
  - split; [|split].
    + exists (Some v). right. exists n, f, v. rewrite B6.
      split; [apply get_method_set_same|]. split; [reflexivity|].
      split; [apply chain_entry_keyed, B1 | exact B2].
    + exact B8.
    + intros m' Hne. rewrite B6. apply get_method_set_other, Hne.
  - congruence.
Qed.

Lemma before_discovery_world g w : world (before_discovery g w) = w.
Proof.
  unfold before_discovery, _init_wmi_providers, blank, bind, assign, os_call.
  cbn -[connect_ohm connect_or_keep].
  destruct (WMI_AVAILABLE g); reflexivity.
Qed.

Lemma os_call_akin {A} (f : Env -> Res A) e s0 s :
  akin e s0 s -> akin e s0 (snd (os_call f s)).
Proof. intros (G & S1 & S2 & C). repeat split; auto; apply C. Qed.

Lemma bind_preserves {A B} (P : Sys -> Prop) (m : M A) (k : A -> M B) :
  (forall s, P s -> P (snd (m s))) ->
  (forall a s, P s -> P (snd (k a s))) ->
  forall s, P s -> P (snd (bind m k s)).
Proof.
  intros Hm Hk s Hs. unfold bind. specialize (Hm s Hs).
  destruct (m s) as [[a|e] s']; cbn [snd] in *; auto.
Qed.

(** X16. In a world that answers the same at every moment, once the
    constructor has returned, nothing changes any more: whatever
    operations are performed, the object stays as the constructor left
    it, and an accessor keeps returning the same answer, which is a
    value exactly when a method is selected for its metric. *)
Theorem steady_world_stable py g e ops m :
  let c := construct py g (fun _ => e) in
  fst c = Ok tt ->
  let s := run_ops py ops (snd c) in
  self s = self (snd c) /\
  fst (get_metric py m s) = fst (get_metric py m (snd c)) /\
  exists r, fst (get_metric py m s) = Ok r /\
            (r = None <-> get_method m (self (snd c)) = None).
Proof.
  intros c Hret s.
  set (w := fun _ : nat => e) in *.
  set (s0 := before_discovery g w).
  assert (Hst : steady e s0)
    by (intros t; unfold s0; rewrite before_discovery_world; reflexivity).
  (* the two passes of the constructor *)
  assert (Hc : c = (discover py CpuTemp ;;; discover py SsdTemp) s0)
    by (unfold c; rewrite construct_unfold; reflexivity).
  rewrite Hc in Hret. apply bind_returns in Hret.
  destruct Hret as ([] & Hcpu & Hssd).
  assert (Hsnd : snd c = snd (discover py SsdTemp (snd (discover py CpuTemp s0))))
    by (rewrite Hc, (bind_ok _ _ _ Hcpu); reflexivity).
  destruct (@discover_settles py e s0 CpuTemp s0 Hst (akin_refl Hst)
              (before_discovery_methods g w CpuTemp) Hcpu)
    as ([rc Hsc] & Hak1 & Hoth1).
  set (s1 := snd (discover py CpuTemp s0)) in *.
  assert (Hm1 : get_method SsdTemp (self s1) = None).
  { rewrite (Hoth1 SsdTemp ltac:(discriminate)).
    apply (before_discovery_methods g w SsdTemp). }
  destruct (@discover_settles py e s0 SsdTemp s1 Hst Hak1 Hm1 Hssd)
    as ([rs Hss] & Hak2 & Hoth2).
  rewrite <- Hsnd in Hss, Hak2, Hoth2.
  assert (Hsc' : settled py s0 CpuTemp (self (snd c)) rc)
    by (apply (@settled_slot py s0 CpuTemp (self s1) (self (snd c)) rc
                 (Hoth2 CpuTemp ltac:(discriminate)) Hsc)).
  assert (Hall : forall m', exists r, settled py s0 m' (self (snd c)) r)
    by (intros []; eauto).
  (* the invariant of the operations *)
  assert (Hstep : forall s', akin e s0 s' /\ self s' = self (snd c) ->
            forall o, akin e s0 (run_op py o s') /\
                      self (run_op py o s') = self (snd c)).
  { intros s' [Hak Hself] o.
    assert (Hget : forall m' t, akin e s0 t -> self t = self (snd c) ->
              akin e s0 (snd (get_metric py m' t)) /\
              self (snd (get_metric py m' t)) = self (snd c)).
    { intros m' t Ht Hst'. destruct (Hall m') as [r Hr].
      rewrite <- Hst' in Hr.
      destruct (get_metric_settled Hst Ht Hr) as (_ & A & B).
      split; [exact B | congruence]. }
    destruct o as [m'|]; cbn [run_op]; [apply Hget; assumption|].
    set (P := fun t => akin e s0 t /\ self t = self (snd c)).
    assert (Hos : forall A (f : Env -> Res A) t, P t -> P (snd (os_call f t))).
    { intros A f t [Ht1 Ht2]. split; [apply os_call_akin, Ht1 | exact Ht2]. }
    assert (Hacc : forall m' t, P t -> P (snd (get_metric py m' t)))
      by (intros m' t [Ht1 Ht2]; apply Hget; assumption).
    change (P (snd (read_sensors py s'))).
    assert (HP : P s') by (split; assumption).
    revert HP. generalize s'. unfold read_sensors.
    apply bind_preserves; [apply Hos | intros ts].
    apply bind_preserves; [apply Hos | intros cp].
    apply bind_preserves; [apply Hos | intros rp].
    apply bind_preserves; [apply Hos | intros dp].
    apply bind_preserves; [apply (Hacc CpuTemp) | intros ct].
    apply bind_preserves; [apply (Hacc SsdTemp) | intros st].
    intros t Ht. exact Ht. }
  assert (Hinv : forall ops' s',
            akin e s0 s' /\ self s' = self (snd c) ->
            akin e s0 (run_ops py ops' s') /\
            self (run_ops py ops' s') = self (snd c)).
  { induction ops' as [|o ops' IH]; intros s' H; [exact H|].
    cbn [run_ops fold_left]. apply IH, Hstep, H. }
  destruct (Hinv ops (snd c) (conj Hak2 eq_refl)) as [Hak Hself].
  fold s in Hak, Hself.
  destruct (Hall m) as [r Hr].
  assert (Hr' : settled py s0 m (self s) r) by (rewrite Hself; exact Hr).
  destruct (get_metric_settled Hst Hak Hr') as (Hv & _).
  destruct (get_metric_settled Hst Hak2 Hr) as (Hv0 & _).
  split; [exact Hself|]. split; [congruence|].
  exists r. split; [exact Hv|].
  destruct Hr as [(Hm & -> & _) | (name & func & v & Hm & -> & _)].
  - tauto.
  - rewrite Hm. split; discriminate.
Qed.

Lemma steady_world_stable_witness :
  let c := construct ascii_builtins workstation (fun _ => env_provider) in
  let s := run_ops ascii_builtins
             [ReadSensors; GetTemperature SsdTemp; GetTemperature CpuTemp]
             (snd c) in
  fst c = Ok tt /\
  self s = self (snd c) /\
  fst (get_metric ascii_builtins CpuTemp s) = Ok (Some (423 # 10)).
Proof.
  intros c s.
  assert (Hret : fst c = Ok tt) by reflexivity.
  destruct (@steady_world_stable ascii_builtins workstation env_provider
              [ReadSensors; GetTemperature SsdTemp; GetTemperature CpuTemp]
              CpuTemp Hret) as (Hself & Hsame & _).
  split; [exact Hret|]. split; [exact Hself|].
  fold c s in Hsame. rewrite Hsame. reflexivity.
Defined.
